(** * Deployment-step resource handlers of the Octopus Deploy Terraform provider

    A shallow embedding of the deployment-step handlers
    ([resource_deployment_step.go], its later revision with the
    [first_step] flag, and [resource_deployment_step_iis_website.go]),
    followed by the properties of the step splice, of the error paths and
    of the property-bag mapping.

    Conventions of the embedding:
    - a Go [int] is a [Z]; the handlers only count list positions, so no
      wrap-around can occur;
    - a Go [string] is a [string], a [map[string]string] a
      [gmap string string], an [interface{}] a [value];
    - a slice built with [append] is a [list] extended at its end;
    - [for i, x := range xs] is [range_loop];
    - a run-time panic (failed type assertion, index out of range) is
      [None], or [Panicked] at the level of a handler;
    - [log.Printf] has no effect on any value and is left out. *)

From stdpp Require Import gmap strings list.

Set Warnings "-register-all".
Local Open Scope Z_scope.

(** ** Go control flow and the pieces of the Go standard library in use *)

(** [for stepIndex, x := range xs { s = body stepIndex x s }], started at
    index [i]. *)
Fixpoint range_loop {A S : Type} (body : Z → A → S → S)
    (xs : list A) (i : Z) (s : S) : S :=
  match xs with
  | [] => s
  | x :: rest => range_loop body rest (i + 1) (body i x s)
  end.

(** [xs[i]] for an [int] index: [None] is the index-out-of-range panic. *)
Definition index {A : Type} (xs : list A) (i : Z) : option A :=
  if bool_decide (0 ≤ i) then xs !! Z.to_nat i else None.

(** [strconv.FormatBool] *)
Definition strconv_FormatBool (b : bool) : string :=
  if b then "true" else "false".

(** [strconv.ParseBool]: [None] when it returns an error. *)
Definition strconv_ParseBool (str : string) : option bool :=
  if bool_decide (str ∈ ["1"; "t"; "T"; "TRUE"; "true"; "True"])
  then Some true
  else if bool_decide (str ∈ ["0"; "f"; "F"; "FALSE"; "false"; "False"])
  then Some false
  else None.

(** [strings.Contains] *)
Fixpoint strings_Contains (s substr : string) : bool :=
  String.prefix substr s
  || match s with
     | EmptyString => false
     | String _ rest => strings_Contains rest substr
     end.

(** The comma; the line feed, and the string made of it. *)
Definition comma_byte : Ascii.ascii := Ascii.ascii_of_nat 44.
Definition newline_byte : Ascii.ascii := Ascii.ascii_of_nat 10.
Definition newline : string := String newline_byte "".

(** [strings.Join] *)
Definition strings_Join (elems : list string) (sep : string) : string :=
  String.concat sep elems.

(** [strings.Split] for a separator of one byte, which it is in both
    calls ([","] and a newline). *)
Fixpoint strings_Split (s : string) (sep : Ascii.ascii) : list string :=
  match s with
  | EmptyString => [""]
  | String c rest =>
      if Ascii.eqb c sep then "" :: strings_Split rest sep
      else match strings_Split rest sep with
           | [] => [String c ""]
           | word :: words => String c word :: words
           end
  end.

(** ** The client library's data (package [octopusdeploy]) *)

Record DeploymentAction := mkDeploymentAction {
  action_Name : string;
  action_IsRequired : bool;
  action_ActionType : string;
  action_Properties : gmap string string;
}.

Record DeploymentStep := mkDeploymentStep {
  step_ID : string;
  step_Name : string;
  step_PackageRequirement : string;
  step_Condition : string;
  step_StartTrigger : string;
  step_Properties : gmap string string;
  step_Actions : list DeploymentAction;
}.

Record DeploymentProcess := mkDeploymentProcess {
  process_ID : string;
  process_Steps : list DeploymentStep;
}.

Record Project := mkProject {
  project_DeploymentProcessID : string;
}.

Definition set_step_ID (s : DeploymentStep) (id : string) : DeploymentStep :=
  mkDeploymentStep id (step_Name s) (step_PackageRequirement s)
    (step_Condition s) (step_StartTrigger s) (step_Properties s)
    (step_Actions s).

Definition set_process_Steps (p : DeploymentProcess)
    (steps : list DeploymentStep) : DeploymentProcess :=
  mkDeploymentProcess (process_ID p) steps.

Global Instance DeploymentAction_eq_dec : EqDecision DeploymentAction.
Proof. solve_decision. Defined.
Global Instance DeploymentStep_eq_dec : EqDecision DeploymentStep.
Proof. solve_decision. Defined.

(** An [error] value.  The handlers tell the client library's sentinel
    [octopusdeploy.ErrItemNotFound] from every other error by [==], and
    build their own errors with [fmt.Errorf]. *)
Inductive error :=
  | ErrItemNotFound
  | errorString (msg : string).

Global Instance error_eq_dec : EqDecision error.
Proof. solve_decision. Defined.

(** What a client call returns: [(x, nil)] or [(_, err)] with [err]
    not nil. *)
Inductive result (A : Type) :=
  | Ok (x : A)
  | Err (err : error).
Arguments Ok {A} x.
Arguments Err {A} err.

(** [*octopusdeploy.Client], over a remote server in state [Server]:
    each call may read and change the state of the server. *)
Record Client (Server : Type) := mkClient {
  Project_Get : string → Server → result Project * Server;
  DeploymentProcess_Get :
    string → Server → result DeploymentProcess * Server;
  DeploymentProcess_Update :
    DeploymentProcess → Server → result DeploymentProcess * Server;
}.
Arguments Project_Get {Server} _ _ _.
Arguments DeploymentProcess_Get {Server} _ _ _.
Arguments DeploymentProcess_Update {Server} _ _ _.

(** ** The Terraform SDK's [schema.ResourceData] *)

(** An [interface{}] as the SDK hands it out: a string, a bool, a list
    (a [schema.Set] is read through [List()], so it is a list as well)
    or a [map[string]interface{}]. *)
Inductive value :=
  | VString (s : string)
  | VBool (b : bool)
  | VList (l : list value)
  | VMap (m : gmap string value).

(** The resource identifier and the attributes.  The SDK fills in the
    schema's defaults before a handler runs and converts what [Set]
    receives to the schema's type; here an attribute is what was last
    stored under its name. *)
Record ResourceData := mkResourceData {
  Id : string;
  attrs : gmap string value;
}.

Definition SetId (d : ResourceData) (id : string) : ResourceData :=
  mkResourceData id (attrs d).

(** [d.Set(key, v)]; the handlers drop the error it returns. *)
Definition Set_ (d : ResourceData) (key : string) (v : value)
  : ResourceData :=
  mkResourceData (Id d) (<[key := v]> (attrs d)).

(** [d.Get(key).(string)] on a [TypeString] attribute: the zero value
    when the attribute is not set. *)
Definition GetString (d : ResourceData) (key : string) : string :=
  match attrs d !! key with
  | Some (VString s) => s
  | _ => ""
  end.

(** [d.Get(key).(bool)] on a [TypeBool] attribute. *)
Definition GetBool (d : ResourceData) (key : string) : bool :=
  match attrs d !! key with
  | Some (VBool b) => b
  | _ => false
  end.

Definition is_zero (v : value) : bool :=
  match v with
  | VString s => bool_decide (s = "")
  | VBool b => negb b
  | VList l => bool_decide (length l = 0%nat)
  | VMap m => bool_decide (size m = 0%nat)
  end.

(** [d.GetOk(key)]: the value, when the attribute is set to something
    other than the zero value of its type. *)
Definition GetOk (d : ResourceData) (key : string) : option value :=
  match attrs d !! key with
  | Some v => if is_zero v then None else Some v
  | None => None
  end.

(** Type assertions to [string], to [bool], to a list (a slice of
    [interface{}], or a pointer to a [schema.Set] read through [List()])
    and to a [map[string]interface{}]: [None] is the panic of a failed
    assertion. *)
Definition as_string (v : value) : option string :=
  match v with VString s => Some s | _ => None end.
Definition as_bool (v : value) : option bool :=
  match v with VBool b => Some b | _ => None end.
Definition as_list (v : value) : option (list value) :=
  match v with VList l => Some l | _ => None end.
Definition as_map (v : value) : option (gmap string value) :=
  match v with VMap m => Some m | _ => None end.

(** [m[key].(string)] and [m[key].(bool)] on a
    [map[string]interface{}]: a missing key gives [nil], on which the
    assertion panics. *)
Definition field_string (m : gmap string value) (key : string)
  : option string := m !! key ≫= as_string.
Definition field_bool (m : gmap string value) (key : string)
  : option bool := m !! key ≫= as_bool.

(** [deploymentStep.Actions[0].Properties]: [None] is the panic on a
    step without action. *)
Definition action0_Properties (deploymentStep : DeploymentStep)
  : option (gmap string string) :=
  action_Properties <$> head (step_Actions deploymentStep).

(** [deploymentStep.Actions[0].Properties[key]], the zero value when the
    key is missing. *)
Definition action0_property (deploymentStep : DeploymentStep)
    (key : string) : option string :=
  props ← action0_Properties deploymentStep;
  Some (default "" (props !! key)).

Definition set_action_Properties (a : DeploymentAction)
    (props : gmap string string) : DeploymentAction :=
  mkDeploymentAction (action_Name a) (action_IsRequired a)
    (action_ActionType a) props.

Definition set_step_Actions (s : DeploymentStep)
    (actions : list DeploymentAction) : DeploymentStep :=
  mkDeploymentStep (step_ID s) (step_Name s) (step_PackageRequirement s)
    (step_Condition s) (step_StartTrigger s) (step_Properties s) actions.

Definition set_step_Properties (s : DeploymentStep)
    (props : gmap string string) : DeploymentStep :=
  mkDeploymentStep (step_ID s) (step_Name s) (step_PackageRequirement s)
    (step_Condition s) (step_StartTrigger s) props (step_Actions s).

(** [deploymentStep.Actions[0].Properties[key] = v] *)
Definition set_action0_property (deploymentStep : DeploymentStep)
    (key v : string) : option DeploymentStep :=
  match step_Actions deploymentStep with
  | [] => None
  | a :: rest =>
      Some (set_step_Actions deploymentStep
              (set_action_Properties a (<[key := v]> (action_Properties a))
               :: rest))
  end.

(** [deploymentStep.Actions[0].Properties[key] += v] *)
Definition append_action0_property (deploymentStep : DeploymentStep)
    (key v : string) : option DeploymentStep :=
  old ← action0_property deploymentStep key;
  set_action0_property deploymentStep key (old +:+ v).

(** How a handler ends: it returns an error or [nil], or it panics.
    Either way the server is left in some state. *)
Inductive outcome (Server : Type) :=
  | Returned (err : option error) (d : ResourceData) (srv : Server)
  | Panicked (srv : Server).
Arguments Returned {Server} err d srv.
Arguments Panicked {Server} srv.

(** The step builders and schema setters the handlers are given. *)
Definition build_func : Type :=
  ResourceData → option (DeploymentStep * ResourceData).
Definition set_schema_func : Type :=
  ResourceData → DeploymentStep → option ResourceData.

(** The local type [bindingsStruct] of [buildIisWebsiteDeploymentStep]. *)
Record bindingsStruct := mkBindingsStruct {
  Protocol : option string;
  IpAddress : option string;
  Port : option string;
  Host : option string;
  Thumbprint : option string;
  CertificateVariable : option string;
  RequireSni : bool;
  Enabled : bool;
}.

(** What these sources use of the client library and of the rest of the
    provider without defining it. *)
Class Externals := mkExternals {
  (** [octopusdeploy.ErrItemNotFound.Error()] *)
  ErrItemNotFound_Error : string;
  (** the provider's [formatBool] *)
  formatBool : bool → string;
  (** the provider's [formatStrPtr]; a [*string] may be [nil] *)
  formatStrPtr : string → option string;
  (** the provider's [getSliceFromTerraformTypeList]; [None] if it
      panics *)
  getSliceFromTerraformTypeList : value → option (list string);
  (** [json.Marshal] on a [[]bindingsStruct], as a string *)
  json_Marshal : list bindingsStruct → string;
  (** [strings.ToLower] *)
  strings_ToLower : string → string;
}.

(** [err.Error()] *)
Definition Error `{Externals} (err : error) : string :=
  match err with
  | ErrItemNotFound => ErrItemNotFound_Error
  | errorString msg => msg
  end.

(** ** The step splice of [resource_deployment_step.go]
    (fields [before_step_id] and [after_step_id]) *)

Module BeforeAfter.

(** The state of the loops: [deploymentProcess.Steps] as rebuilt so far,
    and [newStepAddedIndex]. *)
Definition splice_state : Type := list DeploymentStep * Z.

(** One iteration of the loop of [resourceDeploymentStepCreate]. *)
Definition create_body (beforeStepId afterStepId : string)
    (newDeploymentStep : DeploymentStep)
    (stepIndex : Z) (orgDeploymentStep : DeploymentStep)
    (st : splice_state) : splice_state :=
  let '(Steps, newStepAddedIndex) := st in
  let '(Steps, newStepAddedIndex) :=
    if (newStepAddedIndex =? -1)
       && bool_decide (step_ID orgDeploymentStep = beforeStepId)
    then (Steps ++ [newDeploymentStep], stepIndex)
    else (Steps, newStepAddedIndex) in
  let Steps := Steps ++ [orgDeploymentStep] in
  if (newStepAddedIndex =? -1)
     && bool_decide (step_ID orgDeploymentStep = afterStepId)
  then (Steps ++ [newDeploymentStep], stepIndex + 1)
  else (Steps, newStepAddedIndex).

(** The append after a loop that inserted nothing. *)
Definition append_if_not_added (newDeploymentStep : DeploymentStep)
    (st : splice_state) : splice_state :=
  let '(Steps, newStepAddedIndex) := st in
  if newStepAddedIndex =? -1
  then (Steps ++ [newDeploymentStep], Z.of_nat (length Steps))
  else (Steps, newStepAddedIndex).

(** "Add Step Appropiately into Deployment Steps": the new
    [deploymentProcess.Steps] and [newStepAddedIndex]. *)
Definition create_splice (beforeStepId afterStepId : string)
    (newDeploymentStep : DeploymentStep)
    (orgDeploymentSteps : list DeploymentStep) : splice_state :=
  append_if_not_added newDeploymentStep
    (range_loop (create_body beforeStepId afterStepId newDeploymentStep)
       orgDeploymentSteps 0 ([], -1)).

(** One iteration of the loop of [resourceDeploymentStepUpdate]. *)
Definition update_body (stepId beforeStepId afterStepId : string)
    (newDeploymentStep : DeploymentStep)
    (stepIndex : Z) (orgDeploymentStep : DeploymentStep)
    (st : splice_state) : splice_state :=
  let '(Steps, newStepAddedIndex) := st in
  let '(Steps, newStepAddedIndex) :=
    if (newStepAddedIndex =? -1)
       && bool_decide (step_ID orgDeploymentStep = beforeStepId)
    then (Steps ++ [newDeploymentStep], stepIndex)
    else (Steps, newStepAddedIndex) in
  let Steps :=
    if bool_decide (step_ID orgDeploymentStep ≠ stepId)
    then Steps ++ [orgDeploymentStep] else Steps in
  if (newStepAddedIndex =? -1)
     && bool_decide (step_ID orgDeploymentStep = afterStepId)
  then (Steps ++ [newDeploymentStep], stepIndex + 1)
  else (Steps, newStepAddedIndex).

(** "Update Step". *)
Definition update_splice (stepId beforeStepId afterStepId : string)
    (newDeploymentStep : DeploymentStep)
    (orgDeploymentSteps : list DeploymentStep) : splice_state :=
  append_if_not_added newDeploymentStep
    (range_loop
       (update_body stepId beforeStepId afterStepId newDeploymentStep)
       orgDeploymentSteps 0 ([], -1)).

(** One iteration of the loop of [resourceDeploymentStepDelete]. *)
Definition delete_body (stepId : string)
    (_ : Z) (orgDeploymentStep : DeploymentStep)
    (Steps : list DeploymentStep) : list DeploymentStep :=
  if bool_decide (step_ID orgDeploymentStep ≠ stepId)
  then Steps ++ [orgDeploymentStep] else Steps.

(** "Remove Step". *)
Definition delete_splice (stepId : string)
    (orgDeploymentSteps : list DeploymentStep) : list DeploymentStep :=
  range_loop (delete_body stepId) orgDeploymentSteps 0 [].

(** The search of [resourceDeploymentStepRead]: the first step with the
    identifier, the loop breaking there. *)
Fixpoint read_loop (stepId : string) (Steps : list DeploymentStep)
  : option DeploymentStep :=
  match Steps with
  | [] => None
  | findDeploymentStep :: rest =>
      if bool_decide (step_ID findDeploymentStep = stepId)
      then Some findDeploymentStep
      else read_loop stepId rest
  end.

Section Handlers.
Context `{Externals} {Server : Type}.

Definition resourceDeploymentStepCreate (d : ResourceData)
    (m : Client Server) (buildDeploymentProcessStepFunc : build_func)
    (srv : Server) : outcome Server :=
  let projectId := GetString d "project_id" in
  let beforeStepId := GetString d "before_step_id" in
  let afterStepId := GetString d "after_step_id" in
  (* Find Deployment Process *)
  match Project_Get m projectId srv with
  | (Err err, srv) =>
      Returned (Some (errorString
        ("error loading project '" +:+ projectId +:+ "': "
         +:+ Error err))) d srv
  | (Ok project, srv) =>
  match DeploymentProcess_Get m (project_DeploymentProcessID project) srv
  with
  | (Err err, srv) =>
      Returned (Some (errorString
        ("error reading deployment process '"
         +:+ project_DeploymentProcessID project +:+ "': "
         +:+ Error err))) d srv
  | (Ok deploymentProcess, srv) =>
  (* Create Deployment Process Step *)
  match buildDeploymentProcessStepFunc d with
  | None => Panicked srv
  | Some (newDeploymentStep, d) =>
  (* Add Step Appropiately into Deployment Steps *)
  let '(Steps, newStepAddedIndex) :=
    create_splice beforeStepId afterStepId newDeploymentStep
      (process_Steps deploymentProcess) in
  let deploymentProcess := set_process_Steps deploymentProcess Steps in
  (* Update Deployment Process with new Step *)
  match DeploymentProcess_Update m deploymentProcess srv with
  | (Err err, srv) =>
      Returned (Some (errorString
        ("error updating deployment process for project: "
         +:+ Error err))) d srv
  | (Ok updateDeploymentProcess, srv) =>
  (* Set Ids *)
  let d := Set_ d "deployment_process_id"
             (VString (process_ID updateDeploymentProcess)) in
  match index (process_Steps updateDeploymentProcess) newStepAddedIndex
  with
  | None => Panicked srv
  | Some addedStep => Returned None (SetId d (step_ID addedStep)) srv
  end end end end end.

Definition resourceDeploymentStepRead (d : ResourceData)
    (m : Client Server) (setSchemaFunc : set_schema_func)
    (srv : Server) : outcome Server :=
  (* Get Id's *)
  let stepId := Id d in
  let processId := GetString d "deployment_process_id" in
  (* Load Step Information *)
  match DeploymentProcess_Get m processId srv with
  | (Err err, srv) =>
      if bool_decide (err = ErrItemNotFound)
      then Returned None (SetId d "") srv
      else Returned (Some (errorString
        ("error reading deployment process '" +:+ processId +:+ "': "
         +:+ Error err))) d srv
  | (Ok deploymentProcess, srv) =>
  match read_loop stepId (process_Steps deploymentProcess) with
  | None => Returned None (SetId d "") srv
  | Some deploymentStep =>
  (* Set Schema *)
  match setSchemaFunc d deploymentStep with
  | None => Panicked srv
  | Some d => Returned None d srv
  end end end.

Definition resourceDeploymentStepUpdate (d : ResourceData)
    (m : Client Server) (buildDeploymentProcessStepFunc : build_func)
    (srv : Server) : outcome Server :=
  (* Get Id's *)
  let stepId := Id d in
  let processId := GetString d "deployment_process_id" in
  let beforeStepId := GetString d "before_step_id" in
  let afterStepId := GetString d "after_step_id" in
  (* Load Deployment Process *)
  match DeploymentProcess_Get m processId srv with
  | (Err err, srv) =>
      if bool_decide (err = ErrItemNotFound)
      then Returned None (SetId d "") srv
      else Returned (Some (errorString
        ("error reading deployment process id " +:+ processId +:+ ": "
         +:+ Error err))) d srv
  | (Ok deploymentProcess, srv) =>
  (* Create Deployment Process Step *)
  match buildDeploymentProcessStepFunc d with
  | None => Panicked srv
  | Some (newDeploymentStep, d) =>
  let newDeploymentStep := set_step_ID newDeploymentStep stepId in
  (* Update Step *)
  let '(Steps, newStepAddedIndex) :=
    update_splice stepId beforeStepId afterStepId newDeploymentStep
      (process_Steps deploymentProcess) in
  let deploymentProcess := set_process_Steps deploymentProcess Steps in
  (* Update Deployment Process with Step Removed *)
  match DeploymentProcess_Update m deploymentProcess srv with
  | (Err err, srv) =>
      Returned (Some (errorString
        ("error updating deployment process for project: "
         +:+ Error err))) d srv
  | (Ok _, srv) => Returned None d srv
  end end end.

Definition resourceDeploymentStepDelete (d : ResourceData)
    (m : Client Server) (srv : Server) : outcome Server :=
  (* Get Id's *)
  let stepId := Id d in
  let processId := GetString d "deployment_process_id" in
  (* Load Deployment Process *)
  match DeploymentProcess_Get m processId srv with
  | (Err err, srv) =>
      if bool_decide (err = ErrItemNotFound)
      then Returned None (SetId d "") srv
      else Returned (Some (errorString
        ("error reading deployment process id " +:+ processId +:+ ": "
         +:+ Error err))) d srv
  | (Ok deploymentProcess, srv) =>
  (* Remove Step *)
  let Steps := delete_splice stepId (process_Steps deploymentProcess) in
  let deploymentProcess := set_process_Steps deploymentProcess Steps in
  (* Update Deployment Process with Step Removed *)
  match DeploymentProcess_Update m deploymentProcess srv with
  | (Err err, srv) =>
      Returned (Some (errorString
        ("error updating deployment process for project: "
         +:+ Error err))) d srv
  | (Ok _, srv) =>
      (* Set Id *)
      Returned None (SetId d "") srv
  end end.
End Handlers.

End BeforeAfter.

(** ** The later revision of [resource_deployment_step.go]
    (fields [first_step] and [after_step_id], script and application
    pool properties) *)

Module FirstStep.

Definition splice_state : Type := list DeploymentStep * Z.

(** One iteration of the loop of [resourceDeploymentStepCreate]. *)
Definition create_body (firstStep : bool) (afterStepId : string)
    (newDeploymentStep : DeploymentStep)
    (stepIndex : Z) (orgDeploymentStep : DeploymentStep)
    (st : splice_state) : splice_state :=
  let '(Steps, newStepAddedIndex) := st in
  let '(Steps, newStepAddedIndex) :=
    if firstStep && (stepIndex =? 0)
    then (Steps ++ [newDeploymentStep], stepIndex)
    else (Steps, newStepAddedIndex) in
  let Steps := Steps ++ [orgDeploymentStep] in
  if (newStepAddedIndex =? -1)
     && bool_decide (step_ID orgDeploymentStep = afterStepId)
  then (Steps ++ [newDeploymentStep], stepIndex + 1)
  else (Steps, newStepAddedIndex).

Definition append_if_not_added (newDeploymentStep : DeploymentStep)
    (st : splice_state) : splice_state :=
  let '(Steps, newStepAddedIndex) := st in
  if newStepAddedIndex =? -1
  then (Steps ++ [newDeploymentStep], Z.of_nat (length Steps))
  else (Steps, newStepAddedIndex).

Definition create_splice (firstStep : bool) (afterStepId : string)
    (newDeploymentStep : DeploymentStep)
    (orgDeploymentSteps : list DeploymentStep) : splice_state :=
  append_if_not_added newDeploymentStep
    (range_loop (create_body firstStep afterStepId newDeploymentStep)
       orgDeploymentSteps 0 ([], -1)).

(** One iteration of the loop of [resourceDeploymentStepUpdate]. *)
Definition update_body (stepId : string) (firstStep : bool)
    (afterStepId : string) (newDeploymentStep : DeploymentStep)
    (stepIndex : Z) (orgDeploymentStep : DeploymentStep)
    (st : splice_state) : splice_state :=
  let '(Steps, newStepAddedIndex) := st in
  let '(Steps, newStepAddedIndex) :=
    if firstStep && (stepIndex =? 0)
    then (Steps ++ [newDeploymentStep], stepIndex)
    else (Steps, newStepAddedIndex) in
  let Steps :=
    if bool_decide (step_ID orgDeploymentStep ≠ stepId)
    then Steps ++ [orgDeploymentStep] else Steps in
  if (newStepAddedIndex =? -1)
     && bool_decide (step_ID orgDeploymentStep = afterStepId)
  then (Steps ++ [newDeploymentStep], stepIndex + 1)
  else (Steps, newStepAddedIndex).

Definition update_splice (stepId : string) (firstStep : bool)
    (afterStepId : string) (newDeploymentStep : DeploymentStep)
    (orgDeploymentSteps : list DeploymentStep) : splice_state :=
  append_if_not_added newDeploymentStep
    (range_loop (update_body stepId firstStep afterStepId newDeploymentStep)
       orgDeploymentSteps 0 ([], -1)).

(** One iteration of the loop of [resourceDeploymentStepDelete]. *)
Definition delete_body (stepId : string)
    (_ : Z) (orgDeploymentStep : DeploymentStep)
    (Steps : list DeploymentStep) : list DeploymentStep :=
  if bool_decide (step_ID orgDeploymentStep ≠ stepId)
  then Steps ++ [orgDeploymentStep] else Steps.

Definition delete_splice (stepId : string)
    (orgDeploymentSteps : list DeploymentStep) : list DeploymentStep :=
  range_loop (delete_body stepId) orgDeploymentSteps 0 [].

(** The variables of the search of [resourceDeploymentStepRead]. *)
Record read_state := mkReadState {
  deploymentStep : option DeploymentStep;
  prevDeploymentStep : option DeploymentStep;
  firstStep : bool;
}.

(** The search, from index [stepIndex]; it breaks at the first step with
    the identifier. *)
Fixpoint read_loop (stepId : string) (Steps : list DeploymentStep)
    (stepIndex : Z) (st : read_state) : read_state :=
  match Steps with
  | [] => st
  | findDeploymentStep :: rest =>
      if bool_decide (step_ID findDeploymentStep = stepId)
      then mkReadState (Some findDeploymentStep) (prevDeploymentStep st)
             (if stepIndex =? 0 then true else firstStep st)
      else read_loop stepId rest (stepIndex + 1)
             (mkReadState (deploymentStep st) (deploymentStep st)
                (firstStep st))
  end.

Section Builders.
Context `{Externals}.

(** "Shared Create Step Functions" *)
Definition resourceDeploymentStep_CreateBasicStep (d : ResourceData)
    (actionType : string) : option DeploymentStep :=
  (* Get Basic Step Properties *)
  let stepName := GetString d "step_name" in
  let stepCondition := GetString d "step_condition" in
  let required := GetBool d "required" in
  let stepStartTrigger := GetString d "step_start_trigger" in
  (* Create Deployment Step *)
  let deploymentStep :=
    mkDeploymentStep "" stepName "LetOctopusDecide" stepCondition
      stepStartTrigger ∅
      [mkDeploymentAction stepName required actionType ∅] in
  (* Add Run On Server *)
  deploymentStep ←
    match GetOk d "run_on_server" with
    | Some runOnServer =>
        b ← as_bool runOnServer;
        set_action0_property deploymentStep "Octopus.Action.RunOnServer"
          (strconv_FormatBool b)
    | None => Some deploymentStep
    end;
  (* Add Target Roles *)
  match GetOk d "target_roles" with
  | Some targetRoles =>
      roles ← getSliceFromTerraformTypeList targetRoles;
      Some (set_step_Properties deploymentStep
              (<["Octopus.Action.TargetRoles" := strings_Join roles ","]>
                 (step_Properties deploymentStep)))
  | None => Some deploymentStep
  end.

(** "Setup per Script Type": [scriptProp] and the start of
    [scriptName]; both stay empty for any other [scriptType]. *)
Definition script_setup (scriptType : string) : string * string :=
  if bool_decide (scriptType = "pre")
  then ("pre_deploy_script", "PreDeploy")
  else if bool_decide (scriptType = "deploy")
  then ("deploy_script", "Deploy")
  else if bool_decide (scriptType = "post")
  then ("post_deploy_script", "PostDeploy")
  else ("", "").

Definition resourceDeploymentStep_AddPackageProperties_DeployScript
    (d : ResourceData) (deploymentStep : DeploymentStep)
    (scriptType : string) : option DeploymentStep :=
  let '(scriptProp, scriptName) := script_setup scriptType in
  (* Check for Script Property *)
  match GetOk d scriptProp with
  | Some rawScript =>
      scriptSet ← as_list rawScript;
      match scriptSet with
      | [] => Some deploymentStep
      | first :: _ =>
          script ← as_map first;
          (* Set name extension per type *)
          type ← field_string script "type";
          let scriptName :=
            if bool_decide (type = "PowerShell")
            then scriptName +:+ ".ps1"
            else if bool_decide (type = "CSharp")
            then scriptName +:+ ".csx"
            else if bool_decide (type = "Bash")
            then scriptName +:+ ".sh"
            else if bool_decide (type = "FSharp")
            then scriptName +:+ ".fsx"
            else scriptName in
          (* Add action properties *)
          body ← field_string script "body";
          deploymentStep ←
            set_action0_property deploymentStep
              ("Octopus.Action.CustomScripts." +:+ scriptName) body;
          features ←
            action0_property deploymentStep
              "Octopus.Action.EnabledFeatures";
          if negb (strings_Contains features
                     "Octopus.Features.CustomScripts")
          then append_action0_property deploymentStep
                 "Octopus.Action.EnabledFeatures"
                 ",Octopus.Features.CustomScripts"
          else Some deploymentStep
      end
  | None => Some deploymentStep
  end.

Definition resourceDeploymentStep_AddPackageProperties
    (d : ResourceData) (deploymentStep : DeploymentStep)
  : option DeploymentStep :=
  (* Package Properties *)
  deploymentStep ←
    set_action0_property deploymentStep
      "Octopus.Action.Package.DownloadOnTentacle" "False";
  deploymentStep ←
    set_action0_property deploymentStep "Octopus.Action.Package.FeedId"
      (GetString d "feed_id");
  deploymentStep ←
    set_action0_property deploymentStep
      "Octopus.Action.Package.PackageId" (GetString d "package");
  (* Add Configuration Transformation Properties *)
  deploymentStep ←
    match GetOk d "json_file_variable_replacement" with
    | Some jsonFileVariableReplacement =>
        targets ← as_string jsonFileVariableReplacement;
        deploymentStep ←
          set_action0_property deploymentStep
            "Octopus.Action.Package.JsonConfigurationVariablesTargets"
            targets;
        deploymentStep ←
          set_action0_property deploymentStep
            "Octopus.Action.Package.JsonConfigurationVariablesEnabled"
            "True";
        append_action0_property deploymentStep
          "Octopus.Action.EnabledFeatures"
          ",Octopus.Features.JsonConfigurationVariables"
    | None => Some deploymentStep
    end;
  deploymentStep ←
    match GetOk d "variable_substitution_in_files" with
    | Some variableSubstitutionInFiles =>
        files ← getSliceFromTerraformTypeList variableSubstitutionInFiles;
        deploymentStep ←
          set_action0_property deploymentStep
            "Octopus.Action.SubstituteInFiles.TargetFiles"
            (strings_Join files newline);
        deploymentStep ←
          set_action0_property deploymentStep
            "Octopus.Action.SubstituteInFiles.Enabled" "True";
        append_action0_property deploymentStep
          "Octopus.Action.EnabledFeatures"
          ",Octopus.Features.SubstituteInFiles"
    | None => Some deploymentStep
    end;
  deploymentStep ←
    (let configurationTransforms := GetBool d "configuration_transforms" in
     if configurationTransforms then
       deploymentStep ←
         set_action0_property deploymentStep
           "Octopus.Action.Package.AutomaticallyRunConfigurationTransformationFiles"
           (formatBool configurationTransforms);
       append_action0_property deploymentStep
         "Octopus.Action.EnabledFeatures"
         ",Octopus.Features.ConfigurationTransforms"
     else Some deploymentStep);
  deploymentStep ←
    (let configurationVariables := GetBool d "configuration_variables" in
     if configurationVariables then
       deploymentStep ←
         set_action0_property deploymentStep
           "Octopus.Action.Package.AutomaticallyUpdateAppSettingsAndConnectionStrings"
           (formatBool configurationVariables);
       append_action0_property deploymentStep
         "Octopus.Action.EnabledFeatures"
         ",Octopus.Features.ConfigurationVariables"
     else Some deploymentStep);
  deploymentStep ←
    resourceDeploymentStep_AddPackageProperties_DeployScript d
      deploymentStep "pre";
  deploymentStep ←
    resourceDeploymentStep_AddPackageProperties_DeployScript d
      deploymentStep "deploy";
  resourceDeploymentStep_AddPackageProperties_DeployScript d
    deploymentStep "post".

(** The prefix of the application pool keys. *)
Definition iis_propPrefix (iisType : string) : string :=
  if bool_decide (iisType = "IISWebSite")
  then "Octopus.Action.IISWebSite"
  else "Octopus.Action.IISWebSite." +:+ iisType.

Definition resourceDeploymentStep_AddIisAppPoolProperties
    (d : ResourceData) (deploymentStep : DeploymentStep)
    (iisType : string) : option DeploymentStep :=
  let propPrefix := iis_propPrefix iisType in
  match GetOk d "application_pool" with
  | Some rawAppPool =>
      appPoolSet ← as_list rawAppPool;
      match appPoolSet with
      | [] => Some deploymentStep
      | first :: _ =>
          appPool ← as_map first;
          name ← field_string appPool "name";
          deploymentStep ←
            set_action0_property deploymentStep
              (propPrefix +:+ ".ApplicationPoolName") name;
          framework ← field_string appPool "framework";
          deploymentStep ←
            set_action0_property deploymentStep
              (propPrefix +:+ ".ApplicationPoolFrameworkVersion")
              framework;
          identity ← field_string appPool "identity";
          deploymentStep ←
            set_action0_property deploymentStep
              (propPrefix +:+ ".ApplicationPoolIdentityType") identity;
          deploymentStep ←
            match appPool !! "username" with
            | Some appPoolUser =>
                user ← as_string appPoolUser;
                set_action0_property deploymentStep
                  (propPrefix +:+ ".ApplicationPoolUsername") user
            | None => Some deploymentStep
            end;
          deploymentStep ←
            match appPool !! "password" with
            | Some appPoolPassword =>
                password ← as_string appPoolPassword;
                set_action0_property deploymentStep
                  (propPrefix +:+ ".ApplicationPoolPassword") password
            | None => Some deploymentStep
            end;
          start ← field_bool appPool "start";
          set_action0_property deploymentStep
            "Octopus.Action.IISWebSite.StartApplicationPool"
            (formatBool start)
      end
  | None => Some deploymentStep
  end.
End Builders.

Section Setters.
Context `{Externals}.

(** "Shared Set Schema Functions" *)
Definition resourceDeploymentStep_SetBasicSchema (d : ResourceData)
    (deploymentStep : DeploymentStep) : option ResourceData :=
  let d := Set_ d "step_name" (VString (step_Name deploymentStep)) in
  let d := Set_ d "step_condition"
             (VString (strings_ToLower (step_Condition deploymentStep)))
  in
  action0 ← head (step_Actions deploymentStep);
  let d := Set_ d "required" (VBool (action_IsRequired action0)) in
  let d := Set_ d "step_start_trigger"
             (VString (step_StartTrigger deploymentStep)) in
  let d :=
    match step_Properties deploymentStep !! "Octopus.Action.TargetRoles"
    with
    | Some targetRoles =>
        if bool_decide (targetRoles ≠ "")
        then Set_ d "target_roles"
               (VList (VString <$> strings_Split targetRoles comma_byte))
        else d
    | None => d
    end in
  let d :=
    match step_Properties deploymentStep !! "Octopus.Action.RunOnServer"
    with
    | Some runOnServer => Set_ d "run_on_server" (VString runOnServer)
    | None => d
    end in
  Some d.

(** "Determine Script Type and Body": the local map [script]. *)
Definition script_of_properties (props : gmap string string)
    (scriptNameStart : string) : gmap string value :=
  let key ext :=
    "Octopus.Action.CustomScripts." +:+ scriptNameStart +:+ ext in
  let script type scriptValue : gmap string value :=
    <["body" := VString scriptValue]> (<["type" := VString type]> ∅) in
  match props !! key ".ps1" with
  | Some scriptValue => script "PowerShell" scriptValue
  | None =>
  match props !! key ".sh" with
  | Some scriptValue => script "CSharp" scriptValue
  | None =>
  match props !! key ".csx" with
  | Some scriptValue => script "Bash" scriptValue
  | None =>
  match props !! key ".fsx" with
  | Some scriptValue => script "FSharp" scriptValue
  | None => ∅
  end end end end.

Definition resourceDeploymentStep_SetPackageSchema_DeployScript
    (d : ResourceData) (deploymentStep : DeploymentStep)
    (scriptType : string) : option ResourceData :=
  let '(scriptProp, scriptNameStart) := script_setup scriptType in
  props ← action0_Properties deploymentStep;
  let script := script_of_properties props scriptNameStart in
  (* If Script Type set, then set property *)
  match script !! "type" with
  | Some _ => Some (Set_ d scriptProp (VList [VMap script]))
  | None => Some d
  end.

Definition resourceDeploymentStep_SetPackageSchema (d : ResourceData)
    (deploymentStep : DeploymentStep) : option ResourceData :=
  props ← action0_Properties deploymentStep;
  let d := Set_ d "feed_id"
    (VString (default "" (props !! "Octopus.Action.Package.FeedId"))) in
  let d := Set_ d "package"
    (VString (default "" (props !! "Octopus.Action.Package.PackageId")))
  in
  let d :=
    match props !! "Octopus.Action.Package.JsonConfigurationVariablesTargets"
    with
    | Some jsonFileVariableReplacement =>
        Set_ d "json_file_variable_replacement"
          (VString jsonFileVariableReplacement)
    | None => d
    end in
  let d :=
    match props !! "Octopus.Action.SubstituteInFiles.TargetFiles" with
    | Some variableSubstitutionInFiles =>
        if bool_decide (variableSubstitutionInFiles ≠ "")
        then Set_ d "variable_substitution_in_files"
               (VList (VString <$>
                  strings_Split variableSubstitutionInFiles newline_byte))
        else d
    | None => d
    end in
  let d :=
    match props !! "Octopus.Action.Package.AutomaticallyRunConfigurationTransformationFiles"
    with
    | Some configurationTransformsString =>
        match strconv_ParseBool configurationTransformsString with
        | Some configurationTransforms =>
            Set_ d "configuration_transforms"
              (VBool configurationTransforms)
        | None => d
        end
    | None => d
    end in
  let d :=
    match props !! "Octopus.Action.Package.AutomaticallyUpdateAppSettingsAndConnectionStrings"
    with
    | Some configurationVariablesString =>
        match strconv_ParseBool configurationVariablesString with
        | Some configurationVariables =>
            Set_ d "configuration_variables" (VBool configurationVariables)
        | None => d
        end
    | None => d
    end in
  d ← resourceDeploymentStep_SetPackageSchema_DeployScript d
        deploymentStep "pre";
  d ← resourceDeploymentStep_SetPackageSchema_DeployScript d
        deploymentStep "deploy";
  resourceDeploymentStep_SetPackageSchema_DeployScript d
    deploymentStep "post".

(** [if v, ok := props[key]; ok { appPool[field] = v }] *)
Definition copy_property (props : gmap string string)
    (key field : string) (appPool : gmap string value)
  : gmap string value :=
  match props !! key with
  | Some v => <[field := VString v]> appPool
  | None => appPool
  end.

(** The local map [appPool] of
    [resourceDeploymentStep_SetIisAppPoolSchema], as passed to
    [d.Set]. *)
Definition appPool_of_properties (props : gmap string string)
    (propPrefix : string) : gmap string value :=
  let appPool : gmap string value := ∅ in
  let appPool :=
    copy_property props (propPrefix +:+ ".ApplicationPoolName")
      "name" appPool in
  let appPool :=
    copy_property props
      (propPrefix +:+ ".ApplicationPoolFrameworkVersion")
      "framework" appPool in
  let appPool :=
    copy_property props (propPrefix +:+ ".ApplicationPoolIdentityType")
      "identity" appPool in
  let appPool :=
    copy_property props (propPrefix +:+ ".ApplicationPoolUsername")
      "username" appPool in
  let appPool :=
    copy_property props (propPrefix +:+ ".ApplicationPoolPassword")
      "password" appPool in
  match props !! "Octopus.Action.IISWebSite.StartApplicationPool" with
  | Some startAppPoolString =>
      match strconv_ParseBool startAppPoolString with
      | Some startAppPool =>
          <["password" := VBool startAppPool]> appPool
      | None => appPool
      end
  | None => appPool
  end.

Definition resourceDeploymentStep_SetIisAppPoolSchema (d : ResourceData)
    (deploymentStep : DeploymentStep) (iisType : string)
  : option ResourceData :=
  let propPrefix := iis_propPrefix iisType in
  props ← action0_Properties deploymentStep;
  let appPool := appPool_of_properties props propPrefix in
  Some (Set_ d "application_pool" (VList [VMap appPool])).
End Setters.

Section Handlers.
Context `{Externals} {Server : Type}.

Definition resourceDeploymentStepCreate (d : ResourceData)
    (m : Client Server) (buildDeploymentProcessStepFunc : build_func)
    (srv : Server) : outcome Server :=
  let projectId := GetString d "project_id" in
  let firstStep := GetBool d "first_step" in
  let afterStepId := GetString d "after_step_id" in
  (* Find Deployment Process *)
  match Project_Get m projectId srv with
  | (Err err, srv) =>
      Returned (Some (errorString
        ("error loading project '" +:+ projectId +:+ "': "
         +:+ Error err))) d srv
  | (Ok project, srv) =>
  match DeploymentProcess_Get m (project_DeploymentProcessID project) srv
  with
  | (Err err, srv) =>
      Returned (Some (errorString
        ("error reading deployment process '"
         +:+ project_DeploymentProcessID project +:+ "': "
         +:+ Error err))) d srv
  | (Ok deploymentProcess, srv) =>
  (* Create Deployment Process Step *)
  match buildDeploymentProcessStepFunc d with
  | None => Panicked srv
  | Some (newDeploymentStep, d) =>
  (* Add Step Appropiately into Deployment Steps *)
  let '(Steps, newStepAddedIndex) :=
    create_splice firstStep afterStepId newDeploymentStep
      (process_Steps deploymentProcess) in
  let deploymentProcess := set_process_Steps deploymentProcess Steps in
  (* Update Deployment Process with new Step *)
  match DeploymentProcess_Update m deploymentProcess srv with
  | (Err err, srv) =>
      Returned (Some (errorString
        ("error updating deployment process for project: "
         +:+ Error err))) d srv
  | (Ok updateDeploymentProcess, srv) =>
  (* Set Ids *)
  match index (process_Steps updateDeploymentProcess) newStepAddedIndex
  with
  | None => Panicked srv
  | Some addedStep =>
  let d := SetId d (step_ID addedStep) in
  let d := Set_ d "deployment_process_id"
             (VString (process_ID updateDeploymentProcess)) in
  match action0_property addedStep "Octopus.Action.EnabledFeatures" with
  | None => Panicked srv
  | Some features =>
      Returned None (Set_ d "enabled_features" (VString features)) srv
  end end end end end end.

Definition resourceDeploymentStepRead (d : ResourceData)
    (m : Client Server) (setSchemaFunc : set_schema_func)
    (srv : Server) : outcome Server :=
  (* Get Id's *)
  let stepId := Id d in
  let processId := GetString d "deployment_process_id" in
  (* Load Step Information *)
  match DeploymentProcess_Get m processId srv with
  | (Err err, srv) =>
      if bool_decide (err = ErrItemNotFound)
      then Returned None (SetId d "") srv
      else Returned (Some (errorString
        ("error reading deployment process '" +:+ processId +:+ "': "
         +:+ Error err))) d srv
  | (Ok deploymentProcess, srv) =>
  let found :=
    read_loop stepId (process_Steps deploymentProcess) 0
      (mkReadState None None false) in
  match deploymentStep found with
  | None => Returned None (SetId d "") srv
  | Some deploymentStep =>
  let d := Set_ d "first_step" (VBool (firstStep found)) in
  let d :=
    match prevDeploymentStep found with
    | Some prevDeploymentStep =>
        Set_ d "after_step_id" (VString (step_ID prevDeploymentStep))
    | None => d
    end in
  match action0_property deploymentStep "Octopus.Action.EnabledFeatures"
  with
  | None => Panicked srv
  | Some features =>
  let d := Set_ d "enabled_features" (VString features) in
  (* Set Schema *)
  match setSchemaFunc d deploymentStep with
  | None => Panicked srv
  | Some d => Returned None d srv
  end end end end.

Definition resourceDeploymentStepUpdate (d : ResourceData)
    (m : Client Server) (buildDeploymentProcessStepFunc : build_func)
    (srv : Server) : outcome Server :=
  (* Get Id's *)
  let stepId := Id d in
  let processId := GetString d "deployment_process_id" in
  let firstStep := GetBool d "first_step" in
  let afterStepId := GetString d "after_step_id" in
  (* Load Deployment Process *)
  match DeploymentProcess_Get m processId srv with
  | (Err err, srv) =>
      if bool_decide (err = ErrItemNotFound)
      then Returned None (SetId d "") srv
      else Returned (Some (errorString
        ("error reading deployment process id " +:+ processId +:+ ": "
         +:+ Error err))) d srv
  | (Ok deploymentProcess, srv) =>
  (* Create Deployment Process Step *)
  match buildDeploymentProcessStepFunc d with
  | None => Panicked srv
  | Some (newDeploymentStep, d) =>
  let newDeploymentStep := set_step_ID newDeploymentStep stepId in
  (* Update Step *)
  let '(Steps, newStepAddedIndex) :=
    update_splice stepId firstStep afterStepId newDeploymentStep
      (process_Steps deploymentProcess) in
  let deploymentProcess := set_process_Steps deploymentProcess Steps in
  (* Update Deployment Process with Step Removed *)
  match DeploymentProcess_Update m deploymentProcess srv with
  | (Err err, srv) =>
      Returned (Some (errorString
        ("error updating deployment process for project: "
         +:+ Error err))) d srv
  | (Ok _, srv) => Returned None d srv
  end end end.

Definition resourceDeploymentStepDelete (d : ResourceData)
    (m : Client Server) (srv : Server) : outcome Server :=
  (* Get Id's *)
  let stepId := Id d in
  let processId := GetString d "deployment_process_id" in
  (* Load Deployment Process *)
  match DeploymentProcess_Get m processId srv with
  | (Err err, srv) =>
      if bool_decide (err = ErrItemNotFound)
      then Returned None (SetId d "") srv
      else Returned (Some (errorString
        ("error reading deployment process id " +:+ processId +:+ ": "
         +:+ Error err))) d srv
  | (Ok deploymentProcess, srv) =>
  (* Remove Step *)
  let Steps := delete_splice stepId (process_Steps deploymentProcess) in
  let deploymentProcess := set_process_Steps deploymentProcess Steps in
  (* Update Deployment Process with Step Removed *)
  match DeploymentProcess_Update m deploymentProcess srv with
  | (Err err, srv) =>
      Returned (Some (errorString
        ("error updating deployment process for project: "
         +:+ Error err))) d srv
  | (Ok _, srv) =>
      (* Set Id *)
      Returned None (SetId d "") srv
  end end.
End Handlers.

End FirstStep.

(** ** [resource_deployment_step_iis_website.go] *)

Module IisWebsite.
Import FirstStep.

Section IisWebsite.
Context `{Externals}.

(** One element of [bindingsArray], from one element of the [binding]
    attribute. *)
Definition flatten_binding (rawBinding : value) : option bindingsStruct :=
  binding ← as_map rawBinding;
  protocol ← field_string binding "protocol";
  ip ← field_string binding "ip";
  port ← field_string binding "port";
  host ← field_string binding "host";
  thumbprint ← field_string binding "thumbprint";
  cert_var ← field_string binding "cert_var";
  require_sni ← field_bool binding "require_sni";
  enable ← field_bool binding "enable";
  Some (mkBindingsStruct (formatStrPtr protocol) (formatStrPtr ip)
          (formatStrPtr port) (formatStrPtr host)
          (formatStrPtr thumbprint) (formatStrPtr cert_var)
          require_sni enable).

(** "Add Default HTTP 80 binding" *)
Definition default_binding : bindingsStruct :=
  mkBindingsStruct (formatStrPtr "http") (formatStrPtr "*")
    (formatStrPtr "80") (formatStrPtr "") (formatStrPtr "")
    (formatStrPtr "") false true.

(** "Flatten Bindings": the final [bindingsArray]. *)
Definition flatten_bindings (d : ResourceData)
  : option (list bindingsStruct) :=
  match GetOk d "binding" with
  | Some rawBindings =>
      bindings ← as_list rawBindings;
      mapM flatten_binding bindings
  | None => Some [default_binding]
  end.

Definition buildIisWebsiteDeploymentStep (d : ResourceData)
  : option (DeploymentStep * ResourceData) :=
  (* Set Computed Values *)
  let d := Set_ d "deployment_type" (VString "webSite") in
  (* Create Basic Deployment Step *)
  deploymentStep ← resourceDeploymentStep_CreateBasicStep d "Octopus.IIS";
  (* Enable IIS Web Site Feature *)
  deploymentStep ←
    set_action0_property deploymentStep "Octopus.Action.EnabledFeatures"
      "Octopus.Features.IISWebSite";
  (* Add Shared Properties *)
  deploymentStep ←
    resourceDeploymentStep_AddPackageProperties d deploymentStep;
  deploymentStep ←
    resourceDeploymentStep_AddIisAppPoolProperties d deploymentStep
      "IISWebSite";
  (* Add Web Site Properties *)
  deploymentStep ←
    set_action0_property deploymentStep
      "Octopus.Action.IISWebSite.DeploymentType"
      (GetString d "deployment_type");
  deploymentStep ←
    set_action0_property deploymentStep
      "Octopus.Action.IISWebSite.CreateOrUpdateWebSite" "True";
  deploymentStep ←
    set_action0_property deploymentStep
      "Octopus.Action.IISWebSite.WebApplication.CreateOrUpdate" "False";
  deploymentStep ←
    set_action0_property deploymentStep
      "Octopus.Action.IISWebSite.VirtualDirectory.CreateOrUpdate" "False";
  '(d, deploymentStep) ←
    match GetOk d "relative_path" with
    | Some relativePath =>
        let d := Set_ d "path_type" (VString "relativeToPackageRoot") in
        path ← as_string relativePath;
        deploymentStep ←
          set_action0_property deploymentStep
            "Octopus.Action.IISWebSite.PhysicalPath" path;
        Some (d, deploymentStep)
    | None =>
        Some (Set_ d "path_type" (VString "packageRoot"), deploymentStep)
    end;
  deploymentStep ←
    set_action0_property deploymentStep
      "Octopus.Action.IISWebSite.WebRootType" (GetString d "path_type");
  deploymentStep ←
    set_action0_property deploymentStep
      "Octopus.Action.IISWebSite.StartWebSite"
      (formatBool (GetBool d "start_web_site"));
  deploymentStep ←
    set_action0_property deploymentStep
      "Octopus.Action.IISWebSite.WebSiteName" (GetString d "website_name");
  deploymentStep ←
    set_action0_property deploymentStep
      "Octopus.Action.IISWebSite.EnableAnonymousAuthentication"
      (formatBool (GetBool d "anonymous_authentication"));
  deploymentStep ←
    set_action0_property deploymentStep
      "Octopus.Action.IISWebSite.EnableBasicAuthentication"
      (formatBool (GetBool d "basic_authentication"));
  deploymentStep ←
    set_action0_property deploymentStep
      "Octopus.Action.IISWebSite.EnableWindowsAuthentication"
      (formatBool (GetBool d "windows_authentication"));
  (* Flatten Bindings *)
  bindingsArray ← flatten_bindings d;
  let bindingsBytes := json_Marshal bindingsArray in
  deploymentStep ←
    set_action0_property deploymentStep
      "Octopus.Action.IISWebSite.Bindings" bindingsBytes;
  (* Return Deployment Step *)
  Some (deploymentStep, d).

(** [d.Set(key, b)] when the property [prop] is there and parses as
    the bool [b]. *)
Definition set_parsed_bool (props : gmap string string)
    (prop key : string) (d : ResourceData) : ResourceData :=
  match props !! prop with
  | Some str =>
      match strconv_ParseBool str with
      | Some b => Set_ d key (VBool b)
      | None => d
      end
  | None => d
  end.

Definition setIisWebsiteSchema (d : ResourceData)
    (deploymentStep : DeploymentStep) : option ResourceData :=
  d ← resourceDeploymentStep_SetBasicSchema d deploymentStep;
  d ← resourceDeploymentStep_SetPackageSchema d deploymentStep;
  d ← resourceDeploymentStep_SetIisAppPoolSchema d deploymentStep
        "IISWebSite";
  (* Get Web Site Properties *)
  props ← action0_Properties deploymentStep;
  let d := Set_ d "deployment_type"
    (VString
       (default "" (props !! "Octopus.Action.IISWebSite.DeploymentType")))
  in
  let d :=
    match props !! "Octopus.Action.IISWebSite.WebRootType" with
    | Some pathType => Set_ d "path_type" (VString pathType)
    | None => d
    end in
  let d :=
    match props !! "Octopus.Action.IISWebSite.PhysicalPath" with
    | Some relativePath => Set_ d "relative_path" (VString relativePath)
    | None => d
    end in
  let d :=
    set_parsed_bool props "Octopus.Action.IISWebSite.StartWebSite"
      "start_web_site" d in
  let d :=
    match props !! "Octopus.Action.IISWebSite.WebSiteName" with
    | Some websiteName => Set_ d "website_name" (VString websiteName)
    | None => d
    end in
  let d :=
    set_parsed_bool props
      "Octopus.Action.IISWebSite.EnableAnonymousAuthentication"
      "anonymous_authentication" d in
  let d :=
    set_parsed_bool props
      "Octopus.Action.IISWebSite.EnableBasicAuthentication"
      "basic_authentication" d in
  let d :=
    set_parsed_bool props
      "Octopus.Action.IISWebSite.EnableWindowsAuthentication"
      "windows_authentication" d in
  (* Expanding the bindings is left as a TODO: the property
     "Octopus.Action.IISWebSite.Bindings" is not read. *)
  Some d.

Context {Server : Type}.

Definition resourceDeploymentStepIisWebsiteCreate (d : ResourceData)
    (m : Client Server) : Server → outcome Server :=
  resourceDeploymentStepCreate d m buildIisWebsiteDeploymentStep.

Definition resourceDeploymentStepIisWebsiteRead (d : ResourceData)
    (m : Client Server) : Server → outcome Server :=
  resourceDeploymentStepRead d m setIisWebsiteSchema.

Definition resourceDeploymentStepIisWebsiteUpdate (d : ResourceData)
    (m : Client Server) : Server → outcome Server :=
  resourceDeploymentStepUpdate d m buildIisWebsiteDeploymentStep.

Definition resourceDeploymentStepIisWebsiteDelete (d : ResourceData)
    (m : Client Server) : Server → outcome Server :=
  resourceDeploymentStepDelete d m.
End IisWebsite.

End IisWebsite.

(** ** The shared builders of [resource_deployment_step.go] *)

(** The builders and the setter that file has next to its handlers.  The
    later revision changes each of them: here the run-on-server flag goes
    to the step's own property bag, the target roles are asserted one by
    one, the files of the variable substitution are a single string,
    there are no scripts, and the setter restores the step name only. *)
Module BeforeAfterShared.

Section Builders.
Context `{Externals}.

(** "Shared Create Step Functions" *)
Definition resourceDeploymentStep_CreateBasicStep (d : ResourceData)
    (actionType : string) : option DeploymentStep :=
  (* Get Basic Step Properties *)
  let stepName := GetString d "step_name" in
  let stepCondition := GetString d "step_condition" in
  let required := GetBool d "required" in
  let stepStartTrigger := GetString d "step_start_trigger" in
  (* Create Deployment Step *)
  let deploymentStep :=
    mkDeploymentStep "" stepName "LetOctopusDecide" stepCondition
      stepStartTrigger ∅
      [mkDeploymentAction stepName required actionType ∅] in
  (* Add Run On Server *)
  deploymentStep ←
    match GetOk d "run_on_server" with
    | Some runOnServer =>
        b ← as_bool runOnServer;
        Some (set_step_Properties deploymentStep
                (<["Octopus.Action.RunOnServer" := formatBool b]>
                   (step_Properties deploymentStep)))
    | None => Some deploymentStep
    end;
  (* Add Target Roles *)
  match GetOk d "target_roles" with
  | Some targetRolesInterface =>
      targetRolesArray ← as_list targetRolesInterface;
      (* the loop appends [role.(string)] for each role in turn *)
      targetRoleSlice ← mapM as_string targetRolesArray;
      Some (set_step_Properties deploymentStep
              (<["Octopus.Action.TargetRoles" :=
                   strings_Join targetRoleSlice ","]>
                 (step_Properties deploymentStep)))
  | None => Some deploymentStep
  end.

Definition resourceDeploymentStep_AddPackageProperties
    (d : ResourceData) (deploymentStep : DeploymentStep)
  : option DeploymentStep :=
  (* Package Properties *)
  deploymentStep ←
    set_action0_property deploymentStep
      "Octopus.Action.Package.DownloadOnTentacle" "False";
  deploymentStep ←
    set_action0_property deploymentStep "Octopus.Action.Package.FeedId"
      (GetString d "feed_id");
  deploymentStep ←
    set_action0_property deploymentStep
      "Octopus.Action.Package.PackageId" (GetString d "package");
  (* Add Configuration Transformation Properties *)
  deploymentStep ←
    match GetOk d "json_file_variable_replacement" with
    | Some jsonFileVariableReplacement =>
        targets ← as_string jsonFileVariableReplacement;
        deploymentStep ←
          set_action0_property deploymentStep
            "Octopus.Action.Package.JsonConfigurationVariablesTargets"
            targets;
        deploymentStep ←
          set_action0_property deploymentStep
            "Octopus.Action.Package.JsonConfigurationVariablesEnabled"
            "True";
        append_action0_property deploymentStep
          "Octopus.Action.EnabledFeatures"
          ",Octopus.Features.JsonConfigurationVariables"
    | None => Some deploymentStep
    end;
  deploymentStep ←
    match GetOk d "variable_substitution_in_files" with
    | Some variableSubstitutionInFiles =>
        files ← as_string variableSubstitutionInFiles;
        deploymentStep ←
          set_action0_property deploymentStep
            "Octopus.Action.SubstituteInFiles.TargetFiles" files;
        deploymentStep ←
          set_action0_property deploymentStep
            "Octopus.Action.SubstituteInFiles.Enabled" "True";
        append_action0_property deploymentStep
          "Octopus.Action.EnabledFeatures"
          ",Octopus.Features.SubstituteInFiles"
    | None => Some deploymentStep
    end;
  deploymentStep ←
    (let configurationTransforms := GetBool d "configuration_transforms" in
     if configurationTransforms then
       deploymentStep ←
         set_action0_property deploymentStep
           "Octopus.Action.Package.AutomaticallyRunConfigurationTransformationFiles"
           (formatBool configurationTransforms);
       append_action0_property deploymentStep
         "Octopus.Action.EnabledFeatures"
         ",Octopus.Features.ConfigurationTransforms"
     else Some deploymentStep);
  (let configurationVariables := GetBool d "configuration_variables" in
   if configurationVariables then
     deploymentStep ←
       set_action0_property deploymentStep
         "Octopus.Action.Package.AutomaticallyUpdateAppSettingsAndConnectionStrings"
         (formatBool configurationVariables);
     append_action0_property deploymentStep
       "Octopus.Action.EnabledFeatures"
       ",Octopus.Features.ConfigurationVariables"
   else Some deploymentStep).
End Builders.

(** "Shared Set Schema Functions" *)
Definition resourceDeploymentStep_SetBasicSchema (d : ResourceData)
    (deploymentStep : DeploymentStep) : option ResourceData :=
  Some (Set_ d "step_name" (VString (step_Name deploymentStep))).

End BeforeAfterShared.

(** ** Vocabulary of the splice properties *)

(** [x] placed at position [i] of [l]. *)
Definition insert_at {A : Type} (i : nat) (x : A) (l : list A) : list A :=
  take i l ++ x :: drop i l.

(** The first step of [l] whose identifier is [id], with its position. *)
Definition find_step (id : string) (l : list DeploymentStep)
  : option (nat * DeploymentStep) :=
  list_find (λ s, step_ID s = id) l.

(** The rule as the specification words it: before the step matching
    the before-reference if there is one, else after the step matching
    the after-reference if there is one, else at the end. *)
Definition before_first_index (beforeStepId afterStepId : string)
    (l : list DeploymentStep) : nat :=
  match find_step beforeStepId l with
  | Some (i, _) => i
  | None =>
      match find_step afterStepId l with
      | Some (j, _) => S j
      | None => length l
      end
  end.

(** The rule of the scan: of the two matched steps the one met first
    decides; the before-reference decides when both match the same
    step. *)
Definition first_match_index (beforeStepId afterStepId : string)
    (l : list DeploymentStep) : nat :=
  match find_step beforeStepId l, find_step afterStepId l with
  | Some (i, _), Some (j, _) => if bool_decide (i ≤ j)%nat then i else S j
  | Some (i, _), None => i
  | None, Some (j, _) => S j
  | None, None => length l
  end.

(** The steps that are not the step [stepId]. *)
Definition without_step (stepId : string) (l : list DeploymentStep)
  : list DeploymentStep :=
  filter (λ s, step_ID s ≠ stepId) l.

(** Where a scan for the two references inserts, counted from the step
    it starts at; [None] when it reaches the end without inserting. *)
Fixpoint scan (beforeStepId afterStepId : string)
    (l : list DeploymentStep) : option nat :=
  match l with
  | [] => None
  | s :: rest =>
      if bool_decide (step_ID s = beforeStepId) then Some 0%nat
      else if bool_decide (step_ID s = afterStepId) then Some 1%nat
      else S <$> scan beforeStepId afterStepId rest
  end.

(** ** Vocabulary of the property-bag properties *)

(** The step [resourceDeploymentStep_CreateBasicStep] starts from: one
    action, no property. *)
Definition basic_step (stepName actionType : string) : DeploymentStep :=
  mkDeploymentStep "" stepName "LetOctopusDecide" "success"
    "StartAfterPrevious" ∅
    [mkDeploymentAction stepName false actionType ∅].

(** A resource with no identifier and no attribute. *)
Definition empty_resource : ResourceData := mkResourceData "" ∅.

(** A script block of the configuration: a set of one element with the
    fields [type] and [body]. *)
Definition script_value (type body : string) : value :=
  VList [VMap (<["body" := VString body]> (<["type" := VString type]> ∅))].

(** Build, then reverse-map: the property bag is built from the script
    block [type], [body] of a configuration [d], and read back into the
    resource [dread]. *)
Definition script_round_trip `{Externals} (scriptType type body : string)
    (d dread : ResourceData) : option ResourceData :=
  let scriptProp := (FirstStep.script_setup scriptType).1 in
  deploymentStep ←
    FirstStep.resourceDeploymentStep_AddPackageProperties_DeployScript
      (Set_ d scriptProp (script_value type body))
      (basic_step "step" "Octopus.TentaclePackage") scriptType;
  FirstStep.resourceDeploymentStep_SetPackageSchema_DeployScript
    dread deploymentStep scriptType.

(** The script type that is read back for a script type. *)
Definition read_back_type (type : string) : string :=
  if bool_decide (type = "CSharp") then "Bash"
  else if bool_decide (type = "Bash") then "CSharp"
  else type.

(** An [application_pool] block of the configuration, as a map. *)
Definition appPool_map (name framework identity username password : string)
    (start : bool) : gmap string value :=
  <["name" := VString name]>
    (<["framework" := VString framework]>
       (<["identity" := VString identity]>
          (<["username" := VString username]>
             (<["password" := VString password]>
                (<["start" := VBool start]> ∅))))).

(** Build, then reverse-map: the map stored under [application_pool] by
    the reading. *)
Definition appPool_round_trip `{Externals} (appPool : gmap string value)
    (d dread : ResourceData) : option (gmap string value) :=
  deploymentStep ←
    FirstStep.resourceDeploymentStep_AddIisAppPoolProperties
      (Set_ d "application_pool" (VList [VMap appPool]))
      (basic_step "step" "Octopus.IIS") "IISWebSite";
  dread ←
    FirstStep.resourceDeploymentStep_SetIisAppPoolSchema
      dread deploymentStep "IISWebSite";
  match attrs dread !! "application_pool" with
  | Some (VList [VMap readAppPool]) => Some readAppPool
  | _ => None
  end.

(** A [binding] block of the configuration, as a map. *)
Definition binding_map (protocol ip port host thumbprint cert_var : string)
    (require_sni enable : bool) : gmap string value :=
  <["protocol" := VString protocol]>
    (<["ip" := VString ip]>
       (<["port" := VString port]>
          (<["host" := VString host]>
             (<["thumbprint" := VString thumbprint]>
                (<["cert_var" := VString cert_var]>
                   (<["require_sni" := VBool require_sni]>
                      (<["enable" := VBool enable]> ∅))))))).

(** Build, then reverse-map, for the IIS website step: the [binding]
    attribute after the reading, which starts from [dread]. *)
Definition binding_round_trip `{Externals} (d dread : ResourceData)
  : option (option value) :=
  '(deploymentStep, _) ← IisWebsite.buildIisWebsiteDeploymentStep d;
  dread ← IisWebsite.setIisWebsiteSchema dread deploymentStep;
  Some (attrs dread !! "binding").

(** The position the revision with [first_step] inserts at: the start of
    the list with the flag, else after the first step matching the
    after-reference, else the end. *)
Definition first_step_index (firstStep : bool) (afterStepId : string)
    (l : list DeploymentStep) : nat :=
  if firstStep then 0%nat
  else match find_step afterStepId l with
       | Some (j, _) => S j
       | None => length l
       end.

(** ** Vocabulary of the further property-bag properties *)

(** [key] is set to something other than the zero value of its type. *)
Definition is_set (d : ResourceData) (key : string) : bool :=
  bool_decide (is_Some (GetOk d key)).

(** The features the four package options enable, in the order in which
    the builders append them, each with its leading comma. *)
Definition package_features (d : ResourceData) : string :=
  (if is_set d "json_file_variable_replacement"
   then ",Octopus.Features.JsonConfigurationVariables" else "")
  +:+ (if is_set d "variable_substitution_in_files"
       then ",Octopus.Features.SubstituteInFiles" else "")
  +:+ (if GetBool d "configuration_transforms"
       then ",Octopus.Features.ConfigurationTransforms" else "")
  +:+ (if GetBool d "configuration_variables"
       then ",Octopus.Features.ConfigurationVariables" else "").

(** A script block is given for [scriptType]: its attribute is set to a
    list with at least one element. *)
Definition script_given (d : ResourceData) (scriptType : string) : bool :=
  match GetOk d (FirstStep.script_setup scriptType).1 with
  | Some v =>
      match as_list v with
      | Some (_ :: _) => true
      | _ => false
      end
  | None => false
  end.

(** No byte of [s] is [sep]. *)
Fixpoint free_of (sep : Ascii.ascii) (s : string) : Prop :=
  match s with
  | EmptyString => True
  | String c rest => c ≠ sep ∧ free_of sep rest
  end.

(** The property bag of the first action of a step; empty for a step
    without action. *)
Definition bag (deploymentStep : DeploymentStep) : gmap string string :=
  default ∅ (action0_Properties deploymentStep).

(** The step with the property bag of its first action emptied: what a
    write to that bag leaves as it is. *)
Definition without_bag (deploymentStep : DeploymentStep) : DeploymentStep :=
  match step_Actions deploymentStep with
  | [] => deploymentStep
  | a :: rest =>
      set_step_Actions deploymentStep (set_action_Properties a ∅ :: rest)
  end.

(** From [s] to [s'] nothing changed but entries of the property bag of
    the first action whose key satisfies [K]. *)
Definition touches_only (K : string → bool) (s s' : DeploymentStep)
  : Prop :=
  without_bag s' = without_bag s
  ∧ ∀ key, K key = false → bag s' !! key = bag s !! key.

(** [deploymentStep.Actions[0].Properties["Octopus.Action.EnabledFeatures"]],
    the empty string when the key is missing. *)
Definition enabled_features (deploymentStep : DeploymentStep) : string :=
  default "" (bag deploymentStep !! "Octopus.Action.EnabledFeatures").

(** The feature list [features] once a script block was written, if one
    was [given]: the custom-scripts feature is appended unless the list
    names it already. *)
Definition with_custom_scripts (given : bool) (features : string)
  : string :=
  if given
     && negb (strings_Contains features "Octopus.Features.CustomScripts")
  then features +:+ ",Octopus.Features.CustomScripts"
  else features.

(** From [d] to [d'] nothing changed but attributes whose name
    satisfies [K]. *)
Definition sets_only (K : string → bool) (d d' : ResourceData) : Prop :=
  Id d' = Id d
  ∧ ∀ key, K key = false → attrs d' !! key = attrs d !! key.

(** ** Sample data for the examples *)

(** A step with no action, named after its identifier. *)
Definition sample_step (id : string) : DeploymentStep :=
  mkDeploymentStep id id "LetOctopusDecide" "success" "StartAfterPrevious"
    ∅ [].

(** A freshly built step, which has no identifier yet. *)
Definition fresh_step : DeploymentStep :=
  mkDeploymentStep "" "new" "LetOctopusDecide" "success"
    "StartAfterPrevious" ∅ [].

(** Stand-ins for what [Externals] leaves open, for the examples only:
    booleans as [True] and [False], a pointer to every string, lists of
    strings converted element by element, lower-casing of the letters
    [A] to [Z] and a JSON printer without escaping. *)
Definition quote_byte : Ascii.ascii := Ascii.ascii_of_nat 34.
Definition quoted (s : string) : string :=
  String quote_byte s +:+ String quote_byte "".

Definition sample_json_ptr (p : option string) : string :=
  match p with Some s => quoted s | None => "null" end.

Definition sample_json_binding (b : bindingsStruct) : string :=
  "{" +:+ quoted "protocol" +:+ ":" +:+ sample_json_ptr (Protocol b)
  +:+ "," +:+ quoted "ipAddress" +:+ ":" +:+ sample_json_ptr (IpAddress b)
  +:+ "," +:+ quoted "port" +:+ ":" +:+ sample_json_ptr (Port b)
  +:+ "," +:+ quoted "host" +:+ ":" +:+ sample_json_ptr (Host b)
  +:+ "," +:+ quoted "thumbprint" +:+ ":"
  +:+ sample_json_ptr (Thumbprint b)
  +:+ "," +:+ quoted "certificateVariable" +:+ ":"
  +:+ sample_json_ptr (CertificateVariable b)
  +:+ "," +:+ quoted "requireSni" +:+ ":"
  +:+ strconv_FormatBool (RequireSni b)
  +:+ "," +:+ quoted "enabled" +:+ ":" +:+ strconv_FormatBool (Enabled b)
  +:+ "}".

Definition sample_lower (c : Ascii.ascii) : Ascii.ascii :=
  let n := Ascii.nat_of_ascii c in
  if bool_decide (65 ≤ n ≤ 90)%nat then Ascii.ascii_of_nat (n + 32) else c.

Fixpoint sample_ToLower (s : string) : string :=
  match s with
  | EmptyString => EmptyString
  | String c rest => String (sample_lower c) (sample_ToLower rest)
  end.

Definition sample_externals : Externals := {|
  ErrItemNotFound_Error := "cannot find the item";
  formatBool b := if b then "True" else "False";
  formatStrPtr s := Some s;
  getSliceFromTerraformTypeList v := as_list v ≫= mapM as_string;
  json_Marshal bs :=
    "[" +:+ String.concat "," (sample_json_binding <$> bs) +:+ "]";
  strings_ToLower := sample_ToLower;
|}.

(** A server holding projects and deployment processes by identifier. *)
Record sample_server := mkSampleServer {
  projects : gmap string Project;
  processes : gmap string DeploymentProcess;
}.

(** On update the server stores the process and gives a step without
    identifier one made from the name of the step. *)
Definition sample_assign_id (s : DeploymentStep) : DeploymentStep :=
  if bool_decide (step_ID s = "")
  then set_step_ID s ("Steps-" +:+ step_Name s) else s.

Definition sample_client : Client sample_server := {|
  Project_Get id srv :=
    (match projects srv !! id with
     | Some project => Ok project
     | None => Err ErrItemNotFound
     end, srv);
  DeploymentProcess_Get id srv :=
    (match processes srv !! id with
     | Some process => Ok process
     | None => Err ErrItemNotFound
     end, srv);
  DeploymentProcess_Update process srv :=
    match processes srv !! process_ID process with
    | Some _ =>
        let stored :=
          set_process_Steps process
            (sample_assign_id <$> process_Steps process) in
        (Ok stored,
         mkSampleServer (projects srv)
           (<[process_ID process := stored]> (processes srv)))
    | None => (Err ErrItemNotFound, srv)
    end;
|}.

(** The same server refusing every update. *)
Definition sample_client_read_only : Client sample_server := {|
  Project_Get := Project_Get sample_client;
  DeploymentProcess_Get := DeploymentProcess_Get sample_client;
  DeploymentProcess_Update _ srv := (Err (errorString "403 Forbidden"), srv);
|}.

(** A client without connection: every call fails with the same error. *)
Definition sample_client_offline (err : error) : Client sample_server := {|
  Project_Get _ srv := (Err err, srv);
  DeploymentProcess_Get _ srv := (Err err, srv);
  DeploymentProcess_Update _ srv := (Err err, srv);
|}.

(** One project whose process has the steps [A], [B] and [C], and one
    project whose process is gone. *)
Definition sample_process : DeploymentProcess :=
  mkDeploymentProcess "deploymentprocess-Projects-1"
    [sample_step "A"; sample_step "B"; sample_step "C"].

Definition sample_srv : sample_server :=
  mkSampleServer
    (<["Projects-1" := mkProject "deploymentprocess-Projects-1"]>
       (<["Projects-2" := mkProject "deploymentprocess-Projects-2"]> ∅))
    (<["deploymentprocess-Projects-1" := sample_process]> ∅).

(** A step resource of the first project, with the identifier [id]. *)
Definition sample_resource (id : string) : ResourceData :=
  mkResourceData id
    (<["project_id" := VString "Projects-1"]>
       (<["deployment_process_id" :=
            VString "deploymentprocess-Projects-1"]>
          (<["step_name" := VString "new"]> ∅))).

(** A step resource whose deployment process is gone. *)
Definition sample_orphan (id : string) : ResourceData :=
  mkResourceData id
    (<["project_id" := VString "Projects-2"]>
       (<["deployment_process_id" :=
            VString "deploymentprocess-Projects-2"]>
          (<["step_name" := VString "new"]> ∅))).

(** A builder and a setter for the examples. *)
Definition sample_build : build_func :=
  λ d,
    Some (mkDeploymentStep "" (GetString d "step_name") "LetOctopusDecide"
            "success" "StartAfterPrevious" ∅ [], d).

Definition sample_set_schema : set_schema_func :=
  λ d deploymentStep,
    Some (Set_ d "step_name" (VString (step_Name deploymentStep))).

(** An IIS website configuration with one binding. *)
Definition sample_website : ResourceData :=
  mkResourceData ""
    (<["step_name" := VString "web"]>
       (<["website_name" := VString "Default Web Site"]>
          (<["feed_id" := VString "feeds-builtin"]>
             (<["package" := VString "Web"]>
                (<["application_pool" :=
                     VList [VMap (appPool_map "pool" "v4.0"
                                    "ApplicationPoolIdentity" "" "" true)]]>
                   (<["binding" :=
                        VList [VMap (binding_map "https" "*" "443"
                                       "example.org" "" "cert" true true)]]>
                      ∅)))))).

(** What the examples observe of an outcome on the sample server: the
    error, the identifier of the resource and the identifiers of the
    steps of the first project's process. *)
Definition sample_summary (o : outcome sample_server)
  : option (option error * string * list string) :=
  match o with
  | Returned err d srv =>
      Some (err, Id d,
            match processes srv !! "deploymentprocess-Projects-1" with
            | Some process => step_ID <$> process_Steps process
            | None => []
            end)
  | Panicked _ => None
  end.

(** A step with one action, whose property bag lists one feature. *)
Definition sample_web_step (id : string) : DeploymentStep :=
  mkDeploymentStep id id "LetOctopusDecide" "success" "StartAfterPrevious"
    ∅
    [mkDeploymentAction id false "Octopus.IIS"
       (<["Octopus.Action.EnabledFeatures" :=
            "Octopus.Features.IISWebSite"]> ∅)].

(** The sample server with the steps [A] and [B], each with an action. *)
Definition sample_web_srv : sample_server :=
  mkSampleServer (projects sample_srv)
    (<["deploymentprocess-Projects-1" :=
         mkDeploymentProcess "deploymentprocess-Projects-1"
           [sample_web_step "A"; sample_web_step "B"]]> ∅).

(** A builder giving the step one action. *)
Definition sample_build_web : build_func :=
  λ d, Some (basic_step (GetString d "step_name") "Octopus.IIS", d).

(** A basic step configuration: run on the server, two target roles. *)
Definition sample_basic : ResourceData :=
  mkResourceData ""
    (<["step_name" := VString "web"]>
       (<["step_condition" := VString "Success"]>
          (<["required" := VBool true]>
             (<["step_start_trigger" := VString "StartAfterPrevious"]>
                (<["run_on_server" := VBool true]>
                   (<["target_roles" :=
                        VList [VString "web"; VString "app"]]> ∅)))))).

(** A package configuration: JSON variable replacement, substitution in
    two files, configuration transforms, a deploy script and a
    post-deploy script. *)
Definition sample_package : ResourceData :=
  mkResourceData ""
    (<["feed_id" := VString "feeds-builtin"]>
       (<["package" := VString "Web"]>
          (<["json_file_variable_replacement" :=
               VString "appsettings.json"]>
             (<["variable_substitution_in_files" :=
                  VList [VString "a.config"; VString "b.config"]]>
                (<["configuration_transforms" := VBool true]>
                   (<["deploy_script" :=
                        script_value "PowerShell" "Write-Host 1"]>
                      (<["post_deploy_script" :=
                           script_value "FSharp" "printfn 1"]>
                         ∅))))))).

(** The package configuration of [resource_deployment_step.go], where
    the files of the substitution are one string. *)
Definition sample_package_plain : ResourceData :=
  mkResourceData ""
    (<["feed_id" := VString "feeds-builtin"]>
       (<["package" := VString "Web"]>
          (<["variable_substitution_in_files" := VString "a.config"]>
             (<["configuration_variables" := VBool true]> ∅)))).

(* ===================================================================== *)
(** * Properties *)
(* ===================================================================== *)

(** ** Loops *)

Lemma insert_at_length {A : Type} (i : nat) (x : A) l :
  length (insert_at i x l) = S (length l).
Proof.
  unfold insert_at. rewrite length_app. simpl.
  rewrite length_take, length_drop. lia.
Qed.

Lemma insert_at_lookup {A : Type} (i : nat) (x : A) l :
  (i ≤ length l)%nat → insert_at i x l !! i = Some x.
Proof.
  intros Hi. unfold insert_at.
  rewrite lookup_app_r; rewrite length_take; [|lia].
  by replace (i - i `min` length l)%nat with 0%nat by lia.
Qed.

Lemma insert_at_delete {A : Type} (i : nat) (x : A) l :
  (i ≤ length l)%nat → delete i (insert_at i x l) = l.
Proof.
  intros Hi. unfold insert_at.
  assert (Hlen : length (take i l) = i) by (rewrite length_take; lia).
  rewrite <- Hlen at 1. rewrite delete_middle. apply take_drop.
Qed.

Lemma insert_at_cons {A : Type} (i : nat) (x y : A) l :
  insert_at (S i) x (y :: l) = y :: insert_at i x l.
Proof. done. Qed.

(** ** The scan of the create and update loops *)

Section Scan.
Context (beforeStepId afterStepId : string).

Local Abbreviation scan := (scan beforeStepId afterStepId).

Lemma scan_le l p : scan l = Some p → (p ≤ length l)%nat.
Proof.
  revert p. induction l as [|s l IH]; intros p; simpl; [done|].
  repeat case_bool_decide; intros Hp; simplify_eq; try lia.
  destruct (scan l) as [q|]; simplify_eq/=. specialize (IH q eq_refl). lia.
Qed.

Lemma first_match_index_scan l :
  first_match_index beforeStepId afterStepId l =
  default (length l) (scan l).
Proof.
  unfold first_match_index, find_step.
  induction l as [|s l IH]; simpl; [done|].
  destruct (list_find (λ s0, step_ID s0 = beforeStepId) l) as [[i ?]|],
    (list_find (λ s0, step_ID s0 = afterStepId) l) as [[j ?]|],
    (scan l) as [q|];
    repeat case_decide; repeat case_bool_decide; simpl in *;
    repeat case_bool_decide; try done; lia.
Qed.

Lemma scan_None l :
  scan l = None ↔
  find_step beforeStepId l = None ∧ find_step afterStepId l = None.
Proof.
  unfold find_step. induction l as [|s l IH]; simpl; [done|].
  repeat case_decide; repeat case_bool_decide; simplify_eq/=;
    try (split; [done|intros [??]; done]).
  rewrite !fmap_None. done.
Qed.
End Scan.

(** ** The loops of [resource_deployment_step.go] in closed form *)

(** [newStepAddedIndex] is no longer [-1]: both tests of an iteration
    fail. *)
Ltac already_added :=
  simpl; repeat (rewrite (proj2 (Z.eqb_neq _ (-1))) by lia; simpl).

Section BeforeAfterLoops.
Import BeforeAfter.
Context (beforeStepId afterStepId : string) (new : DeploymentStep).
Local Abbreviation scan := (scan beforeStepId afterStepId).

(** Once the new step is in, the rest of the list is copied. *)
Lemma create_loop_added l acc i idx :
  idx ≠ -1 →
  range_loop (create_body beforeStepId afterStepId new) l i (acc, idx)
  = (acc ++ l, idx).
Proof.
  intros Hidx. revert acc i.
  induction l as [|s l IH]; intros acc i; simpl.
  - by rewrite app_nil_r.
  - already_added.
    rewrite IH. by rewrite <- app_assoc.
Qed.

Lemma create_loop_search l acc i :
  0 ≤ i →
  range_loop (create_body beforeStepId afterStepId new) l i (acc, -1)
  = match scan l with
    | Some p => (acc ++ insert_at p new l, i + Z.of_nat p)
    | None => (acc ++ l, -1)
    end.
Proof.
  revert acc i. induction l as [|s l IH]; intros acc i Hi; simpl.
  - by rewrite app_nil_r.
  - case_bool_decide as Hb; simpl.
    + already_added.
      rewrite create_loop_added by lia.
      rewrite <- !app_assoc. simpl. f_equal. lia.
    + case_bool_decide as Ha; simpl.
      * rewrite create_loop_added by lia.
        rewrite <- !app_assoc. simpl. f_equal.
      * rewrite IH by lia. destruct (scan l) as [p|]; simpl.
        -- rewrite insert_at_cons, <- app_assoc. simpl. f_equal. lia.
        -- by rewrite <- app_assoc.
Qed.

(** The create splice puts the new step at the position the scan
    decides and reports that position. *)
Lemma create_splice_spec l :
  create_splice beforeStepId afterStepId new l =
  (insert_at (first_match_index beforeStepId afterStepId l) new l,
   Z.of_nat (first_match_index beforeStepId afterStepId l)).
Proof.
  unfold create_splice. rewrite create_loop_search by done.
  rewrite first_match_index_scan.
  destruct (scan l) as [p|] eqn:Hp; simpl.
  - by already_added.
  - unfold insert_at. by rewrite take_ge, drop_ge by done.
Qed.

Context (stepId : string).

Lemma update_loop_added l acc i idx :
  idx ≠ -1 →
  range_loop (update_body stepId beforeStepId afterStepId new) l i
    (acc, idx)
  = (acc ++ without_step stepId l, idx).
Proof.
  intros Hidx. revert acc i. unfold without_step.
  induction l as [|s l IH]; intros acc i; simpl.
  - by rewrite app_nil_r.
  - already_added.
    rewrite IH, filter_cons.
    case_bool_decide; case_decide; try done.
    by rewrite <- app_assoc.
Qed.

Lemma update_loop_search l acc i :
  0 ≤ i →
  range_loop (update_body stepId beforeStepId afterStepId new) l i
    (acc, -1)
  = match scan l with
    | Some p =>
        (acc ++ without_step stepId (take p l)
             ++ new :: without_step stepId (drop p l),
         i + Z.of_nat p)
    | None => (acc ++ without_step stepId l, -1)
    end.
Proof.
  revert acc i. unfold without_step.
  induction l as [|s l IH]; intros acc i Hi; simpl.
  - by rewrite app_nil_r.
  - case_bool_decide as Hb; simpl.
    + already_added.
      rewrite update_loop_added by lia. unfold without_step.
      rewrite filter_cons.
      case_bool_decide; case_decide; try done;
        rewrite <- ?app_assoc; simpl; f_equal; lia.
    + case_bool_decide as Ha; simpl.
      * rewrite update_loop_added by lia. unfold without_step.
        rewrite !filter_cons, take_0, drop_0, filter_nil.
        case_bool_decide; case_decide; try done;
          rewrite <- ?app_assoc; simpl; f_equal.
      * rewrite IH by lia. destruct (scan l) as [p|]; simpl.
        -- rewrite !filter_cons.
           case_bool_decide; case_decide; try done;
             rewrite <- ?app_assoc; simpl; f_equal; lia.
        -- rewrite !filter_cons.
           case_bool_decide; case_decide; try done;
             by rewrite <- ?app_assoc.
Qed.

(** The update splice: the position is decided on the list as fetched,
    the edited step still in it, and the old entries of the edited
    step are dropped on both sides of that position. *)
Lemma update_splice_spec l :
  (update_splice stepId beforeStepId afterStepId new l).1 =
  without_step stepId
    (take (first_match_index beforeStepId afterStepId l) l)
  ++ new ::
     without_step stepId
       (drop (first_match_index beforeStepId afterStepId l) l).
Proof.
  unfold update_splice. rewrite update_loop_search by done.
  rewrite first_match_index_scan.
  destruct (scan l) as [p|] eqn:Hp; simpl.
  - by already_added.
  - by rewrite take_ge, drop_ge by done.
Qed.

Lemma delete_loop l acc i :
  range_loop (delete_body stepId) l i acc = acc ++ without_step stepId l.
Proof.
  revert acc i. unfold without_step.
  induction l as [|s l IH]; intros acc i; simpl.
  - by rewrite app_nil_r.
  - rewrite IH, filter_cons. unfold delete_body.
    case_bool_decide; case_decide; try done. by rewrite <- app_assoc.
Qed.
End BeforeAfterLoops.

(** ** The create splice *)

Section CreateSplice.
Import BeforeAfter.

Example create_splice_before :
  create_splice "B" "" fresh_step
    [sample_step "A"; sample_step "B"; sample_step "C"]
  = ([sample_step "A"; fresh_step; sample_step "B"; sample_step "C"], 1).
Proof. reflexivity. Qed.

Example create_splice_after :
  create_splice "" "B" fresh_step
    [sample_step "A"; sample_step "B"; sample_step "C"]
  = ([sample_step "A"; sample_step "B"; fresh_step; sample_step "C"], 2).
Proof. reflexivity. Qed.

Example create_splice_append :
  create_splice "X" "Y" fresh_step
    [sample_step "A"; sample_step "B"; sample_step "C"]
  = ([sample_step "A"; sample_step "B"; sample_step "C"; fresh_step], 3).
Proof. reflexivity. Qed.

Example create_splice_empty :
  create_splice "A" "B" fresh_step [] = ([fresh_step], 0).
Proof. reflexivity. Qed.
End CreateSplice.

Section CreateSpliceClaims.
Import BeforeAfter.

(** The rule as worded gives the before-reference precedence wherever
    the two matched steps stand.  Here the step matching the
    after-reference comes first in the list: the scan inserts after
    it, at position 1, and never reaches the step matching the
    before-reference, at position 2. *)
Lemma create_splice_not_before_first :
  let l := [sample_step "A"; sample_step "B"; sample_step "C"] in
  create_splice "C" "A" fresh_step l
  = ([sample_step "A"; fresh_step; sample_step "B"; sample_step "C"], 1)
  ∧ insert_at (before_first_index "C" "A" l) fresh_step l
    = [sample_step "A"; sample_step "B"; fresh_step; sample_step "C"]
  ∧ (create_splice "C" "A" fresh_step l).1
    ≠ insert_at (before_first_index "C" "A" l) fresh_step l.
Proof. split_and!; [reflexivity..|]. intros [=]. Qed.

(** C1 (amended). The create splice places the new step by the first
    step of the list, in list order, that matches either reference:
    immediately before it when it matches the before-reference,
    immediately after it otherwise.  So with both references matching,
    the before-reference decides only if its step is not later than the
    step of the after-reference; with one reference matching, that one
    decides; with none, the new step is appended.  The index reported
    is the position of the new step. *)
Theorem create_splice_first_match beforeStepId afterStepId new l :
  create_splice beforeStepId afterStepId new l =
  match find_step beforeStepId l, find_step afterStepId l with
  | Some (i, _), Some (j, _) =>
      if bool_decide (i ≤ j)%nat
      then (insert_at i new l, Z.of_nat i)
      else (insert_at (S j) new l, Z.of_nat (S j))
  | Some (i, _), None => (insert_at i new l, Z.of_nat i)
  | None, Some (j, _) => (insert_at (S j) new l, Z.of_nat (S j))
  | None, None => (l ++ [new], Z.of_nat (length l))
  end.
Proof.
  rewrite create_splice_spec. unfold first_match_index.
  destruct (find_step beforeStepId l) as [[i ?]|],
    (find_step afterStepId l) as [[j ?]|]; try done.
  - by case_bool_decide.
  - unfold insert_at. by rewrite take_ge, drop_ge by done.
Qed.

(** Both references match, the before-reference two steps after the
    after-reference: the new step goes after the latter. *)
Lemma create_splice_both_match_after_wins :
  let l := [sample_step "A"; sample_step "B"; sample_step "C";
            sample_step "D"] in
  find_step "D" l = Some (3%nat, sample_step "D")
  ∧ find_step "B" l = Some (1%nat, sample_step "B")
  ∧ create_splice "D" "B" fresh_step l
    = ([sample_step "A"; sample_step "B"; fresh_step; sample_step "C";
        sample_step "D"], 2)
  ∧ (create_splice "D" "B" fresh_step l).1 ≠ insert_at 3 fresh_step l.
Proof. split_and!; [reflexivity..|]. intros [=]. Qed.

(** C3 (amended). When both references match, the new step is inserted
    immediately before the step matched by the before-reference if
    that step is not later in the list than the step matched by the
    after-reference; if it is later, the new step is inserted
    immediately after the step matched by the after-reference. *)
Theorem create_splice_both_match beforeStepId afterStepId new l i s j t :
  find_step beforeStepId l = Some (i, s) →
  find_step afterStepId l = Some (j, t) →
  ((i ≤ j)%nat →
     create_splice beforeStepId afterStepId new l
     = (insert_at i new l, Z.of_nat i))
  ∧ ((j < i)%nat →
     create_splice beforeStepId afterStepId new l
     = (insert_at (S j) new l, Z.of_nat (S j))).
Proof.
  intros Hb Ha. rewrite create_splice_spec. unfold first_match_index.
  rewrite Hb, Ha. split; intros Hij.
  - by rewrite bool_decide_true.
  - by rewrite bool_decide_false by lia.
Qed.

Lemma create_splice_both_match_witness :
  let l := [sample_step "A"; sample_step "B"; sample_step "C"] in
  (create_splice "A" "C" fresh_step l
   = (insert_at 0 fresh_step l, 0))
  ∧ (create_splice "C" "A" fresh_step l
     = (insert_at 1 fresh_step l, 1)).
Proof.
  split.
  - apply (create_splice_both_match "A" "C" fresh_step
             [sample_step "A"; sample_step "B"; sample_step "C"]
             0%nat (sample_step "A") 2%nat (sample_step "C"));
      [reflexivity | reflexivity | lia].
  - apply (create_splice_both_match "C" "A" fresh_step
             [sample_step "A"; sample_step "B"; sample_step "C"]
             2%nat (sample_step "C") 0%nat (sample_step "A"));
      [reflexivity | reflexivity | lia].
Defined.

(** C5. Whatever the two references are, the list built by the create
    splice is the original list with the new step inserted at one
    position: it holds the new step at the reported index, removing
    that entry gives back the original list (every original step once,
    in the original order), and it is one step longer. *)
Theorem create_splice_inserts_once beforeStepId afterStepId new l :
  ∃ i : nat,
    (i ≤ length l)%nat
    ∧ create_splice beforeStepId afterStepId new l
      = (insert_at i new l, Z.of_nat i)
    ∧ (create_splice beforeStepId afterStepId new l).1 !! i = Some new
    ∧ delete i (create_splice beforeStepId afterStepId new l).1 = l
    ∧ length (create_splice beforeStepId afterStepId new l).1
      = S (length l).
Proof.
  exists (first_match_index beforeStepId afterStepId l).
  assert (first_match_index beforeStepId afterStepId l ≤ length l)%nat
    as Hle.
  { rewrite first_match_index_scan.
    destruct (scan _ _ l) as [p|] eqn:Hp; simpl; [|done].
    by eapply scan_le. }
  rewrite create_splice_spec. simpl. split_and!; try done.
  - by apply insert_at_lookup.
  - by apply insert_at_delete.
  - apply insert_at_length.
Qed.
End CreateSpliceClaims.

(** ** The delete and update splices *)

Section DeleteUpdateSpliceClaims.
Import BeforeAfter.

Example delete_splice_middle :
  delete_splice "B" [sample_step "A"; sample_step "B"; sample_step "C"]
  = [sample_step "A"; sample_step "C"].
Proof. reflexivity. Qed.

(** C4. The list the delete handler builds holds exactly the steps
    whose identifier differs from the resource's step identifier, in
    their original relative order; nothing is inserted. *)
Theorem delete_splice_filters stepId l :
  delete_splice stepId l = filter (λ s, step_ID s ≠ stepId) l
  ∧ (∀ s, s ∈ delete_splice stepId l ↔ s ∈ l ∧ step_ID s ≠ stepId)
  ∧ delete_splice stepId l `sublist_of` l.
Proof.
  assert (delete_splice stepId l = filter (λ s, step_ID s ≠ stepId) l)
    as Heq.
  { unfold delete_splice. by rewrite delete_loop. }
  rewrite Heq. split_and!; [done| |apply sublist_filter].
  intros s. rewrite list_elem_of_filter. tauto.
Qed.

(** With a reference at its own value nothing matches any more once
    the edited step is removed, so removing first and inserting after
    would append; the handler matches the references while the edited
    step is still in the list and puts the rebuilt step in its place. *)
Lemma update_splice_self_reference :
  let l := [sample_step "A"; sample_step "B"; sample_step "C"] in
  let new := set_step_ID fresh_step "B" in
  (update_splice "B" "B" "" new l).1
  = [sample_step "A"; new; sample_step "C"]
  ∧ (create_splice "B" "" new (without_step "B" l)).1
    = [sample_step "A"; sample_step "C"; new]
  ∧ insert_at (before_first_index "B" "" (without_step "B" l)) new
      (without_step "B" l)
    = [sample_step "A"; sample_step "C"; new]
  ∧ (update_splice "B" "B" "" new l).1
    ≠ (create_splice "B" "" new (without_step "B" l)).1.
Proof. split_and!; [reflexivity..|]. intros [=]. Qed.

(** Removing the edited step does not move the point of insertion
    when neither reference is the edited step. *)
Lemma scan_without_step beforeStepId afterStepId stepId new l :
  beforeStepId ≠ stepId → afterStepId ≠ stepId →
  match scan beforeStepId afterStepId l with
  | Some p =>
      without_step stepId (take p l)
      ++ new :: without_step stepId (drop p l)
  | None => without_step stepId l ++ [new]
  end
  = match scan beforeStepId afterStepId (without_step stepId l) with
    | Some q => insert_at q new (without_step stepId l)
    | None => without_step stepId l ++ [new]
    end.
Proof.
  intros Hb Ha. unfold without_step.
  induction l as [|s l IH]; simpl; [done|].
  rewrite filter_cons.
  case_bool_decide as Hsb; [|case_bool_decide as Hsa].
  - rewrite decide_True by congruence. simpl.
    rewrite bool_decide_true by done.
    by rewrite filter_cons, decide_True by congruence.
  - rewrite decide_True by congruence. simpl.
    rewrite bool_decide_false, bool_decide_true by done.
    rewrite take_0, drop_0, filter_cons, decide_True by congruence.
    done.
  - case_decide as Hs; simpl.
    + rewrite !bool_decide_false by done.
      destruct (scan _ _ l) as [p|],
        (scan _ _ (filter _ l)) as [q|]; simpl in *;
        rewrite ?filter_cons, ?decide_True by done;
        rewrite ?insert_at_cons; simpl; congruence.
    + destruct (scan _ _ l) as [p|]; simpl in *;
        rewrite ?filter_cons; repeat case_decide; done.
Qed.

(** C2 (amended). The update handler inserts the rebuilt step at the
    position the scan of the create handler selects on the list as
    fetched, the edited step still in it, and drops the old entries of
    the edited step.  When neither reference is the resource's own
    identifier, this is the list obtained by first removing the edited
    step and then inserting the rebuilt step by the rule of the create
    splice. *)
Theorem update_splice_removes_then_inserts
    stepId beforeStepId afterStepId new l :
  (update_splice stepId beforeStepId afterStepId new l).1
  = without_step stepId
      (take (first_match_index beforeStepId afterStepId l) l)
    ++ new ::
       without_step stepId
         (drop (first_match_index beforeStepId afterStepId l) l)
  ∧ (beforeStepId ≠ stepId → afterStepId ≠ stepId →
     (update_splice stepId beforeStepId afterStepId new l).1
     = (create_splice beforeStepId afterStepId new
          (without_step stepId l)).1).
Proof.
  split; [apply update_splice_spec|]. intros Hb Ha.
  unfold update_splice, create_splice.
  rewrite update_loop_search, create_loop_search by done.
  pose proof (scan_without_step _ _ _ new l Hb Ha) as Hscan.
  destruct (scan _ _ l) as [p|],
    (scan _ _ (without_step stepId l)) as [q|]; already_added;
    rewrite ?Z.eqb_refl; simpl; done.
Qed.

Lemma update_splice_removes_then_inserts_witness :
  let l := [sample_step "A"; sample_step "B"; sample_step "C"] in
  let new := set_step_ID fresh_step "B" in
  (update_splice "B" "" "C" new l).1
  = (create_splice "" "C" new (without_step "B" l)).1.
Proof.
  apply (update_splice_removes_then_inserts "B" "" "C"
           (set_step_ID fresh_step "B")
           [sample_step "A"; sample_step "B"; sample_step "C"]);
    discriminate.
Defined.

Example update_splice_moves_step :
  let l := [sample_step "A"; sample_step "B"; sample_step "C"] in
  let new := set_step_ID fresh_step "B" in
  (update_splice "B" "" "C" new l).1
  = [sample_step "A"; sample_step "C"; new].
Proof. reflexivity. Qed.
End DeleteUpdateSpliceClaims.

(** ** The handlers push the spliced list *)

Lemma index_of_nat {A : Type} (xs : list A) (n : nat) :
  index xs (Z.of_nat n) = xs !! n.
Proof.
  unfold index. rewrite bool_decide_true by lia. by rewrite Nat2Z.id.
Qed.

Section Pushes.
Import BeforeAfter.
Context `{Externals} {Server : Type}.
Implicit Types (m : Client Server) (d : ResourceData) (srv : Server).

(** X1. Once the project and its process are fetched and the step is
    built, the create handler sends the process with the new step spliced in,
    and takes the identifier of the resource from the step the server
    returns at the position of the splice. *)
Lemma create_pushes_splice m d srv (build : build_func)
    project srv1 process srv2 new d' :
  Project_Get m (GetString d "project_id") srv = (Ok project, srv1) →
  DeploymentProcess_Get m (project_DeploymentProcessID project) srv1
  = (Ok process, srv2) →
  build d = Some (new, d') →
  let position :=
    first_match_index (GetString d "before_step_id")
      (GetString d "after_step_id") (process_Steps process) in
  resourceDeploymentStepCreate d m build srv
  = match
      DeploymentProcess_Update m
        (set_process_Steps process
           (insert_at position new (process_Steps process))) srv2
    with
    | (Err err, srv3) =>
        Returned (Some (errorString
          ("error updating deployment process for project: "
           +:+ Error err))) d' srv3
    | (Ok updated, srv3) =>
        match process_Steps updated !! position with
        | Some added =>
            Returned None
              (SetId (Set_ d' "deployment_process_id"
                        (VString (process_ID updated))) (step_ID added))
              srv3
        | None => Panicked srv3
        end
    end.
Proof.
  intros Hproject Hprocess Hbuild position.
  unfold resourceDeploymentStepCreate.
  rewrite Hproject, Hprocess, Hbuild, create_splice_spec.
  fold position.
  destruct (DeploymentProcess_Update _ _ _) as [[updated|err] srv3];
    [|done].
  by rewrite index_of_nat.
Qed.

(** X4. Once the process is fetched and the step is rebuilt, the update
    handler sends the process with the splice of the update loop,
    the rebuilt step carrying the identifier of the resource. *)
Lemma update_pushes_splice m d srv (build : build_func)
    process srv1 new d' :
  DeploymentProcess_Get m (GetString d "deployment_process_id") srv
  = (Ok process, srv1) →
  build d = Some (new, d') →
  resourceDeploymentStepUpdate d m build srv
  = match
      DeploymentProcess_Update m
        (set_process_Steps process
           (update_splice (Id d) (GetString d "before_step_id")
              (GetString d "after_step_id") (set_step_ID new (Id d))
              (process_Steps process)).1) srv1
    with
    | (Err err, srv2) =>
        Returned (Some (errorString
          ("error updating deployment process for project: "
           +:+ Error err))) d' srv2
    | (Ok _, srv2) => Returned None d' srv2
    end.
Proof.
  intros Hprocess Hbuild. unfold resourceDeploymentStepUpdate.
  rewrite Hprocess, Hbuild.
  by destruct (update_splice _ _ _ _ _) as [Steps idx].
Qed.

(** X8. Once the process is fetched, the delete handler sends it without
    the steps of the resource's identifier, and clears the identifier
    when the update succeeds. *)
Lemma delete_pushes_filter m d srv process srv1 :
  DeploymentProcess_Get m (GetString d "deployment_process_id") srv
  = (Ok process, srv1) →
  resourceDeploymentStepDelete d m srv
  = match
      DeploymentProcess_Update m
        (set_process_Steps process
           (filter (λ s, step_ID s ≠ Id d) (process_Steps process))) srv1
    with
    | (Err err, srv2) =>
        Returned (Some (errorString
          ("error updating deployment process for project: "
           +:+ Error err))) d srv2
    | (Ok _, srv2) => Returned None (SetId d "") srv2
    end.
Proof.
  intros Hprocess. unfold resourceDeploymentStepDelete, delete_splice.
  rewrite Hprocess, delete_loop. done.
Qed.
End Pushes.

Section PushesRuns.
Import BeforeAfter.
Local Existing Instance sample_externals.

(** Against the sample server: a step created before [B], the step [B]
    moved after [C], the step [B] deleted. *)
Example create_on_sample_server :
  sample_summary
    (resourceDeploymentStepCreate
       (Set_ (sample_resource "") "before_step_id" (VString "B"))
       sample_client sample_build sample_srv)
  = Some (None, "Steps-new", ["A"; "Steps-new"; "B"; "C"]).
Proof. vm_compute. reflexivity. Qed.

Example update_on_sample_server :
  sample_summary
    (resourceDeploymentStepUpdate
       (Set_ (sample_resource "B") "after_step_id" (VString "C"))
       sample_client sample_build sample_srv)
  = Some (None, "B", ["A"; "C"; "B"]).
Proof. vm_compute. reflexivity. Qed.

Example delete_on_sample_server :
  sample_summary
    (resourceDeploymentStepDelete (sample_resource "B") sample_client
       sample_srv)
  = Some (None, "", ["A"; "C"]).
Proof. vm_compute. reflexivity. Qed.
End PushesRuns.

(** ** The splices of the revision with [first_step] *)

Section FirstStepLoops.
Import FirstStep.
Context (afterStepId : string) (new : DeploymentStep).

(** Past the first step, or without the flag, the test of the flag
    fails. *)
Local Abbreviation past_first firstStep i :=
  (firstStep = false ∨ 0 < i).

(** The side conditions on the index of the next iteration. *)
Ltac next_index :=
  first [ lia | by left | right; lia
        | match goal with
          | H : _ ∨ _ |- _ => destruct H; [by left | right; lia]
          end ].

Lemma first_step_test firstStep i :
  past_first firstStep i → firstStep && (i =? 0) = false.
Proof.
  intros [->|Hi]; [done|].
  rewrite (proj2 (Z.eqb_neq i 0)) by lia. apply andb_false_r.
Qed.

Lemma first_step_create_loop_added firstStep l acc i idx :
  idx ≠ -1 → past_first firstStep i →
  range_loop (create_body firstStep afterStepId new) l i (acc, idx)
  = (acc ++ l, idx).
Proof.
  intros Hidx. revert acc i.
  induction l as [|s l IH]; intros acc i Hi; simpl.
  - by rewrite app_nil_r.
  - rewrite first_step_test by done. already_added.
    rewrite IH by next_index.
    by rewrite <- app_assoc.
Qed.

Lemma first_step_create_loop_search firstStep l acc i :
  0 ≤ i → past_first firstStep i →
  range_loop (create_body firstStep afterStepId new) l i (acc, -1)
  = match find_step afterStepId l with
    | Some (j, _) =>
        (acc ++ insert_at (S j) new l, i + Z.of_nat (S j))
    | None => (acc ++ l, -1)
    end.
Proof.
  unfold find_step. revert acc i.
  induction l as [|s l IH]; intros acc i Hi Hpast; simpl.
  - by rewrite app_nil_r.
  - rewrite first_step_test by done. simpl.
    case_bool_decide as Ha; case_decide; try done; simpl.
    + rewrite first_step_create_loop_added by next_index.
      rewrite <- !app_assoc. simpl. f_equal.
    + rewrite IH by next_index.
      destruct (list_find _ l) as [[j ?]|]; simpl.
      * rewrite insert_at_cons, <- app_assoc. simpl. f_equal. lia.
      * by rewrite <- app_assoc.
Qed.

(** With the flag the new step becomes the first step. *)
Lemma first_step_create_splice_first l :
  create_splice true afterStepId new l = (new :: l, 0).
Proof.
  unfold create_splice. destruct l as [|s l]; [done|]. simpl.
  rewrite first_step_create_loop_added by next_index.
  done.
Qed.

(** Without the flag the after-reference decides, and the new step is
    appended when it matches no step. *)
Lemma first_step_create_splice_after l :
  create_splice false afterStepId new l
  = match find_step afterStepId l with
    | Some (j, _) => (insert_at (S j) new l, Z.of_nat (S j))
    | None => (l ++ [new], Z.of_nat (length l))
    end.
Proof.
  unfold create_splice.
  rewrite first_step_create_loop_search by next_index.
  destruct (find_step afterStepId l) as [[j ?]|]; [|done].
  by already_added.
Qed.

(** The invariant of the create splice holds in this revision too. *)
Lemma first_step_create_splice_inserts_once firstStep l :
  ∃ i : nat,
    (i ≤ length l)%nat
    ∧ create_splice firstStep afterStepId new l
      = (insert_at i new l, Z.of_nat i).
Proof.
  destruct firstStep.
  - exists 0%nat. rewrite first_step_create_splice_first.
    split; [lia|done].
  - rewrite first_step_create_splice_after.
    destruct (find_step afterStepId l) as [[j s]|] eqn:Hj.
    + exists (S j). split; [|done].
      apply list_find_Some in Hj as (Hj & _).
      apply lookup_lt_Some in Hj. lia.
    + exists (length l). split; [done|].
      unfold insert_at. by rewrite take_ge, drop_ge by done.
Qed.

Context (stepId : string).

(** The delete loop is the one of [resource_deployment_step.go]. *)
Lemma first_step_delete_splice l :
  delete_splice stepId l = filter (λ s, step_ID s ≠ stepId) l.
Proof.
  unfold delete_splice.
  exact (delete_loop stepId l [] 0).
Qed.

Lemma first_step_update_loop_added firstStep l acc i idx :
  idx ≠ -1 → past_first firstStep i →
  range_loop (update_body stepId firstStep afterStepId new) l i
    (acc, idx)
  = (acc ++ without_step stepId l, idx).
Proof.
  intros Hidx. revert acc i. unfold without_step.
  induction l as [|s l IH]; intros acc i Hi; simpl.
  - by rewrite app_nil_r.
  - rewrite first_step_test by done. already_added.
    rewrite IH by next_index. rewrite filter_cons.
    case_bool_decide; case_decide; try done.
    by rewrite <- app_assoc.
Qed.

Lemma first_step_update_loop_search firstStep l acc i :
  0 ≤ i → past_first firstStep i →
  range_loop (update_body stepId firstStep afterStepId new) l i
    (acc, -1)
  = match find_step afterStepId l with
    | Some (j, _) =>
        (acc ++ without_step stepId (take (S j) l)
             ++ new :: without_step stepId (drop (S j) l),
         i + Z.of_nat (S j))
    | None => (acc ++ without_step stepId l, -1)
    end.
Proof.
  unfold find_step, without_step. revert acc i.
  induction l as [|s l IH]; intros acc i Hi Hpast; simpl.
  - by rewrite app_nil_r.
  - rewrite first_step_test by done. simpl.
    case_bool_decide as Ha; case_decide; try done; simpl.
    + rewrite first_step_update_loop_added by next_index.
      unfold without_step. rewrite take_0, drop_0, !filter_cons, filter_nil.
      case_bool_decide; case_decide; try done;
        rewrite <- ?app_assoc; simpl; f_equal.
    + rewrite IH by next_index.
      destruct (list_find _ l) as [[j ?]|]; simpl;
        rewrite !filter_cons;
        case_bool_decide; case_decide; try done;
        rewrite <- ?app_assoc; simpl; f_equal; lia.
Qed.

(** With the flag the rebuilt step becomes the first step, and the old
    entries of the edited step are dropped. *)
Lemma first_step_update_splice_first l :
  (update_splice stepId true afterStepId new l).1
  = new :: without_step stepId l.
Proof.
  unfold update_splice. destruct l as [|s l]; [done|]. simpl.
  rewrite first_step_update_loop_added by next_index.
  unfold without_step. rewrite filter_cons. simpl.
  by case_bool_decide; case_decide.
Qed.

(** Without the flag the after-reference is matched on the list as
    fetched, and the old entries of the edited step are dropped. *)
Lemma first_step_update_splice_after l :
  (update_splice stepId false afterStepId new l).1
  = match find_step afterStepId l with
    | Some (j, _) =>
        without_step stepId (take (S j) l)
        ++ new :: without_step stepId (drop (S j) l)
    | None => without_step stepId l ++ [new]
    end.
Proof.
  unfold update_splice.
  rewrite first_step_update_loop_search by next_index.
  destruct (find_step afterStepId l) as [[j ?]|]; [|done].
  by already_added.
Qed.
End FirstStepLoops.

Section FirstStepRuns.
Import FirstStep.

Example first_step_create_splice_sample :
  create_splice true "B" fresh_step
    [sample_step "A"; sample_step "B"; sample_step "C"]
  = ([fresh_step; sample_step "A"; sample_step "B"; sample_step "C"], 0)
  ∧ create_splice false "B" fresh_step
      [sample_step "A"; sample_step "B"; sample_step "C"]
    = ([sample_step "A"; sample_step "B"; fresh_step; sample_step "C"], 2).
Proof. split; reflexivity. Qed.
End FirstStepRuns.

(** ** Errors of the client in the handlers *)

Section ClientErrors.
Import BeforeAfter.
Context `{Externals} {Server : Type}.
Implicit Types (m : Client Server) (d : ResourceData) (srv : Server).

(** C9 (amended). The create handler returns an error wrapping the
    client error, with its message at the end, whenever the project
    lookup, the deployment-process fetch or the deployment-process
    update fails, for every error value.  The read, update and delete
    handlers do so when the deployment-process fetch fails with an
    error other than item-not-found, and the update and delete
    handlers when the deployment-process update fails, for every
    error value. *)
Theorem handlers_propagate_client_errors m d srv
    (build : build_func) (setSchema : set_schema_func) :
  (* create: project lookup *)
  (∀ err srv1,
     Project_Get m (GetString d "project_id") srv = (Err err, srv1) →
     resourceDeploymentStepCreate d m build srv
     = Returned (Some (errorString
         ("error loading project '" +:+ GetString d "project_id"
          +:+ "': " +:+ Error err))) d srv1)
  (* create: deployment-process fetch *)
  ∧ (∀ project srv1 err srv2,
     Project_Get m (GetString d "project_id") srv = (Ok project, srv1) →
     DeploymentProcess_Get m (project_DeploymentProcessID project) srv1
     = (Err err, srv2) →
     resourceDeploymentStepCreate d m build srv
     = Returned (Some (errorString
         ("error reading deployment process '"
          +:+ project_DeploymentProcessID project +:+ "': "
          +:+ Error err))) d srv2)
  (* create: deployment-process update *)
  ∧ (∀ project srv1 process srv2 new d' err srv3,
     Project_Get m (GetString d "project_id") srv = (Ok project, srv1) →
     DeploymentProcess_Get m (project_DeploymentProcessID project) srv1
     = (Ok process, srv2) →
     build d = Some (new, d') →
     DeploymentProcess_Update m
       (set_process_Steps process
          (create_splice (GetString d "before_step_id")
             (GetString d "after_step_id") new
             (process_Steps process)).1) srv2
     = (Err err, srv3) →
     resourceDeploymentStepCreate d m build srv
     = Returned (Some (errorString
         ("error updating deployment process for project: "
          +:+ Error err))) d' srv3)
  (* read: deployment-process fetch *)
  ∧ (∀ err srv1,
     DeploymentProcess_Get m (GetString d "deployment_process_id") srv
     = (Err err, srv1) →
     err ≠ ErrItemNotFound →
     resourceDeploymentStepRead d m setSchema srv
     = Returned (Some (errorString
         ("error reading deployment process '"
          +:+ GetString d "deployment_process_id" +:+ "': "
          +:+ Error err))) d srv1)
  (* update: deployment-process fetch *)
  ∧ (∀ err srv1,
     DeploymentProcess_Get m (GetString d "deployment_process_id") srv
     = (Err err, srv1) →
     err ≠ ErrItemNotFound →
     resourceDeploymentStepUpdate d m build srv
     = Returned (Some (errorString
         ("error reading deployment process id "
          +:+ GetString d "deployment_process_id" +:+ ": "
          +:+ Error err))) d srv1)
  (* update: deployment-process update *)
  ∧ (∀ process srv1 new d' err srv2,
     DeploymentProcess_Get m (GetString d "deployment_process_id") srv
     = (Ok process, srv1) →
     build d = Some (new, d') →
     DeploymentProcess_Update m
       (set_process_Steps process
          (update_splice (Id d) (GetString d "before_step_id")
             (GetString d "after_step_id") (set_step_ID new (Id d))
             (process_Steps process)).1) srv1
     = (Err err, srv2) →
     resourceDeploymentStepUpdate d m build srv
     = Returned (Some (errorString
         ("error updating deployment process for project: "
          +:+ Error err))) d' srv2)
  (* delete: deployment-process fetch *)
  ∧ (∀ err srv1,
     DeploymentProcess_Get m (GetString d "deployment_process_id") srv
     = (Err err, srv1) →
     err ≠ ErrItemNotFound →
     resourceDeploymentStepDelete d m srv
     = Returned (Some (errorString
         ("error reading deployment process id "
          +:+ GetString d "deployment_process_id" +:+ ": "
          +:+ Error err))) d srv1)
  (* delete: deployment-process update *)
  ∧ (∀ process srv1 err srv2,
     DeploymentProcess_Get m (GetString d "deployment_process_id") srv
     = (Ok process, srv1) →
     DeploymentProcess_Update m
       (set_process_Steps process
          (delete_splice (Id d) (process_Steps process))) srv1
     = (Err err, srv2) →
     resourceDeploymentStepDelete d m srv
     = Returned (Some (errorString
         ("error updating deployment process for project: "
          +:+ Error err))) d srv2).
Proof.
  unfold resourceDeploymentStepCreate, resourceDeploymentStepRead,
    resourceDeploymentStepUpdate, resourceDeploymentStepDelete.
  split_and!.
  - by intros err srv1 ->.
  - by intros project srv1 err srv2 -> ->.
  - intros project srv1 process srv2 new d' err srv3 -> -> -> Hupd.
    destruct (create_splice _ _ _ _) as [Steps idx]. simpl in Hupd.
    by rewrite Hupd.
  - intros err srv1 -> Herr. by rewrite bool_decide_false.
  - intros err srv1 -> Herr. by rewrite bool_decide_false.
  - intros process srv1 new d' err srv2 -> -> Hupd.
    destruct (update_splice _ _ _ _ _) as [Steps idx]. simpl in Hupd.
    by rewrite Hupd.
  - intros err srv1 -> Herr. by rewrite bool_decide_false.
  - by intros process srv1 err srv2 -> ->.
Qed.
End ClientErrors.

Section ClientErrorsRuns.
Import BeforeAfter.
Local Existing Instance sample_externals.

(** The deployment-process fetch of the read handler fails with
    item-not-found, an error that is not nil, and the handler returns
    nil. *)
Lemma read_swallows_item_not_found :
  DeploymentProcess_Get sample_client
    (GetString (sample_orphan "Steps-A") "deployment_process_id")
    sample_srv
  = (Err ErrItemNotFound, sample_srv)
  ∧ resourceDeploymentStepRead (sample_orphan "Steps-A") sample_client
      sample_set_schema sample_srv
    = Returned None (sample_orphan "") sample_srv.
Proof. split; reflexivity. Qed.

Lemma handlers_propagate_client_errors_witness :
  let offline := sample_client_offline (errorString "connection refused") in
  resourceDeploymentStepCreate (sample_resource "") offline sample_build
    sample_srv
  = Returned (Some (errorString
      "error loading project 'Projects-1': connection refused"))
      (sample_resource "") sample_srv
  ∧ resourceDeploymentStepCreate (sample_orphan "") sample_client
      sample_build sample_srv
    = Returned (Some (errorString
        "error reading deployment process 'deploymentprocess-Projects-2': cannot find the item"))
        (sample_orphan "") sample_srv
  ∧ resourceDeploymentStepCreate (sample_resource "")
      sample_client_read_only sample_build sample_srv
    = Returned (Some (errorString
        "error updating deployment process for project: 403 Forbidden"))
        (sample_resource "") sample_srv
  ∧ resourceDeploymentStepRead (sample_resource "Steps-A") offline
      sample_set_schema sample_srv
    = Returned (Some (errorString
        "error reading deployment process 'deploymentprocess-Projects-1': connection refused"))
        (sample_resource "Steps-A") sample_srv
  ∧ resourceDeploymentStepUpdate (sample_resource "B")
      sample_client_read_only sample_build sample_srv
    = Returned (Some (errorString
        "error updating deployment process for project: 403 Forbidden"))
        (sample_resource "B") sample_srv
  ∧ resourceDeploymentStepUpdate (sample_resource "B") offline
      sample_build sample_srv
    = Returned (Some (errorString
        "error reading deployment process id deploymentprocess-Projects-1: connection refused"))
        (sample_resource "B") sample_srv
  ∧ resourceDeploymentStepDelete (sample_resource "B") offline sample_srv
    = Returned (Some (errorString
        "error reading deployment process id deploymentprocess-Projects-1: connection refused"))
        (sample_resource "B") sample_srv
  ∧ resourceDeploymentStepDelete (sample_resource "B")
      sample_client_read_only sample_srv
    = Returned (Some (errorString
        "error updating deployment process for project: 403 Forbidden"))
        (sample_resource "B") sample_srv.
Proof.
  split_and!.
  - exact (proj1 (handlers_propagate_client_errors
                    (sample_client_offline (errorString "connection refused"))
                    (sample_resource "") sample_srv sample_build
                    sample_set_schema) _ _ eq_refl).
  - destruct (handlers_propagate_client_errors sample_client
                (sample_orphan "") sample_srv sample_build
                sample_set_schema) as (_ & Hget & _).
    exact (Hget _ _ _ _ eq_refl eq_refl).
  - destruct (handlers_propagate_client_errors sample_client_read_only
                (sample_resource "") sample_srv sample_build
                sample_set_schema) as (_ & _ & Hupd & _).
    exact (Hupd _ _ _ _ _ _ _ _ eq_refl eq_refl eq_refl eq_refl).
  - destruct (handlers_propagate_client_errors
                (sample_client_offline (errorString "connection refused"))
                (sample_resource "Steps-A") sample_srv sample_build
                sample_set_schema) as (_ & _ & _ & Hread & _).
    refine (Hread _ _ eq_refl _). discriminate.
  - destruct (handlers_propagate_client_errors sample_client_read_only
                (sample_resource "B") sample_srv sample_build
                sample_set_schema) as (_ & _ & _ & _ & _ & Hupd & _).
    exact (Hupd _ _ _ _ _ _ eq_refl eq_refl eq_refl).
  - destruct (handlers_propagate_client_errors
                (sample_client_offline (errorString "connection refused"))
                (sample_resource "B") sample_srv sample_build
                sample_set_schema) as (_ & _ & _ & _ & Hget & _).
    refine (Hget _ _ eq_refl _). discriminate.
  - destruct (handlers_propagate_client_errors
                (sample_client_offline (errorString "connection refused"))
                (sample_resource "B") sample_srv sample_build
                sample_set_schema) as (_ & _ & _ & _ & _ & _ & Hdel & _).
    refine (Hdel _ _ eq_refl _). discriminate.
  - destruct (handlers_propagate_client_errors sample_client_read_only
                (sample_resource "B") sample_srv sample_build
                sample_set_schema) as (_ & _ & _ & _ & _ & _ & _ & Hupd).
    exact (Hupd _ _ _ _ eq_refl eq_refl).
Defined.
End ClientErrorsRuns.

Section NotFound.
Import BeforeAfter.
Context `{Externals} {Server : Type}.
Implicit Types (m : Client Server) (d : ResourceData) (srv : Server).

Lemma read_loop_None stepId Steps :
  read_loop stepId Steps = None ↔
  Forall (λ s, step_ID s ≠ stepId) Steps.
Proof.
  induction Steps as [|s Steps IH]; simpl.
  - split; [constructor|done].
  - rewrite Forall_cons. case_bool_decide; [|tauto].
    split; [done|]. tauto.
Qed.

(** C10. The read handler clears the resource identifier and returns
    nil when the deployment-process fetch returns item-not-found, and
    when the fetch succeeds but no step of the list has the
    identifier of the resource; the update and delete handlers do the
    same when the fetch returns item-not-found. *)
Theorem handlers_item_not_found m d srv
    (build : build_func) (setSchema : set_schema_func) :
  (∀ srv1,
     DeploymentProcess_Get m (GetString d "deployment_process_id") srv
     = (Err ErrItemNotFound, srv1) →
     resourceDeploymentStepRead d m setSchema srv
     = Returned None (SetId d "") srv1)
  ∧ (∀ process srv1,
     DeploymentProcess_Get m (GetString d "deployment_process_id") srv
     = (Ok process, srv1) →
     Forall (λ s, step_ID s ≠ Id d) (process_Steps process) →
     resourceDeploymentStepRead d m setSchema srv
     = Returned None (SetId d "") srv1)
  ∧ (∀ srv1,
     DeploymentProcess_Get m (GetString d "deployment_process_id") srv
     = (Err ErrItemNotFound, srv1) →
     resourceDeploymentStepUpdate d m build srv
     = Returned None (SetId d "") srv1)
  ∧ (∀ srv1,
     DeploymentProcess_Get m (GetString d "deployment_process_id") srv
     = (Err ErrItemNotFound, srv1) →
     resourceDeploymentStepDelete d m srv
     = Returned None (SetId d "") srv1)
  ∧ Id (SetId d "") = "".
Proof.
  unfold resourceDeploymentStepRead, resourceDeploymentStepUpdate,
    resourceDeploymentStepDelete.
  split_and!; [| | | |done].
  - by intros srv1 ->.
  - intros process srv1 -> Hall.
    by rewrite (proj2 (read_loop_None _ _) Hall).
  - by intros srv1 ->.
  - by intros srv1 ->.
Qed.
End NotFound.

Section NotFoundRuns.
Import BeforeAfter.
Local Existing Instance sample_externals.

Lemma handlers_item_not_found_witness :
  resourceDeploymentStepRead (sample_orphan "Steps-A") sample_client
    sample_set_schema sample_srv
  = Returned None (sample_orphan "") sample_srv
  ∧ resourceDeploymentStepRead (sample_resource "Steps-Z") sample_client
      sample_set_schema sample_srv
    = Returned None (sample_resource "") sample_srv
  ∧ resourceDeploymentStepUpdate (sample_orphan "Steps-A") sample_client
      sample_build sample_srv
    = Returned None (sample_orphan "") sample_srv
  ∧ resourceDeploymentStepDelete (sample_orphan "Steps-A") sample_client
      sample_srv
    = Returned None (sample_orphan "") sample_srv.
Proof.
  split_and!.
  - exact (proj1 (handlers_item_not_found sample_client
                    (sample_orphan "Steps-A") sample_srv sample_build
                    sample_set_schema) _ eq_refl).
  - destruct (handlers_item_not_found sample_client
                (sample_resource "Steps-Z") sample_srv sample_build
                sample_set_schema) as (_ & Hmiss & _).
    refine (Hmiss _ _ eq_refl _).
    repeat constructor; discriminate.
  - destruct (handlers_item_not_found sample_client
                (sample_orphan "Steps-A") sample_srv sample_build
                sample_set_schema) as (_ & _ & Hupd & _).
    exact (Hupd _ eq_refl).
  - destruct (handlers_item_not_found sample_client
                (sample_orphan "Steps-A") sample_srv sample_build
                sample_set_schema) as (_ & _ & _ & Hdel & _).
    exact (Hdel _ eq_refl).
Defined.
End NotFoundRuns.

(** ** The property bag: scripts *)

(** Lookups in a map built by insertions under literal keys. *)
Ltac map_lookup :=
  repeat first
    [ rewrite lookup_insert_eq
    | rewrite lookup_insert_ne by compute_done
    | rewrite lookup_empty ].

Section PropertyBag.
Import FirstStep.
Context `{Externals}.

Lemma GetOk_Set_ d key v :
  is_zero v = false → GetOk (Set_ d key v) key = Some v.
Proof.
  intros Hv. unfold GetOk, Set_. simpl.
  by rewrite lookup_insert_eq, Hv.
Qed.

Lemma attrs_Set_ d key v : attrs (Set_ d key v) !! key = Some v.
Proof. apply lookup_insert_eq. Qed.

Lemma attrs_Set_ne d key key' v :
  key ≠ key' → attrs (Set_ d key v) !! key' = attrs d !! key'.
Proof. apply lookup_insert_ne. Qed.

(** What is read back is the script body under the script type
    [read_back_type type]. *)
Lemma script_round_trip_reads_back scriptType type body d dread :
  scriptType ∈ ["pre"; "deploy"; "post"] →
  type ∈ ["PowerShell"; "CSharp"; "Bash"; "FSharp"] →
  script_round_trip scriptType type body d dread
  = Some (Set_ dread (script_setup scriptType).1
            (script_value (read_back_type type) body)).
Proof.
  intros Hs Ht. unfold script_round_trip.
  repeat (apply elem_of_cons in Hs as [->|Hs]);
    [| | |by apply elem_of_nil in Hs].
  all: repeat (apply elem_of_cons in Ht as [->|Ht]);
    [| | | |by apply elem_of_nil in Ht].
  all: unfold resourceDeploymentStep_AddPackageProperties_DeployScript;
    unfold resourceDeploymentStep_SetPackageSchema_DeployScript;
    simpl; rewrite GetOk_Set_ by done;
    reflexivity.
Qed.

(** C6 (the code at the failing inputs). For each of the pre, deploy
    and post scripts and every body, building the property bag and
    reading it back restores the body, and the type for [PowerShell]
    and [FSharp]; a [CSharp] script is read back as [Bash] and a
    [Bash] script as [CSharp]: the builder writes [CSharp] under
    [.csx] and [Bash] under [.sh], the setter reads [.sh] as [CSharp]
    and [.csx] as [Bash]. *)
Theorem script_round_trip_swaps_CSharp_and_Bash body d dread :
  Forall (λ scriptType,
      script_round_trip scriptType "CSharp" body d dread
      = Some (Set_ dread (script_setup scriptType).1
                (script_value "Bash" body))
      ∧ script_round_trip scriptType "Bash" body d dread
        = Some (Set_ dread (script_setup scriptType).1
                  (script_value "CSharp" body))
      ∧ script_round_trip scriptType "PowerShell" body d dread
        = Some (Set_ dread (script_setup scriptType).1
                  (script_value "PowerShell" body))
      ∧ script_round_trip scriptType "FSharp" body d dread
        = Some (Set_ dread (script_setup scriptType).1
                  (script_value "FSharp" body)))
    ["pre"; "deploy"; "post"].
Proof.
  repeat constructor;
    by rewrite script_round_trip_reads_back by compute_done.
Qed.

(** *** Application pool *)

(** The property bag built from an application pool block. *)
Lemma AddIisAppPoolProperties_appPool
    name framework identity username password start d :
  resourceDeploymentStep_AddIisAppPoolProperties
    (Set_ d "application_pool"
       (VList [VMap (appPool_map name framework identity username
                       password start)]))
    (basic_step "step" "Octopus.IIS") "IISWebSite"
  = Some (set_step_Actions (basic_step "step" "Octopus.IIS")
      [mkDeploymentAction "step" false "Octopus.IIS"
         (<["Octopus.Action.IISWebSite.StartApplicationPool" :=
              formatBool start]>
            (<["Octopus.Action.IISWebSite.ApplicationPoolPassword" :=
                 password]>
               (<["Octopus.Action.IISWebSite.ApplicationPoolUsername" :=
                    username]>
                  (<["Octopus.Action.IISWebSite.ApplicationPoolIdentityType"
                       := identity]>
                     (<["Octopus.Action.IISWebSite.ApplicationPoolFrameworkVersion"
                          := framework]>
                        (<["Octopus.Action.IISWebSite.ApplicationPoolName"
                             := name]> ∅))))))]).
Proof.
  unfold resourceDeploymentStep_AddIisAppPoolProperties.
  rewrite GetOk_Set_ by done.
  reflexivity.
Qed.

Lemma copy_property_lookup props key field appPool :
  copy_property props key field appPool !! field
  = match props !! key with
    | Some v => Some (VString v)
    | None => appPool !! field
    end.
Proof.
  unfold copy_property. destruct (props !! key); [|done].
  apply lookup_insert_eq.
Qed.

Lemma copy_property_lookup_ne props key field other appPool :
  field ≠ other →
  copy_property props key field appPool !! other = appPool !! other.
Proof.
  intros Hne. unfold copy_property. destruct (props !! key); [|done].
  by apply lookup_insert_ne.
Qed.

(** Whatever the property bag holds, the map that is read back has no
    field [start]. *)
Lemma appPool_of_properties_start props propPrefix :
  appPool_of_properties props propPrefix !! "start" = None.
Proof.
  unfold appPool_of_properties.
  assert (∀ m : gmap string value,
            m !! "start" = None →
            match props !! "Octopus.Action.IISWebSite.StartApplicationPool"
            with
            | Some startAppPoolString =>
                match strconv_ParseBool startAppPoolString with
                | Some startAppPool =>
                    <["password" := VBool startAppPool]> m
                | None => m
                end
            | None => m
            end !! "start" = None) as Hstart.
  { intros m Hm. destruct (props !! _) as [str|]; [|done].
    destruct (strconv_ParseBool str); [|done].
    by rewrite lookup_insert_ne. }
  apply Hstart. by rewrite !copy_property_lookup_ne.
Qed.

(** The fields copied under their own name. *)
Lemma appPool_of_properties_copied props propPrefix key field :
  (key, field) ∈ [(".ApplicationPoolName", "name");
                  (".ApplicationPoolFrameworkVersion", "framework");
                  (".ApplicationPoolIdentityType", "identity");
                  (".ApplicationPoolUsername", "username")] →
  appPool_of_properties props propPrefix !! field
  = VString <$> props !! (propPrefix +:+ key).
Proof.
  intros Hin. unfold appPool_of_properties.
  assert (field ≠ "password") as Hfield.
  { repeat (apply elem_of_cons in Hin as [[= -> ->]|Hin]); try done.
    by apply elem_of_nil in Hin. }
  transitivity
    ((copy_property props (propPrefix +:+ ".ApplicationPoolPassword")
        "password"
        (copy_property props (propPrefix +:+ ".ApplicationPoolUsername")
           "username"
           (copy_property props
              (propPrefix +:+ ".ApplicationPoolIdentityType") "identity"
              (copy_property props
                 (propPrefix +:+ ".ApplicationPoolFrameworkVersion")
                 "framework"
                 (copy_property props
                    (propPrefix +:+ ".ApplicationPoolName") "name" ∅)))))
     !! field).
  { destruct (props !! "Octopus.Action.IISWebSite.StartApplicationPool")
      as [str|]; [|done].
    destruct (strconv_ParseBool str); [|done].
    by rewrite lookup_insert_ne. }
  repeat (apply elem_of_cons in Hin as [[= -> ->]|Hin]);
    [| | | |by apply elem_of_nil in Hin].
  all: rewrite ?copy_property_lookup_ne by done;
    rewrite copy_property_lookup;
    destruct (props !! _); [done|];
    by rewrite ?copy_property_lookup_ne by done.
Qed.

(** The field [password] holds the parsed start flag when there is
    one, and the password only otherwise. *)
Lemma appPool_of_properties_password props propPrefix :
  appPool_of_properties props propPrefix !! "password"
  = match
      props !! "Octopus.Action.IISWebSite.StartApplicationPool"
      ≫= strconv_ParseBool
    with
    | Some startAppPool => Some (VBool startAppPool)
    | None =>
        VString <$> props !! (propPrefix +:+ ".ApplicationPoolPassword")
    end.
Proof.
  unfold appPool_of_properties.
  destruct (props !! "Octopus.Action.IISWebSite.StartApplicationPool")
    as [str|]; simpl.
  - destruct (strconv_ParseBool str); [by rewrite lookup_insert_eq|].
    rewrite copy_property_lookup. destruct (props !! _); [done|].
    by rewrite !copy_property_lookup_ne.
  - rewrite copy_property_lookup. destruct (props !! _); [done|].
    by rewrite !copy_property_lookup_ne.
Qed.

(** C7 (the code at the failing inputs). Building the property bag
    from an application pool block and reading it back restores
    [name], [framework], [identity] and [username]; the field [start]
    is never restored, and the parsed start flag is stored under
    [password] in place of the password whenever the text written by
    [formatBool] parses as a bool. *)
Theorem appPool_round_trip_loses_start
    name framework identity username password start d dread :
  ∃ readAppPool,
    appPool_round_trip
      (appPool_map name framework identity username password start)
      d dread = Some readAppPool
    ∧ readAppPool !! "name" = Some (VString name)
    ∧ readAppPool !! "framework" = Some (VString framework)
    ∧ readAppPool !! "identity" = Some (VString identity)
    ∧ readAppPool !! "username" = Some (VString username)
    ∧ readAppPool !! "password"
      = Some (match strconv_ParseBool (formatBool start) with
              | Some startAppPool => VBool startAppPool
              | None => VString password
              end)
    ∧ readAppPool !! "start" = None.
Proof.
  unfold appPool_round_trip.
  rewrite AddIisAppPoolProperties_appPool. simpl.
  unfold resourceDeploymentStep_SetIisAppPoolSchema. simpl.
  rewrite lookup_insert_eq. eexists. split; [reflexivity|].
  split_and!.
  - by rewrite (appPool_of_properties_copied _ _ ".ApplicationPoolName")
      by compute_done.
  - by rewrite (appPool_of_properties_copied _ _
                  ".ApplicationPoolFrameworkVersion") by compute_done.
  - by rewrite (appPool_of_properties_copied _ _
                  ".ApplicationPoolIdentityType") by compute_done.
  - by rewrite (appPool_of_properties_copied _ _
                  ".ApplicationPoolUsername") by compute_done.
  - rewrite appPool_of_properties_password.
    match goal with
    | |- context [ ?P !! ?k ≫= strconv_ParseBool ] =>
        change (P !! k) with (Some (formatBool start))
    end.
    simpl. by destruct (strconv_ParseBool (formatBool start)).
  - apply appPool_of_properties_start.
Qed.
End PropertyBag.

(** ** The property bag: bindings of an IIS website *)

Section Bindings.
Import FirstStep IisWebsite.
Context `{Externals}.

(** [d'] has the bindings of [d]. *)
Local Abbreviation same_binding d d' :=
  (attrs d' !! "binding" = attrs d !! "binding").

Ltac same_binding :=
  repeat case_match; rewrite ?attrs_Set_ne by done; done.

Lemma SetBasicSchema_binding d deploymentStep action rest :
  step_Actions deploymentStep = action :: rest →
  ∃ d', resourceDeploymentStep_SetBasicSchema d deploymentStep = Some d'
        ∧ same_binding d d'.
Proof.
  intros Ha. unfold resourceDeploymentStep_SetBasicSchema.
  rewrite Ha. simpl. eexists. split; [done|]. same_binding.
Qed.

Lemma script_setup_not_binding scriptType :
  (script_setup scriptType).1 ≠ "binding".
Proof. unfold script_setup. by repeat case_bool_decide. Qed.

Lemma SetPackageSchema_DeployScript_binding
    d deploymentStep scriptType action rest :
  step_Actions deploymentStep = action :: rest →
  ∃ d', resourceDeploymentStep_SetPackageSchema_DeployScript d
          deploymentStep scriptType = Some d'
        ∧ same_binding d d'.
Proof.
  intros Ha. unfold resourceDeploymentStep_SetPackageSchema_DeployScript.
  pose proof (script_setup_not_binding scriptType) as Hne.
  destruct (script_setup scriptType) as [scriptProp scriptNameStart].
  unfold action0_Properties. rewrite Ha. simpl in *.
  destruct (script_of_properties _ _ !! "type");
    (eexists; split; [done|]); [|done].
  by rewrite attrs_Set_ne.
Qed.

Lemma SetPackageSchema_binding d deploymentStep action rest :
  step_Actions deploymentStep = action :: rest →
  ∃ d', resourceDeploymentStep_SetPackageSchema d deploymentStep = Some d'
        ∧ same_binding d d'.
Proof.
  intros Ha. unfold resourceDeploymentStep_SetPackageSchema.
  unfold action0_Properties. rewrite Ha. simpl.
  match goal with
  | |- context [resourceDeploymentStep_SetPackageSchema_DeployScript
                  ?d0 _ "pre"] =>
      assert (same_binding d d0) as Hd0 by same_binding;
      generalize dependent d0
  end.
  intros d0 Hd0.
  destruct (SetPackageSchema_DeployScript_binding d0 deploymentStep
              "pre" _ _ Ha) as (d1 & -> & Hd1). simpl.
  destruct (SetPackageSchema_DeployScript_binding d1 deploymentStep
              "deploy" _ _ Ha) as (d2 & -> & Hd2). simpl.
  destruct (SetPackageSchema_DeployScript_binding d2 deploymentStep
              "post" _ _ Ha) as (d3 & -> & Hd3).
  exists d3. split; [done|]. congruence.
Qed.

Lemma SetIisAppPoolSchema_binding d deploymentStep iisType action rest :
  step_Actions deploymentStep = action :: rest →
  ∃ d', resourceDeploymentStep_SetIisAppPoolSchema d deploymentStep
          iisType = Some d'
        ∧ same_binding d d'.
Proof.
  intros Ha. unfold resourceDeploymentStep_SetIisAppPoolSchema.
  unfold action0_Properties. rewrite Ha. simpl.
  eexists. split; [done|]. by rewrite attrs_Set_ne.
Qed.

Lemma set_parsed_bool_binding props prop key d :
  key ≠ "binding" → same_binding d (set_parsed_bool props prop key d).
Proof. intros Hne. unfold set_parsed_bool. same_binding. Qed.

(** The setter of the IIS website step returns on every step with an
    action and leaves the [binding] attribute as it was. *)
Lemma setIisWebsiteSchema_keeps_binding d deploymentStep action rest :
  step_Actions deploymentStep = action :: rest →
  ∃ d', setIisWebsiteSchema d deploymentStep = Some d'
        ∧ attrs d' !! "binding" = attrs d !! "binding".
Proof.
  intros Ha. unfold setIisWebsiteSchema.
  destruct (SetBasicSchema_binding d deploymentStep _ _ Ha)
    as (d1 & -> & Hd1). simpl.
  destruct (SetPackageSchema_binding d1 deploymentStep _ _ Ha)
    as (d2 & -> & Hd2). simpl.
  destruct (SetIisAppPoolSchema_binding d2 deploymentStep "IISWebSite"
              _ _ Ha) as (d3 & -> & Hd3). simpl.
  unfold action0_Properties. rewrite Ha. simpl.
  eexists. split; [done|].
  rewrite <- Hd1, <- Hd2, <- Hd3.
  repeat first
    [ rewrite set_parsed_bool_binding by done
    | rewrite attrs_Set_ne by done
    | case_match ];
    done.
Qed.

Lemma set_action0_property_lookup deploymentStep key v deploymentStep' :
  set_action0_property deploymentStep key v = Some deploymentStep' →
  action0_property deploymentStep' key = Some v.
Proof.
  unfold set_action0_property, action0_property, action0_Properties.
  destruct (step_Actions deploymentStep) as [|a rest]; [done|].
  intros [= <-]. simpl. by rewrite lookup_insert_eq.
Qed.

Lemma build_stores_bindings d deploymentStep d' :
  buildIisWebsiteDeploymentStep d = Some (deploymentStep, d') →
  ∃ bindingsArray,
    flatten_bindings d' = Some bindingsArray
    ∧ action0_property deploymentStep "Octopus.Action.IISWebSite.Bindings"
      = Some (json_Marshal bindingsArray).
Proof.
  unfold buildIisWebsiteDeploymentStep. intros Hb.
  repeat match type of Hb with
         | _ ≫= _ = Some _ =>
             let x := fresh "x" in
             apply bind_Some in Hb as (x & ? & Hb);
             try (destruct x as [??]; simpl in Hb)
         end.
  injection Hb as <- <-.
  eexists. split; [done|]. by eapply set_action0_property_lookup.
Qed.

Lemma set_action0_property_Actions deploymentStep key v deploymentStep' :
  set_action0_property deploymentStep key v = Some deploymentStep' →
  ∃ action rest, step_Actions deploymentStep' = action :: rest.
Proof.
  unfold set_action0_property.
  destruct (step_Actions deploymentStep) as [|a rest]; [done|].
  intros [= <-]. simpl. eauto.
Qed.

Lemma build_Actions d deploymentStep d' :
  buildIisWebsiteDeploymentStep d = Some (deploymentStep, d') →
  ∃ action rest, step_Actions deploymentStep = action :: rest.
Proof.
  unfold buildIisWebsiteDeploymentStep. intros Hb.
  repeat match type of Hb with
         | _ ≫= _ = Some _ =>
             let x := fresh "x" in
             apply bind_Some in Hb as (x & ? & Hb);
             try (destruct x as [??]; simpl in Hb)
         end.
  injection Hb as <- <-. by eapply set_action0_property_Actions.
Qed.

(** C8 (amended). The mapping of the bindings goes one way.  Whenever
    the builder of the IIS website step returns, the property bag
    holds the JSON text of the flattened bindings under
    [Octopus.Action.IISWebSite.Bindings]; the setter does not read
    that property (expanding the bindings is a TODO of the source):
    it returns, and the [binding] attribute is what it was before the
    read. *)
Theorem bindings_written_not_read d dread :
  is_Some (buildIisWebsiteDeploymentStep d) →
  (∃ deploymentStep d' bindingsArray,
     buildIisWebsiteDeploymentStep d = Some (deploymentStep, d')
     ∧ flatten_bindings d' = Some bindingsArray
     ∧ action0_property deploymentStep
         "Octopus.Action.IISWebSite.Bindings"
       = Some (json_Marshal bindingsArray))
  ∧ binding_round_trip d dread = Some (attrs dread !! "binding").
Proof.
  intros [[deploymentStep d'] Hb]. split.
  - destruct (build_stores_bindings _ _ _ Hb) as (bindingsArray & ? & ?).
    by exists deploymentStep, d', bindingsArray.
  - unfold binding_round_trip. rewrite Hb. simpl.
    destruct (build_Actions _ _ _ Hb) as (action & rest & Ha).
    destruct (setIisWebsiteSchema_keeps_binding dread deploymentStep _ _ Ha)
      as (dread' & -> & Hsame).
    simpl. by rewrite Hsame.
Qed.
End Bindings.

Section BindingsRuns.
Import FirstStep IisWebsite.
Local Existing Instance sample_externals.

(** Read into a resource that has no [binding] attribute, the
    property bag built from a configuration with one binding gives no
    [binding] attribute. *)
Lemma binding_round_trip_forgets_bindings :
  attrs sample_website !! "binding"
  = Some (VList [VMap (binding_map "https" "*" "443" "example.org" ""
                         "cert" true true)])
  ∧ binding_round_trip sample_website empty_resource = Some None.
Proof. split; reflexivity. Qed.

Lemma bindings_written_not_read_witness :
  binding_round_trip sample_website (sample_resource "Steps-web")
  = Some (attrs (sample_resource "Steps-web") !! "binding").
Proof.
  apply (bindings_written_not_read sample_website
           (sample_resource "Steps-web")).
  apply is_Some_alt. vm_compute. exact I.
Defined.

Example appPool_round_trip_sample :
  appPool_round_trip
    (appPool_map "pool" "v4.0" "SpecificUser" "svc" "secret" true)
    empty_resource empty_resource
  = Some (<["name" := VString "pool"]>
            (<["framework" := VString "v4.0"]>
               (<["identity" := VString "SpecificUser"]>
                  (<["username" := VString "svc"]>
                     (<["password" := VBool true]> ∅))))).
Proof. reflexivity. Qed.

Example script_round_trip_sample :
  script_round_trip "deploy" "CSharp" "Console.WriteLine(1);"
    empty_resource empty_resource
  = Some (Set_ empty_resource "deploy_script"
            (script_value "Bash" "Console.WriteLine(1);")).
Proof. reflexivity. Qed.
End BindingsRuns.

(* ===================================================================== *)
(** * Further properties of the handlers and of the property bag *)
(* ===================================================================== *)

(** ** How the splices compose *)

Section SpliceAlgebra.
Import BeforeAfter.
Implicit Types (l : list DeploymentStep) (stepId : string).

Lemma without_step_app stepId l1 l2 :
  without_step stepId (l1 ++ l2)
  = without_step stepId l1 ++ without_step stepId l2.
Proof. apply filter_app. Qed.

Lemma without_step_fresh stepId l :
  Forall (λ s, step_ID s ≠ stepId) l → without_step stepId l = l.
Proof.
  unfold without_step. induction 1 as [|s l Hs _ IH]; [done|].
  by rewrite filter_cons, decide_True, IH.
Qed.

Lemma without_step_Forall stepId l :
  Forall (λ s, step_ID s ≠ stepId) (without_step stepId l).
Proof. apply Forall_forall. intros s [? _]%list_elem_of_filter. done. Qed.

Lemma without_step_idemp stepId l :
  without_step stepId (without_step stepId l) = without_step stepId l.
Proof. apply without_step_fresh, without_step_Forall. Qed.

Lemma without_step_cons_eq stepId s l :
  step_ID s = stepId →
  without_step stepId (s :: l) = without_step stepId l.
Proof.
  intros Hs. unfold without_step. by rewrite filter_cons, decide_False by tauto.
Qed.

Lemma with_step_without stepId l :
  filter (λ s, step_ID s = stepId) (without_step stepId l) = [].
Proof.
  unfold without_step. induction l as [|s l IH]; [done|].
  rewrite filter_cons. case_decide; [|done].
  by rewrite filter_cons, decide_False.
Qed.

(** X3. The list the update handler builds holds the rebuilt step, which
    carries the identifier of the resource, as its only step with that
    identifier, whether the fetched list held that identifier once,
    several times or not at all; the other steps are those of the
    fetched list, in their order. *)
Theorem update_splice_single_entry stepId beforeStepId afterStepId new l :
  filter (λ s, step_ID s = stepId)
    (update_splice stepId beforeStepId afterStepId
       (set_step_ID new stepId) l).1
  = [set_step_ID new stepId]
  ∧ without_step stepId
      (update_splice stepId beforeStepId afterStepId
         (set_step_ID new stepId) l).1
    = without_step stepId l.
Proof.
  rewrite update_splice_spec. split.
  - rewrite filter_app, filter_cons, !with_step_without.
    by rewrite decide_True.
  - rewrite without_step_app, without_step_cons_eq by done.
    rewrite !without_step_idemp.
    by rewrite <- without_step_app, take_drop.
Qed.

(** X5. When no step of the fetched list has the identifier of the
    resource, the update splice is the create splice: the rebuilt step is
    added by the rule of the create handler. *)
Theorem update_of_absent_step_is_create
    stepId beforeStepId afterStepId new l :
  Forall (λ s, step_ID s ≠ stepId) l →
  (update_splice stepId beforeStepId afterStepId new l).1
  = (create_splice beforeStepId afterStepId new l).1.
Proof.
  intros Hl. rewrite update_splice_spec, create_splice_spec. simpl.
  unfold insert_at.
  rewrite !without_step_fresh; [done|..].
  - eapply Forall_drop, Hl.
  - eapply Forall_take, Hl.
Qed.

Lemma update_of_absent_step_is_create_witness :
  (update_splice "D" "B" "" fresh_step
     [sample_step "A"; sample_step "B"; sample_step "C"]).1
  = (create_splice "B" "" fresh_step
       [sample_step "A"; sample_step "B"; sample_step "C"]).1.
Proof.
  apply (update_of_absent_step_is_create "D" "B" "" fresh_step
           [sample_step "A"; sample_step "B"; sample_step "C"]).
  repeat constructor; discriminate.
Defined.

(** X6. The list the delete handler builds holds no step with the
    identifier of the resource, and deleting from it again changes
    nothing. *)
Theorem delete_splice_idempotent stepId l :
  Forall (λ s, step_ID s ≠ stepId) (delete_splice stepId l)
  ∧ delete_splice stepId (delete_splice stepId l) = delete_splice stepId l.
Proof.
  unfold delete_splice. rewrite !delete_loop. simpl.
  split; [apply without_step_Forall|].
  apply without_step_fresh, without_step_Forall.
Qed.

(** X7. Deleting undoes creating: when no step of the list has the
    identifier of the new step, the delete splice for that identifier
    gives back the list the create splice started from, whatever the
    two references were. *)
Theorem delete_splice_undoes_create beforeStepId afterStepId new l :
  Forall (λ s, step_ID s ≠ step_ID new) l →
  delete_splice (step_ID new)
    (create_splice beforeStepId afterStepId new l).1
  = l.
Proof.
  intros Hl. unfold delete_splice. rewrite delete_loop, create_splice_spec.
  simpl. unfold insert_at.
  rewrite without_step_app, without_step_cons_eq by done.
  rewrite <- without_step_app, take_drop.
  by apply without_step_fresh.
Qed.

Lemma delete_splice_undoes_create_witness :
  delete_splice "Steps-new"
    (create_splice "B" "" (sample_step "Steps-new")
       [sample_step "A"; sample_step "B"; sample_step "C"]).1
  = [sample_step "A"; sample_step "B"; sample_step "C"].
Proof.
  apply (delete_splice_undoes_create "B" "" (sample_step "Steps-new")
           [sample_step "A"; sample_step "B"; sample_step "C"]).
  repeat constructor; discriminate.
Defined.
End SpliceAlgebra.

(** ** What the handlers do once the process is fetched *)

Section AfterFetch.
Import BeforeAfter.
Context `{Externals} {Server : Type}.
Implicit Types (m : Client Server) (d : ResourceData) (srv : Server).

Lemma read_loop_find_step stepId l :
  read_loop stepId l = snd <$> find_step stepId l.
Proof.
  unfold find_step. induction l as [|s l IH]; simpl; [done|].
  case_bool_decide; case_decide; try done.
  rewrite IH. by destruct (list_find _ l) as [[??]|].
Qed.

(** X2. When the update of the create handler succeeds, the reply of
    the server decides how the handler ends: it panics, after the
    server has been updated, if the reply has no step at the position of
    the splice; it returns nil, with the identifier of the step at that
    position, if the reply has at least as many steps as were sent. *)
Theorem create_reply_decides_outcome m d srv (build : build_func)
    project srv1 process srv2 new d' updated srv3 :
  Project_Get m (GetString d "project_id") srv = (Ok project, srv1) →
  DeploymentProcess_Get m (project_DeploymentProcessID project) srv1
  = (Ok process, srv2) →
  build d = Some (new, d') →
  let position :=
    first_match_index (GetString d "before_step_id")
      (GetString d "after_step_id") (process_Steps process) in
  let sent := insert_at position new (process_Steps process) in
  DeploymentProcess_Update m (set_process_Steps process sent) srv2
  = (Ok updated, srv3) →
  ((length (process_Steps updated) ≤ position)%nat →
     resourceDeploymentStepCreate d m build srv = Panicked srv3)
  ∧ ((length sent ≤ length (process_Steps updated))%nat →
     ∃ added,
       process_Steps updated !! position = Some added
       ∧ resourceDeploymentStepCreate d m build srv
         = Returned None
             (SetId (Set_ d' "deployment_process_id"
                       (VString (process_ID updated))) (step_ID added))
             srv3).
Proof.
  intros Hproject Hprocess Hbuild position sent Hupdate.
  unfold resourceDeploymentStepCreate.
  rewrite Hproject, Hprocess, Hbuild, create_splice_spec.
  fold position. fold sent. rewrite Hupdate, index_of_nat. split.
  - intros Hshort. by rewrite lookup_ge_None_2.
  - intros Hlong.
    assert (position < length (process_Steps updated))%nat as Hlt.
    { unfold sent in Hlong. rewrite insert_at_length in Hlong.
      assert (position ≤ length (process_Steps process))%nat; [|lia].
      unfold position. rewrite first_match_index_scan.
      destruct (scan _ _ _) as [p|] eqn:Hp; simpl; [|done].
      by eapply scan_le. }
    destruct (lookup_lt_is_Some_2 _ _ Hlt) as [added Hadded].
    exists added. by rewrite Hadded.
Qed.

(** X9. When the fetched list has a step with the identifier of the
    resource, the read handler hands the first such step to the schema
    setter and returns nil with the resource the setter leaves; it
    panics only if the setter does. *)
Theorem read_hands_first_match_to_setter m d srv
    (setSchema : set_schema_func) process srv1 i deploymentStep :
  DeploymentProcess_Get m (GetString d "deployment_process_id") srv
  = (Ok process, srv1) →
  find_step (Id d) (process_Steps process) = Some (i, deploymentStep) →
  resourceDeploymentStepRead d m setSchema srv
  = match setSchema d deploymentStep with
    | Some d' => Returned None d' srv1
    | None => Panicked srv1
    end.
Proof.
  intros Hprocess Hfind. unfold resourceDeploymentStepRead.
  by rewrite Hprocess, read_loop_find_step, Hfind.
Qed.
End AfterFetch.

Section AfterFetchRuns.
Import BeforeAfter.
Local Existing Instance sample_externals.

Lemma create_pushes_splice_witness :
  sample_summary
    (resourceDeploymentStepCreate
       (Set_ (sample_resource "") "after_step_id" (VString "A"))
       sample_client sample_build sample_srv)
  = Some (None, "Steps-new", ["A"; "Steps-new"; "B"; "C"]).
Proof.
  rewrite (create_pushes_splice sample_client
             (Set_ (sample_resource "") "after_step_id" (VString "A"))
             sample_srv sample_build
             (mkProject "deploymentprocess-Projects-1") sample_srv
             sample_process sample_srv
             (mkDeploymentStep "" "new" "LetOctopusDecide" "success"
                "StartAfterPrevious" ∅ [])
             (Set_ (sample_resource "") "after_step_id" (VString "A"))
             eq_refl eq_refl eq_refl).
  reflexivity.
Defined.

Lemma create_reply_decides_outcome_witness :
  sample_summary
    (resourceDeploymentStepCreate (sample_resource "") sample_client
       sample_build sample_srv)
  = Some (None, "Steps-new", ["A"; "B"; "C"; "Steps-new"]).
Proof.
  pose (new := mkDeploymentStep "" "new" "LetOctopusDecide" "success"
                 "StartAfterPrevious" ∅ []).
  pose (sent := process_Steps sample_process ++ [new]).
  pose (updated :=
          set_process_Steps sample_process (sample_assign_id <$> sent)).
  destruct (create_reply_decides_outcome sample_client
              (sample_resource "") sample_srv sample_build
              (mkProject "deploymentprocess-Projects-1") sample_srv
              sample_process sample_srv new (sample_resource "")
              updated
              (mkSampleServer (projects sample_srv)
                 (<[process_ID updated := updated]> (processes sample_srv)))
              eq_refl eq_refl eq_refl eq_refl) as [_ Hreturns].
  destruct Hreturns as (added & Hadded & ->); [vm_compute; lia|].
  injection Hadded as <-. reflexivity.
Defined.

Lemma update_pushes_splice_witness :
  sample_summary
    (resourceDeploymentStepUpdate
       (Set_ (sample_resource "B") "before_step_id" (VString "A"))
       sample_client sample_build sample_srv)
  = Some (None, "B", ["B"; "A"; "C"]).
Proof.
  rewrite (update_pushes_splice sample_client
             (Set_ (sample_resource "B") "before_step_id" (VString "A"))
             sample_srv sample_build sample_process sample_srv
             (mkDeploymentStep "" "new" "LetOctopusDecide" "success"
                "StartAfterPrevious" ∅ [])
             (Set_ (sample_resource "B") "before_step_id" (VString "A"))
             eq_refl eq_refl).
  reflexivity.
Defined.

Lemma delete_pushes_filter_witness :
  sample_summary
    (resourceDeploymentStepDelete (sample_resource "A") sample_client
       sample_srv)
  = Some (None, "", ["B"; "C"]).
Proof.
  rewrite (delete_pushes_filter sample_client (sample_resource "A")
             sample_srv sample_process sample_srv eq_refl).
  reflexivity.
Defined.

Lemma read_hands_first_match_to_setter_witness :
  resourceDeploymentStepRead (sample_resource "B") sample_client
    sample_set_schema sample_srv
  = Returned None
      (Set_ (sample_resource "B") "step_name" (VString "B")) sample_srv.
Proof.
  exact (read_hands_first_match_to_setter sample_client
           (sample_resource "B") sample_srv sample_set_schema
           sample_process sample_srv 1%nat (sample_step "B")
           eq_refl eq_refl).
Defined.
End AfterFetchRuns.

(** ** The revision with [first_step]: splices and read loop *)

Section FirstStepClosedForms.
Import FirstStep.

(** X12. In the revision with [first_step] the create splice puts the
    new step at the start of the list when the flag is set, whatever the
    after-reference is; without the flag it puts it immediately after
    the first step matching the after-reference, and at the end when no
    step matches. *)
Theorem first_step_create_splice_closed_form firstStep afterStepId new l :
  create_splice firstStep afterStepId new l
  = (insert_at (first_step_index firstStep afterStepId l) new l,
     Z.of_nat (first_step_index firstStep afterStepId l)).
Proof.
  unfold first_step_index. destruct firstStep.
  - apply first_step_create_splice_first.
  - rewrite first_step_create_splice_after.
    destruct (find_step afterStepId l) as [[j ?]|]; [done|].
    unfold insert_at. by rewrite take_ge, drop_ge by done.
Qed.

(** X13. In the revision with [first_step] the update splice puts the
    rebuilt step first when the flag is set and otherwise after the
    first step of the fetched list matching the after-reference, or at
    the end; in each case the old entries of the edited step are
    dropped. *)
Theorem first_step_update_splice_closed_form
    stepId firstStep afterStepId new l :
  (update_splice stepId firstStep afterStepId new l).1
  = without_step stepId
      (take (first_step_index firstStep afterStepId l) l)
    ++ new ::
       without_step stepId
         (drop (first_step_index firstStep afterStepId l) l).
Proof.
  unfold first_step_index. destruct firstStep.
  - by rewrite first_step_update_splice_first, take_0, drop_0.
  - rewrite first_step_update_splice_after.
    destruct (find_step afterStepId l) as [[j ?]|]; [done|].
    by rewrite take_ge, drop_ge by done.
Qed.

Lemma first_step_read_loop_from stepId l i flag :
  0 ≤ i →
  read_loop stepId l i (mkReadState None None flag)
  = mkReadState (snd <$> find_step stepId l) None
      match find_step stepId l with
      | Some (j, _) => if i + Z.of_nat j =? 0 then true else flag
      | None => flag
      end.
Proof.
  unfold find_step. revert i.
  induction l as [|s l IH]; intros i Hi; simpl; [done|].
  case_bool_decide; case_decide; try done; simpl.
  - by rewrite Z.add_0_r.
  - rewrite IH by lia. destruct (list_find _ l) as [[j ?]|]; simpl; [|done].
    do 2 f_equal. rewrite !(proj2 (Z.eqb_neq _ 0)) by lia. done.
Qed.

(** X10. The search of the read handler of the revision finds the first
    step with the identifier of the resource, sets the first-step flag
    exactly when that step is the first of the list, and never records a
    previous step: [prevDeploymentStep] is nil after every search. *)
Theorem first_step_read_loop_closed_form stepId l :
  read_loop stepId l 0 (mkReadState None None false)
  = mkReadState (snd <$> find_step stepId l) None
      (bool_decide (fst <$> find_step stepId l = Some 0%nat)).
Proof.
  rewrite first_step_read_loop_from by done. f_equal.
  destruct (find_step stepId l) as [[[|j] ?]|]; done.
Qed.
End FirstStepClosedForms.

(** ** The revision with [first_step]: handlers *)

Section FirstStepHandlers.
Import FirstStep.
Context `{Externals} {Server : Type}.
Implicit Types (m : Client Server) (d : ResourceData) (srv : Server).

(** X11. When the fetched list has a step with the identifier of the
    resource, the read handler of the revision stores whether that step
    is the first one under [first_step] and the enabled features of its
    first action under [enabled_features], then hands the step to the
    schema setter; it stores nothing under [after_step_id], and it
    panics on a step without action. *)
Theorem first_step_read_found m d srv (setSchema : set_schema_func)
    process srv1 i step :
  DeploymentProcess_Get m (GetString d "deployment_process_id") srv
  = (Ok process, srv1) →
  find_step (Id d) (process_Steps process) = Some (i, step) →
  resourceDeploymentStepRead d m setSchema srv
  = match step_Actions step with
    | [] => Panicked srv1
    | action :: _ =>
        match
          setSchema
            (Set_ (Set_ d "first_step" (VBool (bool_decide (i = 0%nat))))
               "enabled_features"
               (VString
                  (default ""
                     (action_Properties action
                        !! "Octopus.Action.EnabledFeatures"))))
            step
        with
        | Some d' => Returned None d' srv1
        | None => Panicked srv1
        end
    end.
Proof.
  intros Hprocess Hfind. unfold resourceDeploymentStepRead.
  rewrite Hprocess, first_step_read_loop_from, Hfind by done. simpl.
  unfold action0_property, action0_Properties.
  destruct (step_Actions step) as [|action rest]; [done|]. simpl.
  replace (if 0 + Z.of_nat i =? 0 then true else false)
    with (bool_decide (i = 0%nat)); [done|].
  case_bool_decide; [by subst|].
  by rewrite (proj2 (Z.eqb_neq _ 0)) by lia.
Qed.

(** X14. In the revision with [first_step] too, the read handler clears
    the identifier of the resource and returns nil when the
    deployment-process fetch returns item-not-found and when no step of
    the fetched list has the identifier; the update and delete handlers
    do so when the fetch returns item-not-found. *)
Theorem first_step_handlers_item_not_found m d srv
    (build : build_func) (setSchema : set_schema_func) :
  (∀ srv1,
     DeploymentProcess_Get m (GetString d "deployment_process_id") srv
     = (Err ErrItemNotFound, srv1) →
     resourceDeploymentStepRead d m setSchema srv
     = Returned None (SetId d "") srv1)
  ∧ (∀ process srv1,
     DeploymentProcess_Get m (GetString d "deployment_process_id") srv
     = (Ok process, srv1) →
     Forall (λ s, step_ID s ≠ Id d) (process_Steps process) →
     resourceDeploymentStepRead d m setSchema srv
     = Returned None (SetId d "") srv1)
  ∧ (∀ srv1,
     DeploymentProcess_Get m (GetString d "deployment_process_id") srv
     = (Err ErrItemNotFound, srv1) →
     resourceDeploymentStepUpdate d m build srv
     = Returned None (SetId d "") srv1)
  ∧ (∀ srv1,
     DeploymentProcess_Get m (GetString d "deployment_process_id") srv
     = (Err ErrItemNotFound, srv1) →
     resourceDeploymentStepDelete d m srv
     = Returned None (SetId d "") srv1).
Proof.
  unfold resourceDeploymentStepRead, resourceDeploymentStepUpdate,
    resourceDeploymentStepDelete.
  split_and!.
  - by intros srv1 ->.
  - intros process srv1 -> Hall.
    rewrite first_step_read_loop_from by done. unfold find_step.
    by rewrite (proj2 (list_find_None _ _) Hall).
  - by intros srv1 ->.
  - by intros srv1 ->.
Qed.

(** X15. In the revision with [first_step] the create handler returns an
    error ending in the message of the client error whenever the project
    lookup, the deployment-process fetch or the deployment-process
    update fails; the read, update and delete handlers do so when the
    fetch fails with an error other than item-not-found, and the update
    and delete handlers when the update fails. *)
Theorem first_step_handlers_propagate_client_errors m d srv
    (build : build_func) (setSchema : set_schema_func) :
  (∀ err srv1,
     Project_Get m (GetString d "project_id") srv = (Err err, srv1) →
     resourceDeploymentStepCreate d m build srv
     = Returned (Some (errorString
         ("error loading project '" +:+ GetString d "project_id"
          +:+ "': " +:+ Error err))) d srv1)
  ∧ (∀ project srv1 err srv2,
     Project_Get m (GetString d "project_id") srv = (Ok project, srv1) →
     DeploymentProcess_Get m (project_DeploymentProcessID project) srv1
     = (Err err, srv2) →
     resourceDeploymentStepCreate d m build srv
     = Returned (Some (errorString
         ("error reading deployment process '"
          +:+ project_DeploymentProcessID project +:+ "': "
          +:+ Error err))) d srv2)
  ∧ (∀ project srv1 process srv2 new d' err srv3,
     Project_Get m (GetString d "project_id") srv = (Ok project, srv1) →
     DeploymentProcess_Get m (project_DeploymentProcessID project) srv1
     = (Ok process, srv2) →
     build d = Some (new, d') →
     DeploymentProcess_Update m
       (set_process_Steps process
          (create_splice (GetBool d "first_step")
             (GetString d "after_step_id") new
             (process_Steps process)).1) srv2
     = (Err err, srv3) →
     resourceDeploymentStepCreate d m build srv
     = Returned (Some (errorString
         ("error updating deployment process for project: "
          +:+ Error err))) d' srv3)
  ∧ (∀ err srv1,
     DeploymentProcess_Get m (GetString d "deployment_process_id") srv
     = (Err err, srv1) →
     err ≠ ErrItemNotFound →
     resourceDeploymentStepRead d m setSchema srv
     = Returned (Some (errorString
         ("error reading deployment process '"
          +:+ GetString d "deployment_process_id" +:+ "': "
          +:+ Error err))) d srv1)
  ∧ (∀ err srv1,
     DeploymentProcess_Get m (GetString d "deployment_process_id") srv
     = (Err err, srv1) →
     err ≠ ErrItemNotFound →
     resourceDeploymentStepUpdate d m build srv
     = Returned (Some (errorString
         ("error reading deployment process id "
          +:+ GetString d "deployment_process_id" +:+ ": "
          +:+ Error err))) d srv1)
  ∧ (∀ process srv1 new d' err srv2,
     DeploymentProcess_Get m (GetString d "deployment_process_id") srv
     = (Ok process, srv1) →
     build d = Some (new, d') →
     DeploymentProcess_Update m
       (set_process_Steps process
          (update_splice (Id d) (GetBool d "first_step")
             (GetString d "after_step_id") (set_step_ID new (Id d))
             (process_Steps process)).1) srv1
     = (Err err, srv2) →
     resourceDeploymentStepUpdate d m build srv
     = Returned (Some (errorString
         ("error updating deployment process for project: "
          +:+ Error err))) d' srv2)
  ∧ (∀ err srv1,
     DeploymentProcess_Get m (GetString d "deployment_process_id") srv
     = (Err err, srv1) →
     err ≠ ErrItemNotFound →
     resourceDeploymentStepDelete d m srv
     = Returned (Some (errorString
         ("error reading deployment process id "
          +:+ GetString d "deployment_process_id" +:+ ": "
          +:+ Error err))) d srv1)
  ∧ (∀ process srv1 err srv2,
     DeploymentProcess_Get m (GetString d "deployment_process_id") srv
     = (Ok process, srv1) →
     DeploymentProcess_Update m
       (set_process_Steps process
          (delete_splice (Id d) (process_Steps process))) srv1
     = (Err err, srv2) →
     resourceDeploymentStepDelete d m srv
     = Returned (Some (errorString
         ("error updating deployment process for project: "
          +:+ Error err))) d srv2).
Proof.
  unfold resourceDeploymentStepCreate, resourceDeploymentStepRead,
    resourceDeploymentStepUpdate, resourceDeploymentStepDelete.
  split_and!.
  - by intros err srv1 ->.
  - by intros project srv1 err srv2 -> ->.
  - intros project srv1 process srv2 new d' err srv3 -> -> -> Hupd.
    destruct (create_splice _ _ _ _) as [Steps idx]. simpl in Hupd.
    by rewrite Hupd.
  - intros err srv1 -> Herr. by rewrite bool_decide_false.
  - intros err srv1 -> Herr. by rewrite bool_decide_false.
  - intros process srv1 new d' err srv2 -> -> Hupd.
    destruct (update_splice _ _ _ _ _) as [Steps idx]. simpl in Hupd.
    by rewrite Hupd.
  - intros err srv1 -> Herr. by rewrite bool_decide_false.
  - by intros process srv1 err srv2 -> ->.
Qed.

(** X16. Once the project and its process are fetched and the step is
    built, the create handler of the revision sends the process with
    the new step spliced in; on success it takes the identifier and the
    enabled features from the step the server returns at the position
    of the splice, and panics if there is no step there or if that step
    has no action. *)
Theorem first_step_create_pushes_splice m d srv (build : build_func)
    project srv1 process srv2 new d' :
  Project_Get m (GetString d "project_id") srv = (Ok project, srv1) →
  DeploymentProcess_Get m (project_DeploymentProcessID project) srv1
  = (Ok process, srv2) →
  build d = Some (new, d') →
  let position :=
    first_step_index (GetBool d "first_step")
      (GetString d "after_step_id") (process_Steps process) in
  resourceDeploymentStepCreate d m build srv
  = match
      DeploymentProcess_Update m
        (set_process_Steps process
           (insert_at position new (process_Steps process))) srv2
    with
    | (Err err, srv3) =>
        Returned (Some (errorString
          ("error updating deployment process for project: "
           +:+ Error err))) d' srv3
    | (Ok updated, srv3) =>
        match process_Steps updated !! position with
        | Some added =>
            match step_Actions added with
            | action :: _ =>
                Returned None
                  (Set_
                     (Set_ (SetId d' (step_ID added))
                        "deployment_process_id"
                        (VString (process_ID updated)))
                     "enabled_features"
                     (VString
                        (default ""
                           (action_Properties action
                              !! "Octopus.Action.EnabledFeatures"))))
                  srv3
            | [] => Panicked srv3
            end
        | None => Panicked srv3
        end
    end.
Proof.
  intros Hproject Hprocess Hbuild position.
  unfold resourceDeploymentStepCreate.
  rewrite Hproject, Hprocess, Hbuild.
  assert (create_splice (GetBool d "first_step")
            (GetString d "after_step_id") new (process_Steps process)
          = (insert_at position new (process_Steps process),
             Z.of_nat position)) as ->.
  { unfold position, first_step_index.
    destruct (GetBool d "first_step").
    - apply first_step_create_splice_first.
    - rewrite first_step_create_splice_after.
      destruct (find_step _ _) as [[j ?]|]; [done|].
      unfold insert_at. by rewrite take_ge, drop_ge by done. }
  destruct (DeploymentProcess_Update _ _ _) as [[updated|err] srv3];
    [|done].
  rewrite index_of_nat.
  destruct (process_Steps updated !! position) as [added|]; [|done].
  unfold action0_property, action0_Properties.
  by destruct (step_Actions added).
Qed.
End FirstStepHandlers.

Section FirstStepHandlersRuns.
Import FirstStep.
Local Existing Instance sample_externals.

Lemma first_step_read_found_witness :
  resourceDeploymentStepRead (sample_resource "B") sample_client
    sample_set_schema sample_web_srv
  = Returned None
      (Set_
         (Set_ (Set_ (sample_resource "B") "first_step" (VBool false))
            "enabled_features" (VString "Octopus.Features.IISWebSite"))
         "step_name" (VString "B"))
      sample_web_srv.
Proof.
  exact (first_step_read_found sample_client (sample_resource "B")
           sample_web_srv sample_set_schema
           (mkDeploymentProcess "deploymentprocess-Projects-1"
              [sample_web_step "A"; sample_web_step "B"])
           sample_web_srv 1%nat (sample_web_step "B") eq_refl eq_refl).
Defined.

Lemma first_step_handlers_item_not_found_witness :
  resourceDeploymentStepRead (sample_orphan "Steps-A") sample_client
    sample_set_schema sample_web_srv
  = Returned None (sample_orphan "") sample_web_srv
  ∧ resourceDeploymentStepRead (sample_resource "Steps-Z") sample_client
      sample_set_schema sample_web_srv
    = Returned None (sample_resource "") sample_web_srv
  ∧ resourceDeploymentStepDelete (sample_orphan "Steps-A") sample_client
      sample_web_srv
    = Returned None (sample_orphan "") sample_web_srv.
Proof.
  split_and!.
  - exact (proj1 (first_step_handlers_item_not_found sample_client
                    (sample_orphan "Steps-A") sample_web_srv
                    sample_build_web sample_set_schema) _ eq_refl).
  - destruct (first_step_handlers_item_not_found sample_client
                (sample_resource "Steps-Z") sample_web_srv
                sample_build_web sample_set_schema) as (_ & Hmiss & _).
    refine (Hmiss _ _ eq_refl _). repeat constructor; discriminate.
  - destruct (first_step_handlers_item_not_found sample_client
                (sample_orphan "Steps-A") sample_web_srv
                sample_build_web sample_set_schema) as (_ & _ & _ & Hdel).
    exact (Hdel _ eq_refl).
Defined.

Lemma first_step_handlers_propagate_client_errors_witness :
  resourceDeploymentStepCreate (sample_orphan "") sample_client
    sample_build_web sample_web_srv
  = Returned (Some (errorString
      "error reading deployment process 'deploymentprocess-Projects-2': cannot find the item"))
      (sample_orphan "") sample_web_srv
  ∧ resourceDeploymentStepUpdate (sample_resource "B")
      sample_client_read_only sample_build_web sample_web_srv
    = Returned (Some (errorString
        "error updating deployment process for project: 403 Forbidden"))
        (sample_resource "B") sample_web_srv
  ∧ resourceDeploymentStepRead (sample_resource "B")
      (sample_client_offline (errorString "connection refused"))
      sample_set_schema sample_web_srv
    = Returned (Some (errorString
        "error reading deployment process 'deploymentprocess-Projects-1': connection refused"))
        (sample_resource "B") sample_web_srv.
Proof.
  split_and!.
  - destruct (first_step_handlers_propagate_client_errors sample_client
                (sample_orphan "") sample_web_srv sample_build_web
                sample_set_schema) as (_ & Hget & _).
    exact (Hget _ _ _ _ eq_refl eq_refl).
  - destruct (first_step_handlers_propagate_client_errors
                sample_client_read_only (sample_resource "B")
                sample_web_srv sample_build_web sample_set_schema)
      as (_ & _ & _ & _ & _ & Hupd & _).
    exact (Hupd _ _ _ _ _ _ eq_refl eq_refl eq_refl).
  - destruct (first_step_handlers_propagate_client_errors
                (sample_client_offline (errorString "connection refused"))
                (sample_resource "B") sample_web_srv sample_build_web
                sample_set_schema) as (_ & _ & _ & Hread & _).
    refine (Hread _ _ eq_refl _). discriminate.
Defined.

Lemma first_step_create_pushes_splice_witness :
  sample_summary
    (resourceDeploymentStepCreate
       (Set_ (sample_resource "") "first_step" (VBool true))
       sample_client sample_build_web sample_web_srv)
  = Some (None, "Steps-new", ["Steps-new"; "A"; "B"]).
Proof.
  rewrite (first_step_create_pushes_splice sample_client
             (Set_ (sample_resource "") "first_step" (VBool true))
             sample_web_srv sample_build_web
             (mkProject "deploymentprocess-Projects-1") sample_web_srv
             (mkDeploymentProcess "deploymentprocess-Projects-1"
                [sample_web_step "A"; sample_web_step "B"])
             sample_web_srv (basic_step "new" "Octopus.IIS")
             (Set_ (sample_resource "") "first_step" (VBool true))
             eq_refl eq_refl eq_refl).
  reflexivity.
Defined.
End FirstStepHandlersRuns.

(** ** Strings: [strings.Join], [strings.Split] and [strings.Contains] *)

Section Strings.

Lemma string_app_cons (x : Ascii.ascii) (a b : string) :
  String x a +:+ b = String x (a +:+ b).
Proof. reflexivity. Qed.

Lemma string_app_assoc (a b c : string) : (a +:+ b) +:+ c = a +:+ (b +:+ c).
Proof.
  induction a as [|x a IH]; [done|]. by rewrite !string_app_cons, IH.
Qed.

Lemma string_app_nil_r (a : string) : a +:+ "" = a.
Proof.
  induction a as [|x a IH]; [done|]. by rewrite string_app_cons, IH.
Qed.

Lemma prefix_app (a b : string) : String.prefix a (a +:+ b) = true.
Proof.
  induction a as [|x a IH]; [by destruct b|].
  rewrite string_app_cons. simpl. by destruct (Ascii.ascii_dec x x).
Qed.

Lemma strings_Contains_unfold (s substr : string) :
  strings_Contains s substr
  = String.prefix substr s
    || match s with
       | EmptyString => false
       | String _ rest => strings_Contains rest substr
       end.
Proof. by destruct s. Qed.

Lemma strings_Contains_prefix (a b : string) :
  strings_Contains (a +:+ b) a = true.
Proof.
  by rewrite strings_Contains_unfold, prefix_app.
Qed.

Lemma strings_Contains_app_r (a b c : string) :
  strings_Contains b c = true → strings_Contains (a +:+ b) c = true.
Proof.
  intros Hb. induction a as [|x a IH]; [done|].
  rewrite string_app_cons, strings_Contains_unfold, IH. apply orb_true_r.
Qed.

(** [strings.Split] gives at least one word. *)
Lemma strings_Split_cons s sep :
  ∃ word words, strings_Split s sep = word :: words.
Proof.
  induction s as [|c s (word & words & IH)]; [by eexists _, _|].
  simpl. destruct (Ascii.eqb c sep); [by eexists _, _|].
  rewrite IH. by eexists _, _.
Qed.

(** A word free of the separator, followed by the separator, is the
    first word of the split. *)
Lemma strings_Split_app word rest sep :
  free_of sep word →
  strings_Split (word +:+ String sep rest) sep
  = word :: strings_Split rest sep.
Proof.
  induction word as [|c word IH]; intros Hfree.
  - change ("" +:+ String sep rest) with (String sep rest). simpl.
    by rewrite Ascii.eqb_refl.
  - destruct Hfree as [Hc Hfree]. rewrite string_app_cons. simpl.
    apply Ascii.eqb_neq in Hc as ->. by rewrite IH.
Qed.

Lemma strings_Split_free word sep :
  free_of sep word → strings_Split word sep = [word].
Proof.
  induction word as [|c word IH]; intros Hfree; [done|].
  destruct Hfree as [Hc Hfree]. simpl.
  apply Ascii.eqb_neq in Hc as ->. by rewrite IH.
Qed.

(** Splitting what was joined gives the words back, when there is a
    word and no word holds the separator. *)
Lemma strings_Split_Join words sep :
  words ≠ [] → Forall (free_of sep) words →
  strings_Split (strings_Join words (String sep "")) sep = words.
Proof.
  intros Hne Hfree. induction Hfree as [|word words Hword Hfree IH]; [done|].
  destruct words as [|word' words].
  - simpl. by apply strings_Split_free.
  - change (strings_Join (word :: word' :: words) (String sep ""))
      with (word +:+ String sep (strings_Join (word' :: words) (String sep ""))).
    rewrite strings_Split_app by done. by rewrite IH.
Qed.

End Strings.

(** ** Writes to the property bag *)

Section Bag.

Lemma set_action0_property_spec s key v s' :
  set_action0_property s key v = Some s' →
  step_Actions s ≠ []
  ∧ without_bag s' = without_bag s
  ∧ bag s' = <[key := v]> (bag s).
Proof.
  unfold set_action0_property, without_bag, bag, action0_Properties.
  destruct (step_Actions s) as [|a rest] eqn:Ha; [done|].
  intros [= <-]. simpl. done.
Qed.

Lemma without_bag_Actions s s' :
  without_bag s' = without_bag s →
  step_Actions s ≠ [] → step_Actions s' ≠ [].
Proof.
  unfold without_bag. intros Heq Hs Hs'. rewrite Hs' in Heq.
  destruct (step_Actions s) as [|a rest]; [done|].
  by rewrite Heq in Hs'.
Qed.

Lemma action0_Properties_bag s :
  step_Actions s ≠ [] → action0_Properties s = Some (bag s).
Proof.
  unfold bag, action0_Properties. by destruct (step_Actions s).
Qed.

Lemma action0_property_bag s key :
  step_Actions s ≠ [] →
  action0_property s key = Some (default "" (bag s !! key)).
Proof.
  intros Hs. unfold action0_property.
  by rewrite action0_Properties_bag.
Qed.

Lemma append_action0_property_spec s key v s' :
  append_action0_property s key v = Some s' →
  step_Actions s ≠ []
  ∧ without_bag s' = without_bag s
  ∧ bag s' = <[key := default "" (bag s !! key) +:+ v]> (bag s).
Proof.
  unfold append_action0_property. intros Hs.
  apply bind_Some in Hs as (old & Hold & Hs).
  apply set_action0_property_spec in Hs as (Ha & Hframe & Hbag).
  rewrite action0_property_bag in Hold by done.
  by injection Hold as <-.
Qed.

Lemma touches_only_refl K s : touches_only K s s.
Proof. by split. Qed.

Lemma touches_only_trans K s1 s2 s3 :
  touches_only K s1 s2 → touches_only K s2 s3 → touches_only K s1 s3.
Proof.
  intros [Hf1 Hk1] [Hf2 Hk2]. split; [congruence|].
  intros key HK. by rewrite Hk2, Hk1.
Qed.

Lemma touches_only_set K s key v s' :
  set_action0_property s key v = Some s' →
  K key = true → touches_only K s s'.
Proof.
  intros (_ & Hframe & Hbag)%set_action0_property_spec HK.
  split; [done|]. intros key' HK'. rewrite Hbag.
  apply lookup_insert_ne. congruence.
Qed.

Lemma touches_only_append K s key v s' :
  append_action0_property s key v = Some s' →
  K key = true → touches_only K s s'.
Proof.
  intros (_ & Hframe & Hbag)%append_action0_property_spec HK.
  split; [done|]. intros key' HK'. rewrite Hbag.
  apply lookup_insert_ne. congruence.
Qed.

Lemma touches_only_weaken (K K' : string → bool) s s' :
  (∀ key, K' key = false → K key = false) →
  touches_only K s s' → touches_only K' s s'.
Proof. intros HK [Hf Hk]. split; [done|]. auto. Qed.

Lemma touches_only_Actions K s s' :
  touches_only K s s' → step_Actions s ≠ [] → step_Actions s' ≠ [].
Proof. intros [Hf _]. by apply without_bag_Actions. Qed.

End Bag.

Create HintDb touches.

Lemma iis_propPrefix_prefix iisType suffix :
  String.prefix "Octopus.Action.IISWebSite"
    (FirstStep.iis_propPrefix iisType +:+ suffix) = true.
Proof.
  unfold FirstStep.iis_propPrefix. case_bool_decide; [apply prefix_app|].
  change "Octopus.Action.IISWebSite."
    with ("Octopus.Action.IISWebSite" +:+ ".").
  rewrite !string_app_assoc. apply prefix_app.
Qed.

(** The key written to is one of [K]. *)
Ltac touches_key :=
  first
    [ vm_compute; reflexivity
    | cbv beta; rewrite prefix_app; reflexivity
    | cbv beta; rewrite iis_propPrefix_prefix; reflexivity ].

(** [touches H]: the step of [H : ... = Some s'] is reached from the
    step [H] starts from by writes to keys of [K] only. *)
Ltac touches H :=
  cbv zeta in H;
  lazymatch type of H with
  | Some _ = Some _ => injection H as <-; apply touches_only_refl
  | set_action0_property _ _ _ = Some _ =>
      eapply touches_only_set; [exact H|touches_key]
  | append_action0_property _ _ _ = Some _ =>
      eapply touches_only_append; [exact H|touches_key]
  | _ ≫= _ = Some _ =>
      let x := fresh "x" in
      let Hx := fresh "Hx" in
      apply bind_Some in H as (x & Hx & H);
      lazymatch type of x with
      | DeploymentStep =>
          apply (touches_only_trans _ _ x); [touches Hx|touches H]
      | _ => touches H
      end
  | match ?e with _ => _ end = Some _ =>
      destruct e eqn:?; try discriminate H; touches H
  | _ =>
      first
        [ by eauto with touches
        | eapply touches_only_weaken; [|by eauto with touches];
          let Hk := fresh "Hk" in
          intros ? Hk;
          first
            [ done
            | apply negb_false_iff, String.eqb_eq in Hk as ->;
              vm_compute; reflexivity
            | repeat match goal with
                     | Hor : _ || _ = false |- _ =>
                         apply orb_false_iff in Hor as [? ?]
                     end;
              repeat (apply orb_false_iff; split); assumption ] ]
  end.



Section ResourceData.

Lemma is_set_Some d key v : GetOk d key = Some v → is_set d key = true.
Proof. intros Hv. unfold is_set. by rewrite Hv. Qed.

Lemma is_set_None d key : GetOk d key = None → is_set d key = false.
Proof. intros Hv. unfold is_set. by rewrite Hv. Qed.

Lemma GetString_Set_ne d key key' v :
  key ≠ key' → GetString (Set_ d key v) key' = GetString d key'.
Proof. intros Hne. unfold GetString. by rewrite attrs_Set_ne. Qed.

Lemma GetBool_Set_ne d key key' v :
  key ≠ key' → GetBool (Set_ d key v) key' = GetBool d key'.
Proof. intros Hne. unfold GetBool. by rewrite attrs_Set_ne. Qed.

Lemma GetOk_Set_ne d key key' v :
  key ≠ key' → GetOk (Set_ d key v) key' = GetOk d key'.
Proof. intros Hne. unfold GetOk. by rewrite attrs_Set_ne. Qed.

Lemma GetString_Set_ d key s :
  GetString (Set_ d key (VString s)) key = s.
Proof. unfold GetString. by rewrite attrs_Set_. Qed.

Lemma sets_only_refl K d : sets_only K d d.
Proof. by split. Qed.

Lemma sets_only_trans K d1 d2 d3 :
  sets_only K d1 d2 → sets_only K d2 d3 → sets_only K d1 d3.
Proof.
  intros [Hi1 Hk1] [Hi2 Hk2]. split; [congruence|].
  intros key HK. by rewrite Hk2, Hk1.
Qed.

Lemma sets_only_Set_ K d d' key v :
  K key = true → sets_only K d d' → sets_only K d (Set_ d' key v).
Proof.
  intros HK [Hi Hk]. split; [done|]. intros key' HK'.
  rewrite attrs_Set_ne by congruence. auto.
Qed.

Lemma sets_only_weaken (K K' : string → bool) d d' :
  (∀ key, K' key = false → K key = false) →
  sets_only K d d' → sets_only K' d d'.
Proof. intros HK [Hi Hk]. split; [done|]. auto. Qed.

Lemma sets_only_match {A} K d d0 (o : option A) (f : A → ResourceData) :
  (∀ x, sets_only K d0 (f x)) → sets_only K d d0 →
  sets_only K d (match o with Some x => f x | None => d0 end).
Proof.
  intros Hf Hd. destruct o; [|done]. by eapply sets_only_trans.
Qed.

Lemma sets_only_if K d d0 (b : bool) d1 :
  sets_only K d0 d1 → sets_only K d d0 →
  sets_only K d (if b then d1 else d0).
Proof.
  intros Hf Hd. destruct b; [|done]. by eapply sets_only_trans.
Qed.

End ResourceData.

(** [sets]: the resource data of the goal is reached by setting
    attributes of [K] only. *)
Ltac sets :=
  cbv zeta;
  lazymatch goal with
  | |- sets_only _ ?d ?d => apply sets_only_refl
  | |- sets_only _ _ (Set_ _ _ _) =>
      apply sets_only_Set_; [vm_compute; reflexivity|sets]
  | |- sets_only _ _ (match _ with Some _ => _ | None => _ end) =>
      apply sets_only_match; [intros ?; sets|sets]
  | |- sets_only _ _ (if _ then _ else _) =>
      apply sets_only_if; [sets|sets]
  end.

(** Every key but [target]. *)
Abbreviation all_but target :=
  (λ key : string, negb (String.eqb key target)).

Lemma sets_only_all_but target d d' :
  sets_only (all_but target) d d' → attrs d' !! target = attrs d !! target.
Proof.
  intros [_ Hk]. apply Hk. by rewrite String.eqb_refl.
Qed.

Lemma touches_only_all_but target s s' :
  touches_only (all_but target) s s' → bag s' !! target = bag s !! target.
Proof.
  intros [_ Hk]. apply Hk. by rewrite String.eqb_refl.
Qed.

Section EnabledFeatures.

Lemma enabled_features_set s key v s' :
  set_action0_property s key v = Some s' →
  key ≠ "Octopus.Action.EnabledFeatures" →
  enabled_features s' = enabled_features s.
Proof.
  intros (_ & _ & Hbag)%set_action0_property_spec Hne.
  unfold enabled_features. by rewrite Hbag, lookup_insert_ne.
Qed.

Lemma enabled_features_append s v s' :
  append_action0_property s "Octopus.Action.EnabledFeatures" v = Some s' →
  enabled_features s' = enabled_features s +:+ v.
Proof.
  intros (_ & _ & Hbag)%append_action0_property_spec.
  unfold enabled_features at 1. by rewrite Hbag, lookup_insert_eq.
Qed.

Lemma enabled_features_touches K s s' :
  touches_only K s s' → K "Octopus.Action.EnabledFeatures" = false →
  enabled_features s' = enabled_features s.
Proof.
  intros [_ Hk] HK. unfold enabled_features. by rewrite Hk.
Qed.

Lemma action0_property_enabled_features s :
  step_Actions s ≠ [] →
  action0_property s "Octopus.Action.EnabledFeatures"
  = Some (enabled_features s).
Proof. apply action0_property_bag. Qed.

(** A second script block does not append the feature again. *)
Lemma with_custom_scripts_twice given given' features :
  with_custom_scripts given' (with_custom_scripts given features)
  = with_custom_scripts (given || given') features.
Proof.
  unfold with_custom_scripts.
  destruct given, given',
    (strings_Contains features "Octopus.Features.CustomScripts") eqn:Hc;
    simpl; rewrite ?Hc; simpl; try done.
  by rewrite strings_Contains_app_r.
Qed.

End EnabledFeatures.

(** Each write as an equation on [enabled_features]. *)
Ltac enabled_features :=
  repeat match goal with
    | H : set_action0_property _ _ _ = Some _ |- _ =>
        apply enabled_features_set in H; [|done]
    | H : append_action0_property _ _ _ = Some _ |- _ =>
        apply enabled_features_append in H
    end.

(** [binds H]: the steps of the chain [H], one hypothesis each. *)
Ltac binds H :=
  repeat match type of H with
         | _ ≫= _ = Some _ =>
             let x := fresh "x" in
             apply bind_Some in H as (x & ? & H)
         end.

Section SharedBuilders.
Import FirstStep.
Context `{Externals}.

(** The keys a script block is written to. *)
Local Abbreviation script_keys :=
  (λ key : string,
     String.prefix "Octopus.Action.CustomScripts." key
     || String.eqb key "Octopus.Action.EnabledFeatures").

Lemma DeployScript_touches d s scriptType s' :
  resourceDeploymentStep_AddPackageProperties_DeployScript d s scriptType
  = Some s' →
  touches_only script_keys s s'.
Proof.
  unfold resourceDeploymentStep_AddPackageProperties_DeployScript.
  destruct (script_setup scriptType) as [scriptProp scriptName].
  intros Hs. touches Hs.
Qed.
#[local] Hint Resolve DeployScript_touches : touches.

Lemma DeployScript_enabled_features d s scriptType s' :
  resourceDeploymentStep_AddPackageProperties_DeployScript d s scriptType
  = Some s' →
  enabled_features s'
  = with_custom_scripts (script_given d scriptType) (enabled_features s).
Proof.
  unfold resourceDeploymentStep_AddPackageProperties_DeployScript.
  unfold script_given, with_custom_scripts.
  destruct (script_setup scriptType) as [scriptProp scriptName]. simpl.
  intros Hs.
  destruct (GetOk d scriptProp) as [rawScript|]; [|by injection Hs as <-].
  apply bind_Some in Hs as (scriptSet & -> & Hs).
  destruct scriptSet as [|first rest]; [by injection Hs as <-|].
  binds Hs.
  match goal with
  | Hset : set_action0_property s _ _ = Some ?x,
    Hget : action0_property ?x _ = Some ?f |- _ =>
      pose proof (set_action0_property_spec _ _ _ _ Hset) as (Ha & Hf & _);
      rewrite action0_property_enabled_features in Hget
        by (by eapply without_bag_Actions);
      injection Hget as <-;
      apply enabled_features_set in Hset as <-
  end.
  - simpl. destruct (strings_Contains _ _); simpl in *.
    + by injection Hs as <-.
    + by apply enabled_features_append in Hs.
  - intros Heq. 
    assert (String.prefix "Octopus.Action.CustomScripts."
              "Octopus.Action.EnabledFeatures" = true) as Hp
      by (rewrite <- Heq; apply prefix_app).
    done.
Qed.

(** The keys the package properties are written to. *)
Local Abbreviation package_keys :=
  (λ key : string,
     String.prefix "Octopus.Action.Package." key
     || String.prefix "Octopus.Action.SubstituteInFiles." key
     || String.prefix "Octopus.Action.CustomScripts." key
     || String.eqb key "Octopus.Action.EnabledFeatures").

Lemma AddPackageProperties_touches d s s' :
  resourceDeploymentStep_AddPackageProperties d s = Some s' →
  touches_only package_keys s s'.
Proof.
  unfold resourceDeploymentStep_AddPackageProperties.
  intros Hs. touches Hs.
Qed.

Lemma AddIisAppPoolProperties_touches d s iisType s' :
  resourceDeploymentStep_AddIisAppPoolProperties d s iisType = Some s' →
  touches_only (String.prefix "Octopus.Action.IISWebSite") s s'.
Proof.
  unfold resourceDeploymentStep_AddIisAppPoolProperties.
  intros Hs. touches Hs.
Qed.

(** The feature list the package builder of the revision leaves. *)
Lemma AddPackageProperties_features d s s' :
  resourceDeploymentStep_AddPackageProperties d s = Some s' →
  enabled_features s'
  = with_custom_scripts
      (script_given d "pre" || script_given d "deploy"
       || script_given d "post")
      (enabled_features s +:+ package_features d).
Proof.
  unfold resourceDeploymentStep_AddPackageProperties. intros Hs.
  apply bind_Some in Hs as (x1 & H1 & Hs).
  apply bind_Some in Hs as (x2 & H2 & Hs).
  apply bind_Some in Hs as (x3 & H3 & Hs).
  apply bind_Some in Hs as (x4 & H4 & Hs).
  apply bind_Some in Hs as (x5 & H5 & Hs).
  apply bind_Some in Hs as (x6 & H6 & Hs).
  apply bind_Some in Hs as (x7 & H7 & Hs).
  apply bind_Some in Hs as (x8 & H8 & Hs).
  apply bind_Some in Hs as (x9 & H9 & Hs).
  assert (enabled_features x3 = enabled_features s) as E3
    by (enabled_features; congruence).
  assert (enabled_features x4
          = enabled_features x3
            +:+ (if is_set d "json_file_variable_replacement"
                 then ",Octopus.Features.JsonConfigurationVariables"
                 else "")) as E4.
  { destruct (GetOk d "json_file_variable_replacement") eqn:Hd.
    - rewrite (is_set_Some _ _ _ Hd). binds H4. enabled_features.
      congruence.
    - rewrite (is_set_None _ _ Hd), string_app_nil_r. congruence. }
  assert (enabled_features x5
          = enabled_features x4
            +:+ (if is_set d "variable_substitution_in_files"
                 then ",Octopus.Features.SubstituteInFiles"
                 else "")) as E5.
  { destruct (GetOk d "variable_substitution_in_files") eqn:Hd.
    - rewrite (is_set_Some _ _ _ Hd). binds H5. enabled_features.
      congruence.
    - rewrite (is_set_None _ _ Hd), string_app_nil_r. congruence. }
  assert (enabled_features x6
          = enabled_features x5
            +:+ (if GetBool d "configuration_transforms"
                 then ",Octopus.Features.ConfigurationTransforms"
                 else "")) as E6.
  { cbv zeta in H6. destruct (GetBool d "configuration_transforms").
    - binds H6. enabled_features. congruence.
    - rewrite string_app_nil_r. congruence. }
  assert (enabled_features x7
          = enabled_features x6
            +:+ (if GetBool d "configuration_variables"
                 then ",Octopus.Features.ConfigurationVariables"
                 else "")) as E7.
  { cbv zeta in H7. destruct (GetBool d "configuration_variables").
    - binds H7. enabled_features. congruence.
    - rewrite string_app_nil_r. congruence. }
  apply DeployScript_enabled_features in H8, H9, Hs.
  rewrite Hs, H9, H8, !with_custom_scripts_twice, E7, E6, E5, E4, E3.
  unfold package_features. by rewrite !string_app_assoc, orb_assoc.
Qed.

End SharedBuilders.

#[global] Hint Resolve DeployScript_touches AddPackageProperties_touches
  AddIisAppPoolProperties_touches : touches.

(** ** The basic step: what is built and what is read back *)

Section BasicStep.
Import FirstStep.
Context `{Externals}.

(** The attributes the basic setter writes. *)
Local Abbreviation basic_attrs :=
  (λ key : string,
     bool_decide (key ∈ ["step_name"; "step_condition"; "required";
                         "step_start_trigger"; "target_roles";
                         "run_on_server"])).

Lemma CreateBasicStep_shape d actionType s :
  resourceDeploymentStep_CreateBasicStep d actionType = Some s →
  step_Name s = GetString d "step_name"
  ∧ step_Condition s = GetString d "step_condition"
  ∧ step_StartTrigger s = GetString d "step_start_trigger"
  ∧ (∃ props,
       step_Actions s
       = [mkDeploymentAction (GetString d "step_name")
            (GetBool d "required") actionType props]
       ∧ ∀ key, key ≠ "Octopus.Action.RunOnServer" → props !! key = None)
  ∧ step_Properties s !! "Octopus.Action.RunOnServer" = None
  ∧ step_Properties s !! "Octopus.Action.TargetRoles"
    = (λ roles, strings_Join roles ",")
      <$> (GetOk d "target_roles" ≫= getSliceFromTerraformTypeList).
Proof.
  unfold resourceDeploymentStep_CreateBasicStep. intros Hs.
  apply bind_Some in Hs as (s1 & Hs1 & Hs).
  assert (step_Name s1 = GetString d "step_name"
          ∧ step_Condition s1 = GetString d "step_condition"
          ∧ step_StartTrigger s1 = GetString d "step_start_trigger"
          ∧ (∃ props,
               step_Actions s1
               = [mkDeploymentAction (GetString d "step_name")
                    (GetBool d "required") actionType props]
               ∧ ∀ key, key ≠ "Octopus.Action.RunOnServer" →
                        props !! key = None)
          ∧ step_Properties s1 = ∅) as (Hn & Hc & Ht & Ha & Hp).
  { destruct (GetOk d "run_on_server") as [runOnServer|].
    - apply bind_Some in Hs1 as (b & _ & Hs1). injection Hs1 as <-.
      simpl. split_and!; try done. eexists. split; [done|].
      intros key Hne. by rewrite lookup_insert_ne.
    - injection Hs1 as <-. simpl. split_and!; try done.
      eexists. by split. }
  destruct (GetOk d "target_roles") as [targetRoles|]; simpl.
  - apply bind_Some in Hs as (roles & -> & Hs). injection Hs as <-.
    simpl. split_and!; try done.
    + rewrite Hp. by rewrite lookup_insert_ne.
    + by rewrite lookup_insert_eq.
  - injection Hs as <-. split_and!; try done; by rewrite Hp.
Qed.

Lemma SetBasicSchema_spec d s :
  step_Actions s ≠ [] →
  ∃ d',
    resourceDeploymentStep_SetBasicSchema d s = Some d'
    ∧ sets_only basic_attrs d d'
    ∧ attrs d' !! "step_name" = Some (VString (step_Name s))
    ∧ attrs d' !! "step_condition"
      = Some (VString (strings_ToLower (step_Condition s)))
    ∧ attrs d' !! "required"
      = (λ a, VBool (action_IsRequired a)) <$> head (step_Actions s)
    ∧ attrs d' !! "step_start_trigger"
      = Some (VString (step_StartTrigger s))
    ∧ attrs d' !! "target_roles"
      = match step_Properties s !! "Octopus.Action.TargetRoles" with
        | Some targetRoles =>
            if bool_decide (targetRoles ≠ "")
            then Some (VList (VString <$>
                         strings_Split targetRoles comma_byte))
            else attrs d !! "target_roles"
        | None => attrs d !! "target_roles"
        end
    ∧ attrs d' !! "run_on_server"
      = match step_Properties s !! "Octopus.Action.RunOnServer" with
        | Some runOnServer => Some (VString runOnServer)
        | None => attrs d !! "run_on_server"
        end.
Proof.
  intros Ha. unfold resourceDeploymentStep_SetBasicSchema.
  destruct (step_Actions s) as [|a rest]; [done|]. simpl.
  eexists. split; [reflexivity|]. split; [sets|].
  split_and!.
  all: repeat case_match.
  all: rewrite ?attrs_Set_ne by done.
  all: by rewrite ?attrs_Set_.
Qed.

(** X17. In the revision, reading back the basic step that was built
    from a configuration restores the step name, the required flag and
    the start trigger, and the condition in lower case.  The
    run-on-server flag is not restored: the builder stores it in the
    property bag of the first action, the setter looks for it in the
    property bag of the step, so [run_on_server] is left as it was. *)
Theorem basic_step_round_trip d actionType s dread :
  resourceDeploymentStep_CreateBasicStep d actionType = Some s →
  ∃ dread',
    resourceDeploymentStep_SetBasicSchema dread s = Some dread'
    ∧ attrs dread' !! "step_name" = Some (VString (GetString d "step_name"))
    ∧ attrs dread' !! "step_condition"
      = Some (VString (strings_ToLower (GetString d "step_condition")))
    ∧ attrs dread' !! "required" = Some (VBool (GetBool d "required"))
    ∧ attrs dread' !! "step_start_trigger"
      = Some (VString (GetString d "step_start_trigger"))
    ∧ attrs dread' !! "run_on_server" = attrs dread !! "run_on_server".
Proof.
  intros (Hn & Hc & Ht & (props & Ha & _) & Hr & _)%CreateBasicStep_shape.
  destruct (SetBasicSchema_spec dread s) as
    (dread' & Hset & _ & Hn' & Hc' & Hq' & Ht' & _ & Hr');
    [by rewrite Ha|].
  exists dread'. split; [done|].
  rewrite Hn', Hc', Hq', Ht', Hr', Hn, Hc, Ht, Hr, Ha. done.
Qed.

(** X18. In the revision, the target roles survive the round trip
    through the comma-separated property when no role holds a comma and
    the joined text is not empty: the builder joins them with commas,
    the setter splits at the commas. *)
Theorem target_roles_round_trip d actionType s dread targetRoles roles :
  resourceDeploymentStep_CreateBasicStep d actionType = Some s →
  GetOk d "target_roles" = Some targetRoles →
  getSliceFromTerraformTypeList targetRoles = Some roles →
  Forall (free_of comma_byte) roles →
  strings_Join roles "," ≠ "" →
  ∃ dread',
    resourceDeploymentStep_SetBasicSchema dread s = Some dread'
    ∧ attrs dread' !! "target_roles" = Some (VList (VString <$> roles)).
Proof.
  intros (_ & _ & _ & (props & Ha & _) & _ & Hroles)%CreateBasicStep_shape
    Hget Hslice Hfree Hjoin.
  destruct (SetBasicSchema_spec dread s) as
    (dread' & Hset & _ & _ & _ & _ & _ & Hroles' & _);
    [by rewrite Ha|].
  exists dread'. split; [done|].
  rewrite Hroles', Hroles, Hget. simpl. rewrite Hslice. simpl.
  rewrite bool_decide_true by done.
  change "," with (String comma_byte "").
  rewrite strings_Split_Join; [done| |done].
  by intros ->.
Qed.

End BasicStep.

(** ** The package properties: what is built and what is read back *)

Section PackageProperties.
Import FirstStep.
Context `{Externals}.

(** The attributes the script setter and the package setter write. *)
Local Abbreviation script_attrs :=
  (λ key : string,
     bool_decide (key ∈ ["pre_deploy_script"; "deploy_script";
                         "post_deploy_script"])).

Local Abbreviation package_attrs :=
  (λ key : string,
     bool_decide (key ∈ ["feed_id"; "package";
                         "json_file_variable_replacement";
                         "variable_substitution_in_files";
                         "configuration_transforms";
                         "configuration_variables";
                         "pre_deploy_script"; "deploy_script";
                         "post_deploy_script"])).

Lemma SetPackageSchema_DeployScript_spec d s scriptType :
  step_Actions s ≠ [] →
  ∃ d',
    resourceDeploymentStep_SetPackageSchema_DeployScript d s scriptType
    = Some d'
    ∧ sets_only (String.eqb (script_setup scriptType).1) d d'.
Proof.
  intros Ha. unfold resourceDeploymentStep_SetPackageSchema_DeployScript.
  destruct (script_setup scriptType) as [scriptProp scriptNameStart].
  rewrite action0_Properties_bag by done. simpl.
  destruct (script_of_properties _ _ !! "type");
    (eexists; split; [done|]).
  - apply sets_only_Set_; [apply String.eqb_refl|apply sets_only_refl].
  - apply sets_only_refl.
Qed.

(** The script setter, called for one of the three scripts, sets the
    attribute of that script only. *)
Lemma SetPackageSchema_DeployScript_sets K d s scriptType :
  step_Actions s ≠ [] →
  K (script_setup scriptType).1 = true →
  ∃ d',
    resourceDeploymentStep_SetPackageSchema_DeployScript d s scriptType
    = Some d'
    ∧ sets_only K d d'.
Proof.
  intros Ha HK.
  destruct (SetPackageSchema_DeployScript_spec d s scriptType Ha)
    as (d' & Hd' & Hsets).
  exists d'. split; [done|].
  eapply sets_only_weaken; [|done].
  intros key Hkey. apply String.eqb_neq. congruence.
Qed.

Lemma SetPackageSchema_spec d s :
  step_Actions s ≠ [] →
  ∃ d',
    resourceDeploymentStep_SetPackageSchema d s = Some d'
    ∧ sets_only package_attrs d d'
    ∧ attrs d' !! "feed_id"
      = Some (VString
                (default "" (bag s !! "Octopus.Action.Package.FeedId")))
    ∧ attrs d' !! "package"
      = Some (VString
                (default "" (bag s !! "Octopus.Action.Package.PackageId")))
    ∧ attrs d' !! "json_file_variable_replacement"
      = match
          bag s !! "Octopus.Action.Package.JsonConfigurationVariablesTargets"
        with
        | Some targets => Some (VString targets)
        | None => attrs d !! "json_file_variable_replacement"
        end
    ∧ attrs d' !! "variable_substitution_in_files"
      = match bag s !! "Octopus.Action.SubstituteInFiles.TargetFiles" with
        | Some files =>
            if bool_decide (files ≠ "")
            then Some (VList (VString <$> strings_Split files newline_byte))
            else attrs d !! "variable_substitution_in_files"
        | None => attrs d !! "variable_substitution_in_files"
        end.
Proof.
  intros Ha. unfold resourceDeploymentStep_SetPackageSchema.
  rewrite action0_Properties_bag by done. simpl.
  match goal with
  | |- context [resourceDeploymentStep_SetPackageSchema_DeployScript
                  ?d0' _ "pre"] => set (d0 := d0')
  end.
  assert (sets_only package_attrs d d0) as Hd0 by (unfold d0; sets).
  assert (attrs d0 !! "feed_id"
          = Some (VString (default ""
                    (bag s !! "Octopus.Action.Package.FeedId"))))
    as Hfeed.
  { unfold d0.
    match goal with
    | |- context [Set_ d "feed_id" ?v] =>
        transitivity (attrs (Set_ d "feed_id" v) !! "feed_id");
        [apply (sets_only_all_but "feed_id"); sets|apply attrs_Set_]
    end. }
  assert (attrs d0 !! "package"
          = Some (VString (default ""
                    (bag s !! "Octopus.Action.Package.PackageId"))))
    as Hpackage.
  { unfold d0.
    match goal with
    | |- context [Set_ ?d1 "package" ?v] =>
        transitivity (attrs (Set_ d1 "package" v) !! "package");
        [apply (sets_only_all_but "package"); sets|apply attrs_Set_]
    end. }
  assert (attrs d0 !! "json_file_variable_replacement"
          = match
              bag s
              !! "Octopus.Action.Package.JsonConfigurationVariablesTargets"
            with
            | Some targets => Some (VString targets)
            | None => attrs d !! "json_file_variable_replacement"
            end) as Hjson.
  { unfold d0.
    match goal with
    | |- context [match ?e with
                  | Some x => Set_ ?d1 "json_file_variable_replacement" _
                  | None => _
                  end] =>
        transitivity
          (attrs (match e with
                  | Some x =>
                      Set_ d1 "json_file_variable_replacement" (VString x)
                  | None => d1
                  end) !! "json_file_variable_replacement");
        [apply (sets_only_all_but "json_file_variable_replacement"); sets
        |destruct e;
         [apply attrs_Set_|by rewrite !attrs_Set_ne by done]]
    end. }
  assert (attrs d0 !! "variable_substitution_in_files"
          = match
              bag s !! "Octopus.Action.SubstituteInFiles.TargetFiles"
            with
            | Some files =>
                if bool_decide (files ≠ "")
                then Some (VList (VString <$>
                             strings_Split files newline_byte))
                else attrs d !! "variable_substitution_in_files"
            | None => attrs d !! "variable_substitution_in_files"
            end) as Hfiles.
  { unfold d0.
    match goal with
    | |- context [match ?e with
                  | Some x =>
                      if bool_decide _
                      then Set_ ?d1 "variable_substitution_in_files" _
                      else _
                  | None => _
                  end] =>
        transitivity
          (attrs (match e with
                  | Some x =>
                      if bool_decide (x ≠ "")
                      then Set_ d1 "variable_substitution_in_files"
                             (VList (VString <$>
                                strings_Split x newline_byte))
                      else d1
                  | None => d1
                  end) !! "variable_substitution_in_files");
        [apply (sets_only_all_but "variable_substitution_in_files"); sets
        |destruct e as [files|];
         [case_bool_decide; [apply attrs_Set_|]|];
         repeat case_match; by rewrite !attrs_Set_ne by done]
    end. }
  clearbody d0.
  assert (∀ K : string → bool,
            K "pre_deploy_script" = true → K "deploy_script" = true →
            K "post_deploy_script" = true →
            ∃ d3,
              (resourceDeploymentStep_SetPackageSchema_DeployScript d0 s
                 "pre"
               ≫= λ d1,
                    resourceDeploymentStep_SetPackageSchema_DeployScript
                      d1 s "deploy"
                    ≫= λ d2,
                         resourceDeploymentStep_SetPackageSchema_DeployScript
                           d2 s "post") = Some d3
              ∧ sets_only K d0 d3) as Hscripts.
  { intros K Hpre Hdeploy Hpost.
    destruct (SetPackageSchema_DeployScript_sets K d0 s "pre" Ha Hpre)
      as (d1 & -> & Hd1). simpl.
    destruct (SetPackageSchema_DeployScript_sets K d1 s "deploy" Ha
                Hdeploy) as (d2 & -> & Hd2). simpl.
    destruct (SetPackageSchema_DeployScript_sets K d2 s "post" Ha Hpost)
      as (d3 & -> & Hd3).
    exists d3. eauto using sets_only_trans. }
  destruct (Hscripts package_attrs) as (d3 & Hd3 & Hsets); [done..|].
  exists d3. split; [done|].
  split; [by eapply sets_only_trans|].
  destruct (Hscripts script_attrs) as (d3' & Hd3' & [_ Hd03]); [done..|].
  assert (d3' = d3) as -> by congruence.
  by rewrite !Hd03.
Qed.

Lemma AddPackageProperties_writes d s s' :
  resourceDeploymentStep_AddPackageProperties d s = Some s' →
  bag s' !! "Octopus.Action.Package.FeedId" = Some (GetString d "feed_id")
  ∧ bag s' !! "Octopus.Action.Package.PackageId"
    = Some (GetString d "package")
  ∧ bag s' !! "Octopus.Action.Package.JsonConfigurationVariablesTargets"
    = match GetOk d "json_file_variable_replacement" with
      | Some jsonFileVariableReplacement =>
          as_string jsonFileVariableReplacement
      | None =>
          bag s
          !! "Octopus.Action.Package.JsonConfigurationVariablesTargets"
      end
  ∧ bag s' !! "Octopus.Action.SubstituteInFiles.TargetFiles"
    = match GetOk d "variable_substitution_in_files" with
      | Some variableSubstitutionInFiles =>
          (λ files, strings_Join files newline)
          <$> getSliceFromTerraformTypeList variableSubstitutionInFiles
      | None => bag s !! "Octopus.Action.SubstituteInFiles.TargetFiles"
      end.
Proof.
  unfold resourceDeploymentStep_AddPackageProperties. intros Hs.
  apply bind_Some in Hs as (x1 & H1 & Hs).
  apply bind_Some in Hs as (x2 & H2 & Hs).
  split_and!.
  - transitivity (bag x2 !! "Octopus.Action.Package.FeedId").
    + apply touches_only_all_but. touches Hs.
    + apply set_action0_property_spec in H2 as (_ & _ & ->).
      apply lookup_insert_eq.
  - apply bind_Some in Hs as (x3 & H3 & Hs).
    transitivity (bag x3 !! "Octopus.Action.Package.PackageId").
    + apply touches_only_all_but. touches Hs.
    + apply set_action0_property_spec in H3 as (_ & _ & ->).
      apply lookup_insert_eq.
  - apply bind_Some in Hs as (x3 & H3 & Hs).
    apply bind_Some in Hs as (x4 & H4 & Hs).
    transitivity
      (bag x4
       !! "Octopus.Action.Package.JsonConfigurationVariablesTargets").
    { apply touches_only_all_but. touches Hs. }
    destruct (GetOk d "json_file_variable_replacement") as [v|].
    + apply bind_Some in H4 as (targets & -> & H4).
      apply bind_Some in H4 as (y1 & Hy1 & H4).
      transitivity
        (bag y1
         !! "Octopus.Action.Package.JsonConfigurationVariablesTargets").
      { apply touches_only_all_but. touches H4. }
      apply set_action0_property_spec in Hy1 as (_ & _ & ->).
      apply lookup_insert_eq.
    + injection H4 as <-. apply touches_only_all_but.
      apply (touches_only_trans _ _ x1); [touches H1|].
      apply (touches_only_trans _ _ x2); [touches H2|touches H3].
  - apply bind_Some in Hs as (x3 & H3 & Hs).
    apply bind_Some in Hs as (x4 & H4 & Hs).
    apply bind_Some in Hs as (x5 & H5 & Hs).
    transitivity
      (bag x5 !! "Octopus.Action.SubstituteInFiles.TargetFiles").
    { apply touches_only_all_but. touches Hs. }
    destruct (GetOk d "variable_substitution_in_files") as [v|].
    + apply bind_Some in H5 as (files & -> & H5).
      apply bind_Some in H5 as (y1 & Hy1 & H5).
      transitivity
        (bag y1 !! "Octopus.Action.SubstituteInFiles.TargetFiles").
      { apply touches_only_all_but. touches H5. }
      apply set_action0_property_spec in Hy1 as (_ & _ & ->).
      apply lookup_insert_eq.
    + injection H5 as <-. apply touches_only_all_but.
      apply (touches_only_trans _ _ x1); [touches H1|].
      apply (touches_only_trans _ _ x2); [touches H2|].
      apply (touches_only_trans _ _ x3); [touches H3|touches H4].
Qed.

(** X20. Whenever the package builder of the revision returns, the
    feature list of the step is the list it found, followed by one
    feature for each package option in use, in the fixed order JSON
    variables, substitution in files, configuration transforms,
    configuration variables, each with a leading comma, followed by the
    custom-scripts feature if a pre, deploy or post script block is
    given and the list does not name that feature yet: the three script
    blocks append it at most once.  Nothing of the step changes outside
    the property bag of its first action. *)
Theorem first_step_AddPackageProperties_features d s s' :
  resourceDeploymentStep_AddPackageProperties d s = Some s' →
  enabled_features s'
  = with_custom_scripts
      (script_given d "pre" || script_given d "deploy"
       || script_given d "post")
      (enabled_features s +:+ package_features d)
  ∧ without_bag s' = without_bag s.
Proof.
  intros Hs. split; [by apply AddPackageProperties_features|].
  by destruct (AddPackageProperties_touches _ _ _ Hs).
Qed.

(** X19. In the revision, reading back the package properties that
    were built from a configuration restores the feed and the package,
    the JSON variable-replacement targets when they are set, and the
    files of the variable substitution when none of them holds a line
    feed and their joined text is not empty. *)
Theorem package_round_trip d s s' dread :
  resourceDeploymentStep_AddPackageProperties d s = Some s' →
  ∃ dread',
    resourceDeploymentStep_SetPackageSchema dread s' = Some dread'
    ∧ attrs dread' !! "feed_id" = Some (VString (GetString d "feed_id"))
    ∧ attrs dread' !! "package" = Some (VString (GetString d "package"))
    ∧ (∀ targets,
         GetOk d "json_file_variable_replacement" = Some (VString targets) →
         attrs dread' !! "json_file_variable_replacement"
         = Some (VString targets))
    ∧ (∀ v files,
         GetOk d "variable_substitution_in_files" = Some v →
         getSliceFromTerraformTypeList v = Some files →
         Forall (free_of newline_byte) files →
         strings_Join files newline ≠ "" →
         attrs dread' !! "variable_substitution_in_files"
         = Some (VList (VString <$> files))).
Proof.
  intros Hs.
  pose proof (AddPackageProperties_touches _ _ _ Hs) as Htouch.
  pose proof (AddPackageProperties_writes _ _ _ Hs)
    as (Hfeed & Hpackage & Hjson & Hfiles).
  assert (step_Actions s' ≠ []) as Ha.
  { unfold resourceDeploymentStep_AddPackageProperties in Hs.
    apply bind_Some in Hs as (x1 & H1 & _).
    apply set_action0_property_spec in H1 as (Ha & _).
    by eapply touches_only_Actions. }
  destruct (SetPackageSchema_spec dread s' Ha)
    as (dread' & Hset & _ & Hfeed' & Hpackage' & Hjson' & Hfiles').
  exists dread'. split; [done|].
  rewrite Hfeed', Hpackage', Hjson', Hfiles'.
  rewrite Hfeed, Hpackage, Hjson, Hfiles. split_and!; try done.
  - by intros targets ->.
  - intros v files -> -> Hfree Hjoin. simpl.
    rewrite bool_decide_true by done. unfold newline.
    rewrite strings_Split_Join; [done| |done]. by intros ->.
Qed.

End PackageProperties.

(** ** The shared builders of [resource_deployment_step.go] *)

Section BeforeAfterSharedBuilders.
Import BeforeAfterShared.
Context `{Externals}.

(** X21. Whenever the package builder of
    [resource_deployment_step.go] returns, the feature list of the step
    is the list it found followed by one feature for each package option
    in use, in a fixed order and each with a leading comma (so a list
    that starts empty and gains a feature starts with a comma); the
    feed and the package are stored under their keys, and nothing of
    the step changes outside the property bag of its first action. *)
Theorem before_after_AddPackageProperties_features d s s' :
  resourceDeploymentStep_AddPackageProperties d s = Some s' →
  enabled_features s' = enabled_features s +:+ package_features d
  ∧ bag s' !! "Octopus.Action.Package.FeedId"
    = Some (GetString d "feed_id")
  ∧ bag s' !! "Octopus.Action.Package.PackageId"
    = Some (GetString d "package")
  ∧ without_bag s' = without_bag s.
Proof.
  unfold resourceDeploymentStep_AddPackageProperties. intros Hs.
  apply bind_Some in Hs as (x1 & H1 & Hs).
  apply bind_Some in Hs as (x2 & H2 & Hs).
  apply bind_Some in Hs as (x3 & H3 & Hs).
  assert (touches_only (all_but "Octopus.Action.Package.FeedId") x2 s')
    as Hfeed.
  { pose proof H3 as H3'. pose proof Hs as Hs'.
    apply (touches_only_trans _ _ x3); [touches H3'|touches Hs']. }
  assert (touches_only (all_but "Octopus.Action.Package.PackageId") x3 s')
    as Hpackage by (pose proof Hs as Hs'; touches Hs').
  assert (touches_only (λ _, true) s s') as [Hframe _].
  { pose proof H1 as H1'. pose proof H2 as H2'. pose proof H3 as H3'.
    pose proof Hs as Hs'.
    apply (touches_only_trans _ _ x1); [touches H1'|].
    apply (touches_only_trans _ _ x2); [touches H2'|].
    apply (touches_only_trans _ _ x3); [touches H3'|touches Hs']. }
  split_and!; [|..|done].
  - apply bind_Some in Hs as (x4 & H4 & Hs).
    apply bind_Some in Hs as (x5 & H5 & Hs).
    apply bind_Some in Hs as (x6 & H6 & Hs).
    assert (enabled_features x3 = enabled_features s) as E3
      by (enabled_features; congruence).
    assert (enabled_features x4
            = enabled_features x3
              +:+ (if is_set d "json_file_variable_replacement"
                   then ",Octopus.Features.JsonConfigurationVariables"
                   else "")) as E4.
    { destruct (GetOk d "json_file_variable_replacement") eqn:Hd.
      - rewrite (is_set_Some _ _ _ Hd). binds H4. enabled_features.
        congruence.
      - rewrite (is_set_None _ _ Hd), string_app_nil_r. congruence. }
    assert (enabled_features x5
            = enabled_features x4
              +:+ (if is_set d "variable_substitution_in_files"
                   then ",Octopus.Features.SubstituteInFiles"
                   else "")) as E5.
    { destruct (GetOk d "variable_substitution_in_files") eqn:Hd.
      - rewrite (is_set_Some _ _ _ Hd). binds H5. enabled_features.
        congruence.
      - rewrite (is_set_None _ _ Hd), string_app_nil_r. congruence. }
    assert (enabled_features x6
            = enabled_features x5
              +:+ (if GetBool d "configuration_transforms"
                   then ",Octopus.Features.ConfigurationTransforms"
                   else "")) as E6.
    { cbv zeta in H6. destruct (GetBool d "configuration_transforms").
      - binds H6. enabled_features. congruence.
      - rewrite string_app_nil_r. congruence. }
    assert (enabled_features s'
            = enabled_features x6
              +:+ (if GetBool d "configuration_variables"
                   then ",Octopus.Features.ConfigurationVariables"
                   else "")) as E7.
    { cbv zeta in Hs. destruct (GetBool d "configuration_variables").
      - binds Hs. enabled_features. congruence.
      - rewrite string_app_nil_r. congruence. }
    rewrite E7, E6, E5, E4, E3.
    unfold package_features. by rewrite !string_app_assoc.
  - rewrite (touches_only_all_but _ _ _ Hfeed).
    apply set_action0_property_spec in H2 as (_ & _ & ->).
    apply lookup_insert_eq.
  - rewrite (touches_only_all_but _ _ _ Hpackage).
    apply set_action0_property_spec in H3 as (_ & _ & ->).
    apply lookup_insert_eq.
Qed.

(** X25. In [resource_deployment_step.go], reading back a basic step
    that was built from a configuration restores the step name and
    leaves every other attribute as it was: the setter of that file
    reads the name only. *)
Theorem before_after_basic_step_round_trip d actionType s dread :
  resourceDeploymentStep_CreateBasicStep d actionType = Some s →
  ∃ dread',
    resourceDeploymentStep_SetBasicSchema dread s = Some dread'
    ∧ attrs dread' !! "step_name" = Some (VString (GetString d "step_name"))
    ∧ ∀ key, key ≠ "step_name" → attrs dread' !! key = attrs dread !! key.
Proof.
  unfold resourceDeploymentStep_CreateBasicStep. intros Hs.
  apply bind_Some in Hs as (s1 & Hs1 & Hs).
  assert (step_Name s1 = GetString d "step_name") as Hn1.
  { destruct (GetOk d "run_on_server").
    - apply bind_Some in Hs1 as (b & _ & Hs1). by injection Hs1 as <-.
    - by injection Hs1 as <-. }
  assert (step_Name s = GetString d "step_name") as Hn.
  { destruct (GetOk d "target_roles").
    - binds Hs. by injection Hs as <-.
    - by injection Hs as <-. }
  eexists. split; [reflexivity|]. split.
  - by rewrite attrs_Set_, Hn.
  - intros key Hne. by rewrite attrs_Set_ne.
Qed.

End BeforeAfterSharedBuilders.

(** ** The IIS website step: what is built and what is read back *)

(** [chain]: the step on the right is reached from the step on the left
    through the writes of the context. *)
Ltac chain :=
  lazymatch goal with
  | |- touches_only _ ?x ?x => apply touches_only_refl
  | |- touches_only _ ?x _ =>
      match goal with
      | H : set_action0_property x _ _ = Some ?z |- _ =>
          apply (touches_only_trans _ _ z);
          [eapply touches_only_set; [exact H|touches_key]|chain]
      | H : FirstStep.resourceDeploymentStep_AddPackageProperties _ x
            = Some ?z |- _ =>
          apply (touches_only_trans _ _ z); [touches H|chain]
      | H : FirstStep.resourceDeploymentStep_AddIisAppPoolProperties _ x _
            = Some ?z |- _ =>
          apply (touches_only_trans _ _ z); [touches H|chain]
      end
  end.

(** [written H]: the key written by [H] holds the value written, at the
    step on the left of the goal. *)
Ltac written H :=
  apply set_action0_property_spec in H as (_ & _ & ->);
  apply lookup_insert_eq.

Section Website.
Import FirstStep IisWebsite.
Context `{Externals}.

(** The path type the builder computes. *)
Local Abbreviation path_type_of d :=
  (if is_set d "relative_path"
   then "relativeToPackageRoot" else "packageRoot").

Lemma build_analysis d s d' :
  buildIisWebsiteDeploymentStep d = Some (s, d') →
  ∃ s1 s2 s3,
    resourceDeploymentStep_CreateBasicStep
      (Set_ d "deployment_type" (VString "webSite")) "Octopus.IIS"
    = Some s1
    ∧ set_action0_property s1 "Octopus.Action.EnabledFeatures"
        "Octopus.Features.IISWebSite" = Some s2
    ∧ resourceDeploymentStep_AddPackageProperties
        (Set_ d "deployment_type" (VString "webSite")) s2 = Some s3
    ∧ without_bag s = without_bag s1
    ∧ enabled_features s = enabled_features s3
    ∧ bag s !! "Octopus.Action.Package.FeedId"
      = bag s3 !! "Octopus.Action.Package.FeedId"
    ∧ bag s !! "Octopus.Action.Package.PackageId"
      = bag s3 !! "Octopus.Action.Package.PackageId"
    ∧ bag s !! "Octopus.Action.IISWebSite.DeploymentType" = Some "webSite"
    ∧ bag s !! "Octopus.Action.IISWebSite.WebRootType"
      = Some (path_type_of d)
    ∧ bag s !! "Octopus.Action.IISWebSite.StartWebSite"
      = Some (formatBool (GetBool d "start_web_site"))
    ∧ bag s !! "Octopus.Action.IISWebSite.WebSiteName"
      = Some (GetString d "website_name")
    ∧ bag s !! "Octopus.Action.IISWebSite.EnableAnonymousAuthentication"
      = Some (formatBool (GetBool d "anonymous_authentication"))
    ∧ bag s !! "Octopus.Action.IISWebSite.EnableBasicAuthentication"
      = Some (formatBool (GetBool d "basic_authentication"))
    ∧ bag s !! "Octopus.Action.IISWebSite.EnableWindowsAuthentication"
      = Some (formatBool (GetBool d "windows_authentication"))
    ∧ (∀ path, GetOk d "relative_path" = Some (VString path) →
         bag s !! "Octopus.Action.IISWebSite.PhysicalPath" = Some path)
    ∧ d' = Set_ (Set_ d "deployment_type" (VString "webSite"))
             "path_type" (VString (path_type_of d)).
Proof.
  unfold buildIisWebsiteDeploymentStep. intros Hb.
  apply bind_Some in Hb as (x1 & H1 & Hb).
  apply bind_Some in Hb as (x2 & H2 & Hb).
  apply bind_Some in Hb as (x3 & H3 & Hb).
  apply bind_Some in Hb as (x4 & H4 & Hb).
  apply bind_Some in Hb as (x5 & H5 & Hb).
  apply bind_Some in Hb as (x6 & H6 & Hb).
  apply bind_Some in Hb as (x7 & H7 & Hb).
  apply bind_Some in Hb as (x8 & H8 & Hb).
  apply bind_Some in Hb as ([d9 x9] & H9 & Hb).
  apply bind_Some in Hb as (x10 & H10 & Hb).
  apply bind_Some in Hb as (x11 & H11 & Hb).
  apply bind_Some in Hb as (x12 & H12 & Hb).
  apply bind_Some in Hb as (x13 & H13 & Hb).
  apply bind_Some in Hb as (x14 & H14 & Hb).
  apply bind_Some in Hb as (x15 & H15 & Hb).
  apply bind_Some in Hb as (bindingsArray & H16 & Hb).
  apply bind_Some in Hb as (x16 & H17 & Hb).
  injection Hb as <- <-.
  rewrite GetString_Set_ in H5.
  rewrite GetOk_Set_ne in H9 by done.
  (* the block of the relative path *)
  assert (d9 = Set_ (Set_ d "deployment_type" (VString "webSite"))
                 "path_type" (VString (path_type_of d))
          ∧ touches_only
              (String.eqb "Octopus.Action.IISWebSite.PhysicalPath") x8 x9
          ∧ ∀ path, GetOk d "relative_path" = Some (VString path) →
              bag x9 !! "Octopus.Action.IISWebSite.PhysicalPath"
              = Some path) as (-> & Hpath & Hphysical).
  { destruct (GetOk d "relative_path") as [relativePath|] eqn:Hr.
    - rewrite (is_set_Some _ _ _ Hr).
      apply bind_Some in H9 as (path & Hp & H9).
      apply bind_Some in H9 as (y & Hy & H9).
      injection H9 as <- <-. split; [done|]. split.
      + by eapply touches_only_set.
      + intros path' [= ->]. injection Hp as ->. written Hy.
    - rewrite (is_set_None _ _ Hr). injection H9 as <- <-.
      split; [done|]. split; [apply touches_only_refl|done]. }
  rewrite GetString_Set_ in H10.
  rewrite !GetBool_Set_ne in H11, H13, H14, H15 by done.
  rewrite !GetString_Set_ne in H12 by done.
  assert (∀ K, K "Octopus.Action.IISWebSite.PhysicalPath" = true →
               touches_only K x8 x9) as Hpath'.
  { intros K HK. eapply touches_only_weaken; [|exact Hpath].
    intros key Hkey. apply String.eqb_neq. congruence. }
  exists x1, x2, x3. split_and!; try done.
  - assert (touches_only (λ _, true) x1 x16) as [Hframe _]; [|done].
    apply (touches_only_trans _ _ x8); [chain|].
    apply (touches_only_trans _ _ x9); [by apply Hpath'|chain].
  - eapply enabled_features_touches
      with (K := all_but "Octopus.Action.EnabledFeatures");
      [|by vm_compute].
    apply (touches_only_trans _ _ x8); [chain|].
    apply (touches_only_trans _ _ x9); [by apply Hpath'|chain].
  - apply touches_only_all_but.
    apply (touches_only_trans _ _ x8); [chain|].
    apply (touches_only_trans _ _ x9); [by apply Hpath'|chain].
  - apply touches_only_all_but.
    apply (touches_only_trans _ _ x8); [chain|].
    apply (touches_only_trans _ _ x9); [by apply Hpath'|chain].
  - transitivity (bag x5 !! "Octopus.Action.IISWebSite.DeploymentType");
      [|written H5].
    apply touches_only_all_but.
    apply (touches_only_trans _ _ x8); [chain|].
    apply (touches_only_trans _ _ x9); [by apply Hpath'|chain].
  - transitivity (bag x10 !! "Octopus.Action.IISWebSite.WebRootType");
      [|written H10].
    apply touches_only_all_but. chain.
  - transitivity (bag x11 !! "Octopus.Action.IISWebSite.StartWebSite");
      [|written H11].
    apply touches_only_all_but. chain.
  - transitivity (bag x12 !! "Octopus.Action.IISWebSite.WebSiteName");
      [|written H12].
    apply touches_only_all_but. chain.
  - transitivity
      (bag x13
       !! "Octopus.Action.IISWebSite.EnableAnonymousAuthentication");
      [|written H13].
    apply touches_only_all_but. chain.
  - transitivity
      (bag x14 !! "Octopus.Action.IISWebSite.EnableBasicAuthentication");
      [|written H14].
    apply touches_only_all_but. chain.
  - transitivity
      (bag x15
       !! "Octopus.Action.IISWebSite.EnableWindowsAuthentication");
      [|written H15].
    apply touches_only_all_but. chain.
  - intros path Hp. rewrite <- (Hphysical path Hp).
    apply touches_only_all_but. chain.
Qed.

Lemma package_features_deployment_type d v :
  package_features (Set_ d "deployment_type" v) = package_features d.
Proof.
  unfold package_features, is_set.
  by rewrite !GetOk_Set_ne, !GetBool_Set_ne by done.
Qed.

Lemma script_given_deployment_type d v scriptType :
  script_given (Set_ d "deployment_type" v) scriptType
  = script_given d scriptType.
Proof.
  unfold script_given. rewrite GetOk_Set_ne; [done|].
  unfold script_setup. by repeat case_bool_decide.
Qed.

(** X23. The feature list of a built IIS website step is the IIS
    website feature, followed by one feature for each package option in
    use, followed by the custom-scripts feature exactly when a pre,
    deploy or post script block is given. *)
Theorem website_enabled_features d s d' :
  buildIisWebsiteDeploymentStep d = Some (s, d') →
  enabled_features s
  = "Octopus.Features.IISWebSite" +:+ package_features d
    +:+ (if script_given d "pre" || script_given d "deploy"
            || script_given d "post"
         then ",Octopus.Features.CustomScripts" else "").
Proof.
  intros (s1 & s2 & s3 & _ & H2 & H3 & _ & -> & _)%build_analysis.
  rewrite (AddPackageProperties_features _ _ _ H3).
  rewrite package_features_deployment_type.
  rewrite !script_given_deployment_type.
  assert (enabled_features s2 = "Octopus.Features.IISWebSite") as ->.
  { unfold enabled_features.
    apply set_action0_property_spec in H2 as (_ & _ & ->).
    by rewrite lookup_insert_eq. }
  unfold with_custom_scripts.
  assert (strings_Contains
            ("Octopus.Features.IISWebSite" +:+ package_features d)
            "Octopus.Features.CustomScripts" = false) as ->.
  { unfold package_features.
    by destruct (is_set d "json_file_variable_replacement"),
      (is_set d "variable_substitution_in_files"),
      (GetBool d "configuration_transforms"),
      (GetBool d "configuration_variables"). }
  rewrite andb_true_r.
  destruct (_ || _); [|by rewrite !string_app_nil_r].
  by rewrite string_app_assoc.
Qed.

(** X22. When the text [formatBool] writes for a bool parses back to
    that bool, reading back a built IIS website step restores the step
    name, the required flag, the feed, the package, the website name,
    the start flag and the three authentication flags; the deployment
    type is [webSite], the path type is [relativeToPackageRoot] when a
    relative path is set and [packageRoot] otherwise, and a relative
    path that is set is restored. *)
Theorem website_round_trip d s d' dread :
  (∀ b, strconv_ParseBool (formatBool b) = Some b) →
  buildIisWebsiteDeploymentStep d = Some (s, d') →
  ∃ dread',
    setIisWebsiteSchema dread s = Some dread'
    ∧ attrs dread' !! "step_name" = Some (VString (GetString d "step_name"))
    ∧ attrs dread' !! "required" = Some (VBool (GetBool d "required"))
    ∧ attrs dread' !! "feed_id" = Some (VString (GetString d "feed_id"))
    ∧ attrs dread' !! "package" = Some (VString (GetString d "package"))
    ∧ attrs dread' !! "website_name"
      = Some (VString (GetString d "website_name"))
    ∧ attrs dread' !! "deployment_type" = Some (VString "webSite")
    ∧ attrs dread' !! "path_type" = Some (VString (path_type_of d))
    ∧ attrs dread' !! "start_web_site"
      = Some (VBool (GetBool d "start_web_site"))
    ∧ attrs dread' !! "anonymous_authentication"
      = Some (VBool (GetBool d "anonymous_authentication"))
    ∧ attrs dread' !! "basic_authentication"
      = Some (VBool (GetBool d "basic_authentication"))
    ∧ attrs dread' !! "windows_authentication"
      = Some (VBool (GetBool d "windows_authentication"))
    ∧ (∀ path, GetOk d "relative_path" = Some (VString path) →
         attrs dread' !! "relative_path" = Some (VString path)).
Proof.
  intros Hparse
    (s1 & s2 & s3 & H1 & H2 & H3 & Hframe & _ & Hfeed & Hpackage & Htype
     & Hroot & Hstart & Hname & Hanon & Hbasic & Hwin & Hpath & _)
    %build_analysis.
  apply CreateBasicStep_shape in H1 as (Hn & _ & _ & (props & Ha1 & _) & _).
  rewrite GetString_Set_ne in Hn by done.
  rewrite GetString_Set_ne, GetBool_Set_ne in Ha1 by done.
  apply AddPackageProperties_writes in H3 as (Hfeed3 & Hpackage3 & _).
  rewrite GetString_Set_ne in Hfeed3, Hpackage3 by done.
  rewrite Hfeed3 in Hfeed. rewrite Hpackage3 in Hpackage.
  assert (step_Actions s ≠ []) as Ha.
  { eapply without_bag_Actions; [exact Hframe|]. by rewrite Ha1. }
  assert (step_Name s = GetString d "step_name"
          ∧ action_IsRequired <$> head (step_Actions s)
            = Some (GetBool d "required")) as [Hname' Hreq'].
  { assert (step_Name (without_bag s) = step_Name s
            ∧ action_IsRequired <$> head (step_Actions (without_bag s))
              = action_IsRequired <$> head (step_Actions s)) as [<- <-].
    { unfold without_bag. by destruct (step_Actions s). }
    rewrite Hframe. unfold without_bag. by rewrite Ha1. }
  unfold setIisWebsiteSchema.
  destruct (SetBasicSchema_spec dread s Ha)
    as (d1 & -> & _ & Hn1 & _ & Hq1 & _). simpl.
  destruct (SetPackageSchema_spec d1 s Ha)
    as (d2 & -> & [_ Hd2] & Hf2 & Hp2 & _). simpl.
  unfold resourceDeploymentStep_SetIisAppPoolSchema.
  rewrite !action0_Properties_bag by done. simpl.
  unfold set_parsed_bool.
  rewrite Htype, Hroot, Hstart, Hname, Hanon, Hbasic, Hwin, !Hparse.
  simpl. eexists. split; [reflexivity|].
  assert (attrs d2 !! "step_name" = Some (VString (GetString d "step_name"))
          ∧ attrs d2 !! "required" = Some (VBool (GetBool d "required")))
    as [Hn2 Hq2].
  { rewrite !Hd2 by reflexivity. rewrite Hn1, Hq1, Hname'.
    split; [done|]. revert Hreq'.
    by destruct (head (step_Actions s)); intros [= <-]. }
  rewrite Hfeed in Hf2. rewrite Hpackage in Hp2. simpl in *.
  split_and!.
  all: try (intros path Hp; rewrite (Hpath path Hp)).
  all: destruct (bag s !! "Octopus.Action.IISWebSite.PhysicalPath");
    simpl; rewrite ?lookup_insert_ne by done;
    by rewrite ?lookup_insert_eq.
Qed.

End Website.

Section FlattenBindings.
Import FirstStep IisWebsite.
Context `{Externals}.

(** X24. The bindings the builder of the IIS website step flattens are
    never empty: one entry for each block of the [binding] attribute,
    in order, when the attribute is set to a list with a block, and the
    single default binding otherwise. *)
Theorem flatten_bindings_one_per_binding d bindingsArray :
  flatten_bindings d = Some bindingsArray →
  bindingsArray ≠ []
  ∧ match GetOk d "binding" with
    | Some rawBindings =>
        ∃ bindings,
          rawBindings = VList bindings
          ∧ Forall2 (λ rawBinding binding,
                       flatten_binding rawBinding = Some binding)
              bindings bindingsArray
    | None => bindingsArray = [default_binding]
    end.
Proof.
  unfold flatten_bindings, GetOk. intros Hf.
  destruct (attrs d !! "binding") as [v|]; [|by injection Hf as <-].
  destruct (is_zero v) eqn:Hz; [by injection Hf as <-|].
  apply bind_Some in Hf as (bindings & Hv & Hf).
  destruct v; simplify_eq/=.
  apply mapM_Some in Hf. split; [|by exists bindings].
  intros ->. apply Forall2_nil_inv_r in Hf as ->.
  by rewrite bool_decide_true in Hz.
Qed.

End FlattenBindings.

(** [computed H]: the goal is [H] with its right-hand side evaluated. *)
Ltac computed H := etrans; [exact H|vm_compute; reflexivity].

Section PropertyBagRuns.
Import FirstStep IisWebsite.
Local Existing Instance sample_externals.

Lemma basic_step_round_trip_witness :
  ∃ s dread',
    resourceDeploymentStep_CreateBasicStep sample_basic "Octopus.IIS"
    = Some s
    ∧ resourceDeploymentStep_SetBasicSchema empty_resource s = Some dread'
    ∧ attrs dread' !! "step_name" = Some (VString "web")
    ∧ attrs dread' !! "step_condition" = Some (VString "success")
    ∧ attrs dread' !! "required" = Some (VBool true)
    ∧ attrs dread' !! "run_on_server" = None.
Proof.
  assert (is_Some (resourceDeploymentStep_CreateBasicStep sample_basic
                     "Octopus.IIS")) as [s Hs]
    by (apply is_Some_alt; vm_compute; exact I).
  destruct (basic_step_round_trip sample_basic "Octopus.IIS" s
              empty_resource Hs)
    as (dread' & Hset & Hname & Hcondition & Hrequired & _ & Hrun).
  exists s, dread'.
  split_and!; [exact Hs|exact Hset|computed Hname|computed Hcondition
              |computed Hrequired|computed Hrun].
Defined.

Lemma target_roles_round_trip_witness :
  ∃ s dread',
    resourceDeploymentStep_CreateBasicStep sample_basic "Octopus.IIS"
    = Some s
    ∧ resourceDeploymentStep_SetBasicSchema empty_resource s = Some dread'
    ∧ attrs dread' !! "target_roles"
      = Some (VList [VString "web"; VString "app"]).
Proof.
  assert (is_Some (resourceDeploymentStep_CreateBasicStep sample_basic
                     "Octopus.IIS")) as [s Hs]
    by (apply is_Some_alt; vm_compute; exact I).
  destruct (target_roles_round_trip sample_basic "Octopus.IIS" s
              empty_resource (VList [VString "web"; VString "app"])
              ["web"; "app"] Hs)
    as (dread' & Hset & Hroles).
  - vm_compute; reflexivity.
  - vm_compute; reflexivity.
  - repeat constructor; vm_compute; discriminate.
  - vm_compute; discriminate.
  - exists s, dread'. split_and!; [exact Hs|exact Hset|exact Hroles].
Defined.

Lemma package_round_trip_witness :
  ∃ s' dread',
    resourceDeploymentStep_AddPackageProperties sample_package
      (basic_step "web" "Octopus.IIS") = Some s'
    ∧ resourceDeploymentStep_SetPackageSchema empty_resource s'
      = Some dread'
    ∧ attrs dread' !! "feed_id" = Some (VString "feeds-builtin")
    ∧ attrs dread' !! "package" = Some (VString "Web")
    ∧ attrs dread' !! "json_file_variable_replacement"
      = Some (VString "appsettings.json")
    ∧ attrs dread' !! "variable_substitution_in_files"
      = Some (VList [VString "a.config"; VString "b.config"]).
Proof.
  assert (is_Some (resourceDeploymentStep_AddPackageProperties
                     sample_package (basic_step "web" "Octopus.IIS")))
    as [s' Hs] by (apply is_Some_alt; vm_compute; exact I).
  destruct (package_round_trip sample_package
              (basic_step "web" "Octopus.IIS") s' empty_resource Hs)
    as (dread' & Hset & Hfeed & Hpackage & Hjson & Hfiles).
  exists s', dread'.
  split_and!; [exact Hs|exact Hset|computed Hfeed|computed Hpackage|..].
  - apply Hjson. vm_compute; reflexivity.
  - apply (Hfiles (VList [VString "a.config"; VString "b.config"])
             ["a.config"; "b.config"]).
    + vm_compute; reflexivity.
    + vm_compute; reflexivity.
    + repeat constructor; vm_compute; discriminate.
    + vm_compute; discriminate.
Defined.

Lemma first_step_AddPackageProperties_features_witness :
  ∃ s',
    resourceDeploymentStep_AddPackageProperties sample_package
      (basic_step "web" "Octopus.IIS") = Some s'
    ∧ enabled_features s'
      = ",Octopus.Features.JsonConfigurationVariables"
        +:+ ",Octopus.Features.SubstituteInFiles"
        +:+ ",Octopus.Features.ConfigurationTransforms"
        +:+ ",Octopus.Features.CustomScripts".
Proof.
  assert (is_Some (resourceDeploymentStep_AddPackageProperties
                     sample_package (basic_step "web" "Octopus.IIS")))
    as [s' Hs] by (apply is_Some_alt; vm_compute; exact I).
  destruct (first_step_AddPackageProperties_features sample_package
              (basic_step "web" "Octopus.IIS") s' Hs) as [Hfeatures _].
  exists s'. split; [exact Hs|computed Hfeatures].
Defined.

Lemma before_after_AddPackageProperties_features_witness :
  ∃ s',
    BeforeAfterShared.resourceDeploymentStep_AddPackageProperties
      sample_package_plain (basic_step "web" "Octopus.TentaclePackage")
    = Some s'
    ∧ enabled_features s'
      = ",Octopus.Features.SubstituteInFiles"
        +:+ ",Octopus.Features.ConfigurationVariables"
    ∧ bag s' !! "Octopus.Action.Package.FeedId" = Some "feeds-builtin".
Proof.
  assert (is_Some
            (BeforeAfterShared.resourceDeploymentStep_AddPackageProperties
               sample_package_plain
               (basic_step "web" "Octopus.TentaclePackage")))
    as [s' Hs] by (apply is_Some_alt; vm_compute; exact I).
  destruct (before_after_AddPackageProperties_features
              sample_package_plain
              (basic_step "web" "Octopus.TentaclePackage") s' Hs)
    as (Hfeatures & Hfeed & _).
  exists s'.
  split_and!; [exact Hs|computed Hfeatures|computed Hfeed].
Defined.

Lemma before_after_basic_step_round_trip_witness :
  ∃ s dread',
    BeforeAfterShared.resourceDeploymentStep_CreateBasicStep sample_basic
      "Octopus.TentaclePackage" = Some s
    ∧ BeforeAfterShared.resourceDeploymentStep_SetBasicSchema
        (sample_resource "Steps-B") s = Some dread'
    ∧ attrs dread' !! "step_name" = Some (VString "web")
    ∧ attrs dread' !! "step_condition"
      = attrs (sample_resource "Steps-B") !! "step_condition".
Proof.
  assert (is_Some
            (BeforeAfterShared.resourceDeploymentStep_CreateBasicStep
               sample_basic "Octopus.TentaclePackage")) as [s Hs]
    by (apply is_Some_alt; vm_compute; exact I).
  destruct (before_after_basic_step_round_trip sample_basic
              "Octopus.TentaclePackage" s (sample_resource "Steps-B") Hs)
    as (dread' & Hset & Hname & Hother).
  exists s, dread'.
  split_and!; [exact Hs|exact Hset|computed Hname|].
  apply Hother. vm_compute; discriminate.
Defined.

Lemma website_enabled_features_witness :
  ∃ s d',
    buildIisWebsiteDeploymentStep sample_website = Some (s, d')
    ∧ enabled_features s = "Octopus.Features.IISWebSite".
Proof.
  assert (is_Some (buildIisWebsiteDeploymentStep sample_website))
    as [[s d'] Hb] by (apply is_Some_alt; vm_compute; exact I).
  exists s, d'. split; [exact Hb|].
  computed (website_enabled_features sample_website s d' Hb).
Defined.

Lemma website_round_trip_witness :
  ∃ s d' dread',
    buildIisWebsiteDeploymentStep sample_website = Some (s, d')
    ∧ setIisWebsiteSchema empty_resource s = Some dread'
    ∧ attrs dread' !! "website_name" = Some (VString "Default Web Site")
    ∧ attrs dread' !! "path_type" = Some (VString "packageRoot")
    ∧ attrs dread' !! "start_web_site" = Some (VBool false).
Proof.
  assert (is_Some (buildIisWebsiteDeploymentStep sample_website))
    as [[s d'] Hb] by (apply is_Some_alt; vm_compute; exact I).
  destruct (website_round_trip sample_website s d' empty_resource)
    as (dread' & Hset & _ & _ & _ & _ & Hname & _ & Hpath & Hstart & _);
    [intros []; vm_compute; reflexivity|exact Hb|].
  exists s, d', dread'.
  split_and!; [exact Hb|exact Hset|computed Hname|computed Hpath
              |computed Hstart].
Defined.

Lemma flatten_bindings_one_per_binding_witness :
  ∃ bindingsArray,
    flatten_bindings sample_website = Some bindingsArray
    ∧ length bindingsArray = 1%nat.
Proof.
  assert (is_Some (flatten_bindings sample_website))
    as [bindingsArray Hf] by (apply is_Some_alt; vm_compute; exact I).
  destruct (flatten_bindings_one_per_binding sample_website bindingsArray
              Hf) as [_ Hone].
  exists bindingsArray. split; [exact Hf|].
  assert (GetOk sample_website "binding"
          = Some (VList [VMap (binding_map "https" "*" "443"
                                 "example.org" "" "cert" true true)]))
    as Hget by (vm_compute; reflexivity).
  rewrite Hget in Hone. destruct Hone as (bindings & [= <-] & Hall).
  by apply Forall2_length in Hall as <-.
Defined.

End PropertyBagRuns.
